(** * The nutrition-dashboard data pipeline ([backend.py]), embedded in Rocq

    The pipeline is written against pandas.  A table is modelled the way
    pandas presents it to the program: an ordered list of column names and
    a list of rows, every row carrying its index label and a finite map
    from column names to cells.  An operation of the program that may raise
    returns a [result]; everything else is a total function.

    Conventions of the model, stated once:
    - a cell is null (NaN, NaT, None, <NA>), a text, an integer, a float or
      a timestamp;
    - a finite float is an exact rational: rounding and overflow of binary
      floating point are not represented; the two infinities are;
    - text is a string of bytes; whitespace and letter case are ASCII;
    - sorting by one column puts nulls last; pandas sorts with its default
      algorithm, which does not promise the order of rows with equal keys,
      so the sorting function is a parameter [sort] of every function that
      sorts, known only to return a sorted permutation ([sorts]). *)

From Stdlib Require Import ZArith QArith Qabs Qcanon Ascii String.
From stdpp Require Import base option list sorting gmap strings pretty.
Local Open Scope string_scope.
Local Open Scope Z_scope.
Local Open Scope list_scope.

Module Backend.

(** ** Exceptions *)

Inductive error :=
  | KeyError (column : string)
  | TypeError
  | ValueError
  | OverflowError
  | MergeError.

Inductive result (A : Type) :=
  | Ok (a : A)
  | Err (e : error).
Arguments Ok {A} a.
Arguments Err {A} e.

Definition rbind {A B} (m : result A) (f : A → result B) : result B :=
  match m with Ok a => f a | Err e => Err e end.

Notation "x ←r m ; k" := (rbind m (λ x, k))
  (at level 20, m at level 100, k at level 200, only parsing).
Notation "' p ←r m ; k" := (rbind m (λ p, k))
  (at level 20, p pattern, m at level 100, k at level 200, only parsing).

Fixpoint rmapM {A B} (f : A → result B) (l : list A) : result (list B) :=
  match l with
  | [] => Ok []
  | x :: l' => y ←r f x; ys ←r rmapM f l'; Ok (y :: ys)
  end.

Definition is_Ok {A} (m : result A) : Prop := ∃ a, m = Ok a.

(** ** Text: [str.strip], [str.lower], [str.replace] *)

Module Text.

(** Python's [str.isspace] on ASCII: tab .. carriage return, the four
    separators 28 .. 31 and the space. *)
Definition is_space (c : ascii) : bool :=
  let n := nat_of_ascii c in
  ((9 <=? n) && (n <=? 13) || (28 <=? n) && (n <=? 32))%nat.

Fixpoint lstrip (s : string) : string :=
  match s with
  | String c s' => if is_space c then lstrip s' else s
  | EmptyString => EmptyString
  end.

Definition rstrip (s : string) : string := String.rev (lstrip (String.rev s)).

Definition strip (s : string) : string := rstrip (lstrip s).

Definition lower_ascii (c : ascii) : ascii :=
  let n := nat_of_ascii c in
  if ((65 <=? n) && (n <=? 90))%nat then ascii_of_nat (n + 32) else c.

Fixpoint lower (s : string) : string :=
  match s with
  | String c s' => String (lower_ascii c) (lower s')
  | EmptyString => EmptyString
  end.

(** [s.replace(pat, "")]: every occurrence of [pat], scanning from the
    left, is removed.  [skip] counts the bytes of a match still to drop. *)
Fixpoint remove_from (pat : string) (skip : nat) (s : string) : string :=
  match s with
  | EmptyString => EmptyString
  | String c s' =>
      match skip with
      | S k => remove_from pat k s'
      | O =>
          if String.prefix pat s
          then remove_from pat (String.length pat - 1) s'
          else String c (remove_from pat 0 s')
      end
  end.

Definition remove_all (pat s : string) : string :=
  match pat with
  | EmptyString => s
  | _ => remove_from pat 0 s
  end.

End Text.

(** ** Numbers *)

(** A float that is not NaN.  NaN is the null cell. *)
Inductive fnum :=
  | Fin (q : Q)
  | Inf (negative : bool).

Module Num.

Definition of_Z (z : Z) : fnum := Fin (inject_Z z).

Definition is_integral (q : Q) : bool := Z.eqb (Zpos (Qden (Qred q))) 1.

(** [a - b]; [None] is NaN (infinity minus itself). *)
Definition sub (a b : fnum) : option fnum :=
  match a, b with
  | Fin x, Fin y => Some (Fin (x - y))
  | Fin _, Inf n => Some (Inf (negb n))
  | Inf n, Fin _ => Some (Inf n)
  | Inf n, Inf m => if Bool.eqb n m then None else Some (Inf n)
  end.

Definition add (a b : fnum) : option fnum :=
  match a, b with
  | Fin x, Fin y => Some (Fin (x + y))
  | Fin _, Inf n => Some (Inf n)
  | Inf n, Fin _ => Some (Inf n)
  | Inf n, Inf m => if Bool.eqb n m then Some (Inf n) else None
  end.


Definition compare (a b : fnum) : comparison :=
  match a, b with
  | Fin x, Fin y => (x ?= y)%Q
  | Fin _, Inf n => if n then Gt else Lt
  | Inf n, Fin _ => if n then Lt else Gt
  | Inf n, Inf m =>
      match n, m with
      | true, false => Lt
      | false, true => Gt
      | _, _ => Eq
      end
  end.

Definition leb (a b : fnum) : bool :=
  match compare a b with Gt => false | _ => true end.
Definition eqb (a b : fnum) : bool :=
  match compare a b with Eq => true | _ => false end.

(** Python's [int(x)]: truncation toward zero; an infinity overflows. *)
Definition to_int (a : fnum) : result Z :=
  match a with
  | Fin q => Ok (Z.quot (Qnum q) (Zpos (Qden q)))
  | Inf _ => Err OverflowError
  end.

(** [sum] of a float series, left to right from [0.0]; [None] is NaN. *)
Definition sum (l : list fnum) : option fnum :=
  foldl (λ acc x, a ← acc; add a x) (Some (Fin 0)) l.

End Num.

(** ** Parsing a number out of text: [pd.to_numeric(..., errors="coerce")]

    pandas reads a text cell with its own tokenizer: optional blanks, an
    optional sign, decimal digits with an optional fractional part (at
    least one digit in all), an optional exponent, optional blanks, and
    nothing else.  What the tokenizer rejects is then compared, without
    regard to case, with the names of NaN and of the infinities.  Anything
    else is coerced to NaN. *)

Module Parse.

Definition digit_of (c : ascii) : option Z :=
  let n := nat_of_ascii c in
  if ((48 <=? n) && (n <=? 57))%nat then Some (Z.of_nat (n - 48)) else None.

(** Reads a run of digits: the value read so far, the number of digits
    read so far, and what is left. *)
Fixpoint digits (s : string) (acc : Z) (cnt : nat) : Z * nat * string :=
  match s with
  | String c s' =>
      match digit_of c with
      | Some d => digits s' (10 * acc + d) (S cnt)
      | None => (acc, cnt, s)
      end
  | EmptyString => (acc, cnt, s)
  end.

Definition sign (s : string) : bool * string :=
  match s with
  | String "-" s' => (true, s')
  | String "+" s' => (false, s')
  | _ => (false, s)
  end.

Definition pow10 (e : Z) : Q := Qpower (10 # 1) e.

Definition exponent (s : string) : option (Z * string) :=
  match s with
  | String c s' =>
      if bool_decide (c = "e"%char ∨ c = "E"%char) then
        let '(neg, s1) := sign s' in
        let '(e, cnt, s2) := digits s1 0 0%nat in
        match cnt with
        | O => None
        | _ => Some (if neg then - e else e, s2)
        end
      else Some (0, s)
  | EmptyString => Some (0, s)
  end.

Definition to_double (s : string) : option Q :=
  let s0 := Text.lstrip s in
  let '(neg, s1) := sign s0 in
  let '(ip, n1, s2) := digits s1 0 0%nat in
  let '(fp, n2, s3) :=
    match s2 with
    | String "." s2' => digits s2' 0 0%nat
    | _ => (0, 0%nat, s2)
    end in
  match (n1 + n2)%nat with
  | O => None
  | _ =>
      match exponent s3 with
      | None => None
      | Some (e, s4) =>
          match Text.lstrip s4 with
          | EmptyString =>
              let m := (inject_Z ip + inject_Z fp * pow10 (- Z.of_nat n2))%Q in
              let v := (m * pow10 e)%Q in
              Some (Qred (if neg then - v else v))
          | _ => None
          end
      end
  end.

Definition special (s : string) : option fnum :=
  let t := Text.lower s in
  if bool_decide (t = "inf" ∨ t = "+inf" ∨ t = "infinity" ∨ t = "+infinity")
  then Some (Inf false)
  else if bool_decide (t = "-inf" ∨ t = "-infinity")
  then Some (Inf true)
  else None.

(** [None] is NaN. *)
Definition to_numeric_str (s : string) : option fnum :=
  match to_double s with
  | Some q => Some (Fin q)
  | None => special s
  end.

End Parse.

(** ** Cells *)

Inductive cell :=
  | VNull
  | VStr (s : string)
  | VInt (z : Z)
  | VFloat (f : fnum)
  | VTime (t : Z).

Inductive kind := KText | KNumber | KTimestamp.

Definition cell_kind (c : cell) : option kind :=
  match c with
  | VNull => None
  | VStr _ => Some KText
  | VInt _ | VFloat _ => Some KNumber
  | VTime _ => Some KTimestamp
  end.

Definition isna (c : cell) : bool :=
  match c with VNull => true | _ => false end.

Definition notna (c : cell) : bool := negb (isna c).

(** The numeric value of a cell of an integer or float column. *)
Definition cell_num (c : cell) : option fnum :=
  match c with
  | VInt z => Some (Num.of_Z z)
  | VFloat f => Some f
  | _ => None
  end.

Definition float_cell (o : option fnum) : cell :=
  match o with Some f => VFloat f | None => VNull end.

Definition int_cell (o : option Z) : cell :=
  match o with Some z => VInt z | None => VNull end.

(** *** Equality of values, as hashing sees it

    [duplicated], [drop_duplicates], [groupby], [nunique], [merge] and
    Python's [set] compare values by hash and [==]: an integer equals the
    float of the same value, and nulls fall together.  [cell_key] sends a
    cell to a canonical representative, so that two cells are the same
    value exactly when their keys are equal. *)

Inductive key :=
  | KNull
  | KStr (s : string)
  | KNum (q : Q)
  | KInf (negative : bool)
  | KTime (t : Z).

Definition cell_key (c : cell) : key :=
  match c with
  | VNull => KNull
  | VStr s => KStr s
  | VInt z => KNum (inject_Z z)
  | VFloat (Fin q) => KNum (Qred q)
  | VFloat (Inf n) => KInf n
  | VTime t => KTime t
  end.

#[global] Instance Q_eq_dec : EqDecision Q.
Proof. solve_decision. Defined.
#[global] Instance fnum_eq_dec : EqDecision fnum.
Proof. solve_decision. Defined.
#[global] Instance kind_eq_dec : EqDecision kind.
Proof. solve_decision. Defined.
#[global] Instance cell_eq_dec : EqDecision cell.
Proof. solve_decision. Defined.
#[global] Instance key_eq_dec : EqDecision key.
Proof. solve_decision. Defined.
#[global] Instance error_eq_dec : EqDecision error.
Proof. solve_decision. Defined.

(** *** Order of values, as sorting sees it

    Sorting compares the values of one column.  Texts are ordered byte by
    byte, numbers and timestamps by value; a text cannot be compared with
    a number or a timestamp (Python raises [TypeError]), which [sortable]
    checks before any sort.  [cell_leb] is nevertheless a total preorder on
    all cells, nulls greatest. *)

Definition kind_rank (k : kind) : nat :=
  match k with KText => 0 | KNumber => 1 | KTimestamp => 2 end.

Definition cell_leb (a b : cell) : bool :=
  match a, b with
  | _, VNull => true
  | VNull, _ => false
  | VStr s, VStr t => String.leb s t
  | VTime s, VTime t => Z.leb s t
  | _, _ =>
      match cell_num a, cell_num b with
      | Some x, Some y => Num.leb x y
      | _, _ =>
          match cell_kind a, cell_kind b with
          | Some ka, Some kb => Nat.leb (kind_rank ka) (kind_rank kb)
          | _, _ => true
          end
      end
  end.

(** Descending order, nulls still last ([ascending=False]). *)
Definition cell_geb (a b : cell) : bool :=
  match a, b with
  | _, VNull => true
  | VNull, _ => false
  | _, _ => cell_leb b a
  end.

Definition same_kind (a b : cell) : bool :=
  match cell_kind a, cell_kind b with
  | Some ka, Some kb => bool_decide (ka = kb)
  | _, _ => true
  end.

(** The non-null cells of [l] are of one kind. *)
Fixpoint sortable (l : list cell) : bool :=
  match l with
  | [] => true
  | c :: l' => forallb (same_kind c) l' && sortable l'
  end.

(** ** Stable sorting

    Python's [sorted] and the sort of a table by several columns are
    stable sorts; the insertion sort stands for them. *)

Section StableSort.
Context {A : Type} (leb : A → A → bool).

(** [x] comes from before every element of [l]: it is put in front of
    the first element that is not smaller. *)
Fixpoint insert_sorted (x : A) (l : list A) : list A :=
  match l with
  | [] => [x]
  | y :: l' => if leb x y then x :: l else y :: insert_sorted x l'
  end.

Definition stable_sort (l : list A) : list A := foldr insert_sorted [] l.
End StableSort.

(** ** Tables *)

Record DataFrame := mkDF {
  columns : list string;
  rows : list (Z * gmap string cell)
}.

(** A column taken out of a table: labels and values. *)
Definition Series := list (Z * cell).

(** [pd.DataFrame()] *)
Definition empty_frame : DataFrame := mkDF [] [].

Definition has_column (df : DataFrame) (c : string) : bool :=
  bool_decide (c ∈ columns df).

Definition has_columns (df : DataFrame) (cs : list string) : bool :=
  forallb (has_column df) cs.

(** [df.empty]: no rows or no columns. *)
Definition is_empty (df : DataFrame) : bool :=
  match rows df, columns df with
  | [], _ | _, [] => true
  | _, _ => false
  end.

Definition get (r : gmap string cell) (c : string) : cell :=
  default VNull (r !! c).

(** The values of column [c], row by row. *)
Definition column_values (df : DataFrame) (c : string) : list cell :=
  map (λ ir, get ir.2 c) (rows df).

(** [df[c]]; raises [KeyError] on an absent column. *)
Definition column (df : DataFrame) (c : string) : result Series :=
  if has_column df c
  then Ok (map (λ ir, (ir.1, get ir.2 c)) (rows df))
  else Err (KeyError c).

Definition add_column (cs : list string) (c : string) : list string :=
  if bool_decide (c ∈ cs) then cs else cs ++ [c].

(** [df[c] = s] for a series [s] computed from [df] itself (same labels,
    same order): the values are stored row by row. *)
Definition assign (df : DataFrame) (c : string) (s : Series) : DataFrame :=
  mkDF (add_column (columns df) c)
       (zip_with (λ ir iv, (ir.1, <[c := iv.2]> ir.2)) (rows df) s).

(** [df[c] = f(row)] for a value computed row by row. *)
Definition set_column (c : string) (f : gmap string cell → cell)
    (df : DataFrame) : DataFrame :=
  mkDF (add_column (columns df) c)
       (map (λ ir, (ir.1, <[c := f ir.2]> ir.2)) (rows df)).

Definition with_rows (df : DataFrame) (rs : list (Z * gmap string cell)) : DataFrame :=
  mkDF (columns df) rs.

(** [df.dropna(subset=[c])] *)
Definition dropna (c : string) (df : DataFrame) : DataFrame :=
  with_rows df (filter (λ ir, notna (get ir.2 c) = true) (rows df)).

(** *** Sorting the rows

    [sort_values] and [sort_index] are called without [kind=], so pandas
    sorts with its default algorithm (quicksort), which is not stable: the
    rows come out in ascending order of the key, and rows with equal keys
    in an order that the program does not control.  The sorting function
    is therefore a parameter: [sort leb rs] are the rows [rs] in an order
    that is ascending for [leb]. *)
Definition sorter : Type :=
  (Z * gmap string cell → Z * gmap string cell → bool) →
  list (Z * gmap string cell) → list (Z * gmap string cell).

(** All that is known of the sorting function: on a total preorder it
    returns a sorted permutation. *)
Definition sorts (sort : sorter) : Prop :=
  ∀ leb : Z * gmap string cell → Z * gmap string cell → bool,
    (∀ a b, leb a b = true ∨ leb b a = true) →
    (∀ a b c, leb a b = true → leb b c = true → leb a c = true) →
    ∀ rs, sort leb rs ≡ₚ rs ∧ StronglySorted (λ a b, leb a b = true) (sort leb rs).

(** Two sorting functions: one keeps rows with equal keys in their order,
    the other reverses them. *)
Definition stable_rows : sorter := stable_sort.


(** [df.sort_values(c)] and [df.sort_values(c, ascending=False)] *)
Definition sort_values (sort : sorter) (leb : cell → cell → bool) (c : string)
    (df : DataFrame) : result DataFrame :=
  if negb (has_column df c) then Err (KeyError c)
  else if sortable (column_values df c)
  then Ok (with_rows df (sort (λ a b, leb (get a.2 c) (get b.2 c)) (rows df)))
  else Err TypeError.

(** [df.sort_index()] *)
Definition sort_index (sort : sorter) (df : DataFrame) : DataFrame :=
  with_rows df (sort (λ a b, Z.leb a.1 b.1) (rows df)).

(** ** [parse_week_number] *)

Definition INT64_MIN : Z := - 2 ^ 63.
Definition INT64_MAX : Z := 2 ^ 63 - 1.

(** [astype("Int64")] of the numbers that [pd.to_numeric] read: only an
    integral value that a 64-bit integer holds can be cast, any other
    finite value raises [TypeError]; an infinity raises [OverflowError]. *)
Definition to_Int64 (o : option fnum) : result (option Z) :=
  match o with
  | None => Ok None
  | Some (Fin q) =>
      if Num.is_integral q
      then
        let z := Qnum (Qred q) in
        if (INT64_MIN <=? z) && (z <=? INT64_MAX) then Ok (Some z) else Err TypeError
      else Err TypeError
  | Some (Inf _) => Err OverflowError
  end.

(** The week label of one text cell: lines 38 to 40 of the source. *)
Definition parse_week_text (s : string) : result (option Z) :=
  let s := Text.strip s in
  let s := Text.strip (Text.remove_all "Week" s) in
  to_Int64 (Parse.to_numeric_str s).

(** [astype(str)] turns an integer into its decimal digits, which are
    then parsed as above.  The text of a float is the decimal form of that
    float, which reads back as the same number; the text of a null
    ("nan", "<NA>", "NaT", "None") and that of a timestamp are no
    numbers. *)
Definition parse_week_cell (c : cell) : result (option Z) :=
  match c with
  | VStr s => parse_week_text s
  | VInt z => parse_week_text (pretty z)
  | VFloat f => to_Int64 (Some f)
  | VNull => Ok None
  | VTime _ => Ok None
  end.

Definition parse_week_number (s : Series) : result Series :=
  rmapM (λ iv, w ←r parse_week_cell iv.2; Ok (iv.1, int_cell w)) s.

(** ** [cast_numeric] and the categorical maps *)

(** [pd.to_numeric(..., errors="coerce")] on one cell.  A timestamp is
    read as its count of nanoseconds. *)
Definition to_numeric (c : cell) : cell :=
  match c with
  | VStr s => float_cell (Parse.to_numeric_str s)
  | VInt _ | VFloat _ => c
  | VNull => VNull
  | VTime t => VInt t
  end.

Definition cast_numeric (df : DataFrame) (cols : list string) : DataFrame :=
  foldl (λ d c, if has_column d c
                then set_column c (λ r, to_numeric (get r c)) d
                else d) df cols.

Definition ADHERENCE_MAP : gmap string Q :=
  list_to_map [("Most days", 1%Q); ("Some days", (1 # 2)%Q); ("Very few days", 0%Q)].

Definition SLEEP_BIN_MAP : gmap string Q :=
  list_to_map [("Less than 5", (9 # 2)%Q); ("5-6", (11 # 2)%Q); ("6-7", (13 # 2)%Q);
               ("7-8", (15 # 2)%Q); ("8+", (17 # 2)%Q)].

(** [series.map(d)]: a value that is no key of [d] becomes NaN. *)
Definition map_dict (d : gmap string Q) (c : cell) : cell :=
  match c with
  | VStr s => match d !! s with Some q => VFloat (Fin q) | None => VNull end
  | _ => VNull
  end.

(** Subtraction of two cells of numeric columns.  Arithmetic on text
    raises; arithmetic on timestamps is not part of the model and is
    rejected as well. *)
Definition cell_sub (a b : cell) : result cell :=
  match a, b with
  | VNull, VNull => Ok VNull
  | VNull, _ => match cell_num b with Some _ => Ok VNull | None => Err TypeError end
  | _, VNull => match cell_num a with Some _ => Ok VNull | None => Err TypeError end
  | _, _ =>
      match cell_num a, cell_num b with
      | Some x, Some y => Ok (float_cell (Num.sub x y))
      | _, _ => Err TypeError
      end
  end.

(** ** [dedupe_weekly_keep_latest] *)

Section Duplicates.
Context {A K : Type} `{EqDecision K} (k : A → K).

(** [duplicated(keep=False)]: the key occurs on another row too. *)
Definition duplicated (l : list A) (x : A) : bool :=
  bool_decide (2 ≤ length (filter (λ y, k y = k x) l))%nat.

(** [drop_duplicates(keep="last")]: a row stays when no later row has
    its key. *)
Fixpoint drop_duplicates_last (l : list A) : list A :=
  match l with
  | [] => []
  | x :: l' =>
      if bool_decide (k x ∈ map k l')
      then drop_duplicates_last l'
      else x :: drop_duplicates_last l'
  end.
End Duplicates.

Definition subset_key (cs : list string) (ir : Z * gmap string cell) : list key :=
  map (λ c, cell_key (get ir.2 c)) cs.

(** [df[cols]] *)
Definition project (cols : list string) (df : DataFrame) : DataFrame :=
  mkDF cols
       (map (λ ir, (ir.1, list_to_map (map (λ c, (c, get ir.2 c)) cols))) (rows df)).

(** Order of rows under [sort_values([c1; c2; ...])]: the first column on
    which two rows differ decides. *)
Fixpoint lex_leb (cs : list string) (a b : gmap string cell) : bool :=
  match cs with
  | [] => true
  | c :: cs' =>
      if cell_leb (get a c) (get b c)
      then if cell_leb (get b c) (get a c) then lex_leb cs' a b else true
      else false
  end.

(** [df.sort_values([c1; c2; ...])]: by several columns pandas sorts
    with a stable sort, whatever [kind] is. *)
Definition sort_values_by (cs : list string) (df : DataFrame) : result DataFrame :=
  match filter (λ c, negb (has_column df c)) cs with
  | c :: _ => Err (KeyError c)
  | [] =>
      if forallb (λ c, sortable (column_values df c)) cs
      then Ok (with_rows df (stable_sort (λ a b, lex_leb cs a.2 b.2) (rows df)))
      else Err TypeError
  end.

(** A column of one kind, as a pandas column of a single dtype is. *)
Definition one_kind (df : DataFrame) (c : string) : Prop :=
  sortable (column_values df c) = true.

Definition timestamp_of (ir : Z * gmap string cell) : cell := get ir.2 "timestamp".

(** The key of a submission: identity and week. *)
Definition submission_key : Z * gmap string cell → list key :=
  subset_key ["email"; "week_number"].

Definition dedupe_weekly_keep_latest (sort : sorter) (weekly : DataFrame)
    : result (DataFrame * DataFrame) :=
  if negb (has_columns weekly ["email"; "week_number"])
  then Ok (weekly, empty_frame)
  else
    wk ←r (if has_column weekly "timestamp"
           then sort_values sort cell_leb "timestamp" weekly
           else Ok (sort_index sort weekly));
    let k := submission_key in
    let dup_cols := filter (λ c, has_column wk c = true) ["email"; "week_number"; "timestamp"] in
    let marked := with_rows wk (filter (λ ir, duplicated k (rows wk) ir = true) (rows wk)) in
    duplicates ←r sort_values_by
      (["email"; "week_number"] ++ (if has_column wk "timestamp" then ["timestamp"] else []))
      (project dup_cols marked);
    Ok (with_rows wk (drop_duplicates_last k (rows wk)), duplicates).

(** ** [normalize_common] and [prep_data]

    Two library functions are taken as they are: [py_str], the text that
    [astype(str)] gives for a float or a timestamp, and [to_datetime], the
    timestamp that [pd.to_datetime(..., errors="coerce")] reads from a
    cell, if any. *)

Section Pipeline.
Variable py_str : cell → string.
Variable to_datetime : cell → option Z.

Definition astype_str (c : cell) : string :=
  match c with
  | VStr s => s
  | VInt z => pretty z
  | VNull => "nan"
  | _ => py_str c
  end.

Definition normalize_email (c : cell) : cell :=
  VStr (Text.lower (Text.strip (astype_str c))).

Definition time_cell (o : option Z) : cell :=
  match o with Some t => VTime t | None => VNull end.

Definition normalize_common (df : DataFrame) : DataFrame :=
  let df := if has_column df "email"
            then set_column "email" (λ r, normalize_email (get r "email")) df
            else df in
  if has_column df "timestamp"
  then set_column "timestamp" (λ r, time_cell (to_datetime (get r "timestamp"))) df
  else df.

Definition intake_numeric : list string :=
  ["bodyweight_lbs_baseline"; "rhr_bpm_baseline";
   "sleep_quality_baseline"; "energy_baseline";
   "stress_baseline"; "classes_per_week_baseline";
   "whole_food_days_per_week_baseline"; "alcohol_days_per_week_baseline";
   "takeout_per_week_baseline"].

Definition weekly_numeric : list string :=
  ["bodyweight_lbs_weekly"; "rhr_bpm_weekly";
   "energy_weekly"; "sleep_quality_weekly";
   "stress_weekly"; "alcohol_days_weekly";
   "class_attended_weekly"].

(** The rows of the baseline table that carry the identity of [r]. *)
Definition matches (right : DataFrame) (r : gmap string cell)
    : list (Z * gmap string cell) :=
  filter (λ jr, cell_key (get jr.2 "email") = cell_key (get r "email")) (rows right).

Definition suffixed (left : DataFrame) (c : string) : string :=
  if has_column left c then c +:+ "_intake" else c.

Definition right_columns (right : DataFrame) : list string :=
  filter (λ c, c ≠ "email") (columns right).

Definition right_part (left right : DataFrame) (f : string → cell)
    : gmap string cell :=
  list_to_map (map (λ c, (suffixed left c, f c)) (right_columns right)).

Definition joined_rows (left right : DataFrame) (r : gmap string cell)
    : list (gmap string cell) :=
  match matches right r with
  | [] => [right_part left right (λ _, VNull) ∪ r]
  | ms => map (λ jr, right_part left right (get jr.2) ∪ r) ms
  end.

(** [left.merge(right, on="email", how="left", suffixes=("", "_intake"))].
    pandas raises [MergeError] when the suffix makes two columns of the
    right table collide; when a suffixed name collides with a column of
    the left table it returns a table with a repeated column name, which
    a row of this model cannot hold: both are rejected. *)
Definition merge_left (left right : DataFrame) : result DataFrame :=
  if negb (has_column left "email") then Err (KeyError "email")
  else if negb (has_column right "email") then Err (KeyError "email")
  else
    let out := (columns left ++ map (suffixed left) (right_columns right))%list in
    if bool_decide (NoDup out)
    then Ok (mkDF out
               (imap (λ i r, (Z.of_nat i, r))
                     (flat_map (λ ir, joined_rows left right ir.2) (rows left))))
    else Err MergeError.

(** [merged[d] = merged[a] - merged[b]] when both columns are there. *)
Definition add_delta (d a b : string) (df : DataFrame) : result DataFrame :=
  if has_columns df [a; b]
  then
    vs ←r rmapM (λ ir, v ←r cell_sub (get ir.2 a) (get ir.2 b); Ok (ir.1, v)) (rows df);
    Ok (assign df d vs)
  else Ok df.

Definition prep_data (intake weekly : DataFrame) : result (DataFrame * DataFrame) :=
  let intake := normalize_common intake in
  let weekly := normalize_common weekly in
  raw ←r column weekly "week_number";
  weeks ←r parse_week_number raw;
  let weekly := assign weekly "week_number" weeks in
  let weekly :=
    if has_column weekly "nutrition_adherence_weekly"
    then set_column "adherence_score_weekly"
           (λ r, map_dict ADHERENCE_MAP (get r "nutrition_adherence_weekly")) weekly
    else weekly in
  let weekly :=
    if has_column weekly "sleep_hours_weekly"
    then set_column "sleep_hours_numeric_weekly"
           (λ r, map_dict SLEEP_BIN_MAP (get r "sleep_hours_weekly")) weekly
    else weekly in
  let intake :=
    if has_column intake "sleep_hours_baseline"
    then set_column "sleep_hours_numeric_baseline"
           (λ r, map_dict SLEEP_BIN_MAP (get r "sleep_hours_baseline")) intake
    else intake in
  let intake := cast_numeric intake intake_numeric in
  let weekly := cast_numeric weekly weekly_numeric in
  merged ←r merge_left weekly intake;
  merged ←r add_delta "delta_bodyweight_lbs"
              "bodyweight_lbs_weekly" "bodyweight_lbs_baseline" merged;
  merged ←r add_delta "delta_rhr_bpm" "rhr_bpm_weekly" "rhr_bpm_baseline" merged;
  merged ←r add_delta "delta_energy" "energy_weekly" "energy_baseline" merged;
  Ok (merged, weekly).

End Pipeline.

(** ** [cohort_weekly_summary] *)

Definition key_code (k : key) : unit + string + (Z * positive) + bool + Z :=
  match k with
  | KNull => inl (inl (inl (inl ())))
  | KStr s => inl (inl (inl (inr s)))
  | KNum q => inl (inl (inr (Qnum q, Qden q)))
  | KInf n => inl (inr n)
  | KTime t => inr t
  end.

Definition code_key (c : unit + string + (Z * positive) + bool + Z) : key :=
  match c with
  | inl (inl (inl (inl _))) => KNull
  | inl (inl (inl (inr s))) => KStr s
  | inl (inl (inr (n, d))) => KNum (n # d)
  | inl (inr n) => KInf n
  | inr t => KTime t
  end.

#[global] Instance key_countable : Countable key.
Proof.
  apply (inj_countable' key_code code_key).
  intros [ | s | [n d] | n | t]; reflexivity.
Defined.

(** A value of the set back in a cell. *)
Definition key_cell (k : key) : cell :=
  match k with
  | KNull => VNull
  | KStr s => VStr s
  | KNum q => VFloat (Fin q)
  | KInf n => VFloat (Inf n)
  | KTime t => VTime t
  end.

Definition summary_columns : list string :=
  ["week_number"; "n_participants";
   "bodyweight_mean"; "rhr_mean"; "energy_mean";
   "adherence_mean"; "sleep_hours_mean"; "stress_mean"].

(** The columns the named aggregation reads, next to the result names. *)
Definition summary_means : list (string * string) :=
  [("bodyweight_mean", "bodyweight_lbs_weekly");
   ("rhr_mean", "rhr_bpm_weekly");
   ("energy_mean", "energy_weekly");
   ("adherence_mean", "adherence_score_weekly");
   ("sleep_hours_mean", "sleep_hours_numeric_weekly");
   ("stress_mean", "stress_weekly")].

Definition div_count (s : fnum) (n : nat) : fnum :=
  match s with
  | Fin q => Fin (q / inject_Z (Z.of_nat n))
  | Inf b => Inf b
  end.

(** [mean] of a column within one group: nulls are skipped, a group
    without values has mean NaN, text cannot be averaged. *)
Definition mean (vals : list cell) : result cell :=
  if forallb (λ c, isna c || bool_decide (is_Some (cell_num c))) vals
  then
    match omap cell_num vals with
    | [] => Ok VNull
    | xs => Ok (float_cell (s ← Num.sum xs; Some (div_count s (length xs))))
    end
  else Err TypeError.

(** [nunique]: the number of distinct non-null values. *)
Definition nunique (vals : list cell) : nat :=
  size (list_to_set (map cell_key (filter (λ c, notna c = true) vals)) : gset key).

(** The first row of every key, in the order of the rows. *)
Definition drop_duplicates_first {A K} `{EqDecision K} (k : A → K) (l : list A) : list A :=
  reverse (drop_duplicates_last k (reverse l)).

Definition summary_row (d : DataFrame) (w : cell) : result (gmap string cell) :=
  let group := filter (λ ir, cell_key (get ir.2 "week_number") = cell_key w) (rows d) in
  ms ←r rmapM (λ nc, m ←r mean (map (λ ir, get ir.2 nc.2) group); Ok (nc.1, m))
               summary_means;
  Ok (list_to_map
        (("week_number", w)
         :: ("n_participants", VInt (Z.of_nat (nunique (map (λ ir, get ir.2 "email") group))))
         :: ms)).

Definition cohort_weekly_summary (merged : DataFrame) : result DataFrame :=
  if is_empty merged || negb (has_column merged "week_number")
  then Ok (mkDF summary_columns [])
  else
    let d := dropna "week_number" merged in
    match filter (λ c, negb (has_column d c)) ("email" :: map snd summary_means) with
    | c :: _ => Err (KeyError c)
    | [] =>
        let weeks := column_values d "week_number" in
        if sortable weeks
        then
          let groups := drop_duplicates_first cell_key (stable_sort cell_leb weeks) in
          rs ←r rmapM (summary_row d) groups;
          Ok (mkDF summary_columns (imap (λ i r, (Z.of_nat i, r)) rs))
        else Err TypeError
    end.

(** ** [compute_total_weight_lost] *)






(** ** [current_week] *)

Definition fmax (a b : fnum) : fnum := if Num.leb a b then b else a.

Definition current_week (merged : DataFrame) : result (option Z) :=
  if is_empty merged || negb (has_column merged "week_number") then Ok None
  else
    match omap (λ ir, cell_num (to_numeric (get ir.2 "week_number"))) (rows merged) with
    | [] => Ok None
    | w :: ws => z ←r Num.to_int (foldl fmax w ws); Ok (Some z)
    end.

(** ** [coaching_action_list] *)

(** [series == wk] on one cell. *)
Definition week_is (wk : Z) (c : cell) : bool :=
  match cell_num c with
  | Some x => Num.eqb x (Num.of_Z wk)
  | None => false
  end.

(** [set(df["email"].dropna())] *)
Definition email_set (df : DataFrame) : gset key :=
  if has_column df "email"
  then list_to_set (map cell_key (filter (λ c, notna c = true)
                                    (column_values df "email")))
  else ∅.

(** [sorted(values)] *)
Definition sorted (l : list cell) : result (list cell) :=
  if sortable l then Ok (stable_sort cell_leb l) else Err TypeError.

(** [astype(str).str.strip().eq("Very few days")]: the text of a number,
    of a timestamp or of a null is never that phrase. *)
Definition very_few_days (c : cell) : bool :=
  match c with
  | VStr s => bool_decide (Text.strip s = "Very few days")
  | _ => false
  end.

(** [series >= n] and [series <= n] on one cell of a column: false on a
    null, [TypeError] on a text or a timestamp. *)
Definition cell_cmp (test : fnum → fnum → bool) (c : cell) (n : Z) : result bool :=
  match c with
  | VNull => Ok false
  | _ => match cell_num c with
         | Some x => Ok (test x (Num.of_Z n))
         | None => Err TypeError
         end
  end.

Definition cell_ge := cell_cmp (λ x y, Num.leb y x).
Definition cell_le := cell_cmp Num.leb.

(** A boolean series: labels and values. *)
Definition BoolSeries := list (Z * bool).

(** [pd.Series([False] * n)]: labelled 0 .. n-1. *)
Definition all_false (n : nat) : BoolSeries :=
  map (λ i, (Z.of_nat i, false)) (seq 0 n).

Fixpoint lookup_label {A} (l : list (Z * A)) (i : Z) : option A :=
  match l with
  | [] => None
  | p :: l' => if bool_decide (p.1 = i) then Some p.2 else lookup_label l' i
  end.

(** [a | b] on two boolean series.  With the same labels in the same
    order the values are combined in place.  Otherwise both are aligned on
    the union of their labels, a label missing on a side giving NaN there:
    NaN on the right counts as False, NaN on the left makes the result
    False.  (Alignment is only modelled for series without repeated
    labels.) *)
Definition series_or (a b : BoolSeries) : BoolSeries :=
  if bool_decide (map fst a = map fst b)
  then zip_with (λ x y, (x.1, x.2 || y.2)) a b
  else
    let labels := (map fst a ++ filter (λ i, i ∉ map fst a) (map fst b))%list in
    map (λ i, (i, match lookup_label a i with
                  | Some x => x || default false (lookup_label b i)
                  | None => false
                  end)) labels.

(** [df[c] = s] for a boolean series: in place when the labels are those
    of the table, else looked up label by label, NaN where missing. *)
Definition reindex (labels : list Z) (s : BoolSeries) : list (option bool) :=
  if bool_decide (map fst s = labels)
  then map (λ p, Some p.2) s
  else map (lookup_label s) labels.

(** [df[mask]]: a mask holding NaN raises [ValueError]. *)
Definition mask_rows (rs : list (Z * gmap string cell)) (mask : list (option bool))
    : result (list (Z * gmap string cell)) :=
  bs ←r rmapM (λ o, match o with Some b => Ok b | None => Err ValueError end) mask;
  Ok (map fst (filter (λ rb, rb.2 = true) (zip rs bs))).

Definition true_cell : cell := VInt 1.

Definition at_risk_rules (sort : sorter) (this_week : DataFrame) : result DataFrame :=
  let at_risk := this_week in
  let n := length (rows at_risk) in
  let rule_adherence :=
    if has_column at_risk "nutrition_adherence_weekly"
    then map (λ ir, (ir.1, very_few_days (get ir.2 "nutrition_adherence_weekly")))
             (rows at_risk)
    else all_false n in
  rule_stress_sleep ←r
    (if has_columns at_risk ["stress_weekly"; "sleep_quality_weekly"]
     then rmapM (λ ir, s ←r cell_ge (get ir.2 "stress_weekly") 8;
                       q ←r cell_le (get ir.2 "sleep_quality_weekly") 4;
                       Ok (ir.1, s && q)) (rows at_risk)
     else Ok (all_false n));
  let flags := reindex (map fst (rows at_risk)) (series_or rule_adherence rule_stress_sleep) in
  flagged ←r mask_rows (rows at_risk) flags;
  let at_risk :=
    mkDF (add_column (columns at_risk) "risk_flag")
         (map (λ ir, (ir.1, <["risk_flag" := true_cell]> ir.2)) flagged) in
  if has_column at_risk "stress_weekly"
  then sort_values sort cell_geb "stress_weekly" at_risk
  else Ok at_risk.

(** Lines 212 to 217: the rows of the current week and the identities
    that did not submit. *)
Definition this_week_of (merged : DataFrame) (wk : Z) : DataFrame :=
  with_rows merged (filter (λ ir, week_is wk (get ir.2 "week_number") = true) (rows merged)).

Definition missing_checkin (intake this_week : DataFrame) : result DataFrame :=
  let submitted_emails := email_set this_week in
  let all_emails := email_set intake in
  missing ←r sorted (map key_cell (elements (all_emails ∖ submitted_emails)));
  Ok (mkDF ["email"] (imap (λ i c, (Z.of_nat i, {["email" := c]})) missing)).

Definition coaching_action_list (sort : sorter) (intake merged : DataFrame)
    : result (DataFrame * DataFrame) :=
  wk ←r current_week merged;
  match wk with
  | None => Ok (mkDF ["email"] [], empty_frame)
  | Some wk =>
      let this_week := this_week_of merged wk in
      missing_df ←r missing_checkin intake this_week;
      at_risk ←r at_risk_rules sort this_week;
      Ok (missing_df, at_risk)
  end.

(** ** Auxiliary definitions for the statements *)

Definition by_timestamp (a b : Z * gmap string cell) : bool :=
  cell_leb (timestamp_of a) (timestamp_of b).

Definition by_label (a b : Z * gmap string cell) : bool := Z.leb a.1 b.1.

(** The table sorted at line 83. *)
Definition sorted_rows (sort : sorter) (weekly : DataFrame)
    : list (Z * gmap string cell) :=
  if has_column weekly "timestamp"
  then sort by_timestamp (rows weekly)
  else sort by_label (rows weekly).

Definition email_of (ir : Z * gmap string cell) : cell := get ir.2 "email".

Definition week_of (ir : Z * gmap string cell) : cell := get ir.2 "week_number".

Definition by_week (a b : Z * gmap string cell) : bool :=
  cell_leb (week_of a) (week_of b).

(** A column of numbers and nulls, as [cast_numeric] leaves it. *)
Definition numeric_or_null (c : cell) : bool :=
  match c with
  | VNull | VInt _ | VFloat _ => true
  | VStr _ | VTime _ => false
  end.

Definition numeric_column (df : DataFrame) (c : string) : Prop :=
  forallb numeric_or_null (column_values df c) = true.



(** A column of integers and nulls, as [parse_week_number] leaves it. *)
Definition int_or_null (c : cell) : bool :=
  match c with
  | VNull | VInt _ => true
  | _ => false
  end.


(** [k] is the identity of a row of [rs]. *)
Definition identity_in (rs : list (Z * gmap string cell)) (k : key) : Prop :=
  ∃ ir, ir ∈ rs ∧ email_of ir ≠ VNull ∧ cell_key (email_of ir) = k.


Definition adherence_of (ir : Z * gmap string cell) : cell :=
  get ir.2 "nutrition_adherence_weekly".

Definition stress_of (ir : Z * gmap string cell) : cell := get ir.2 "stress_weekly".

Definition sleep_quality_of (ir : Z * gmap string cell) : cell :=
  get ir.2 "sleep_quality_weekly".

(** Rule A, as the code has it: the adherence answer, trimmed of
    surrounding whitespace, is the phrase. *)
Definition rule_A (ir : Z * gmap string cell) : bool := very_few_days (adherence_of ir).

(** Rule B: stress at least 8 and sleep quality at most 4, both present. *)
Definition rule_B (ir : Z * gmap string cell) : bool :=
  match cell_num (stress_of ir), cell_num (sleep_quality_of ir) with
  | Some s, Some q => Num.leb (Num.of_Z 8) s && Num.leb q (Num.of_Z 4)
  | _, _ => false
  end.

Definition flagged (this_week : DataFrame) (ir : Z * gmap string cell) : bool :=
  rule_A ir
  || has_columns this_week ["stress_weekly"; "sleep_quality_weekly"] && rule_B ir.

(** A flagged row as it stands in the at-risk table. *)
Definition marked (ir : Z * gmap string cell) : Z * gmap string cell :=
  (ir.1, <["risk_flag" := true_cell]> ir.2).

Definition by_stress_desc (a b : Z * gmap string cell) : bool :=
  cell_geb (stress_of a) (stress_of b).

(** The columns whose difference [prep_data] takes, and the names of
    the differences. *)
Definition weekly_operands : list string :=
  ["bodyweight_lbs_weekly"; "rhr_bpm_weekly"; "energy_weekly"].

Definition baseline_operands : list string :=
  ["bodyweight_lbs_baseline"; "rhr_bpm_baseline"; "energy_baseline"].

Definition delta_names : list string :=
  ["delta_bodyweight_lbs"; "delta_rhr_bpm"; "delta_energy"].

(** The names on the weekly side and on the baseline side of the join:
    the columns of the table, the columns [prep_data] derives from them,
    and the operands of the differences. *)
Definition weekly_names (weekly : DataFrame) : list string :=
  columns weekly
  ++ ["adherence_score_weekly"; "sleep_hours_numeric_weekly"] ++ weekly_operands.

Definition intake_names (intake : DataFrame) : list string :=
  columns intake ++ ["sleep_hours_numeric_baseline"] ++ baseline_operands.

(** The column names of the two tables can be joined: no name is repeated
    within a table, and a name other than "email" that is on both sides is
    not an operand of a difference and its suffixed form is a new name on
    both sides. *)
Definition separate_names (intake weekly : DataFrame) : Prop :=
  NoDup (columns weekly) ∧ NoDup (columns intake) ∧
  Forall (λ c, c ∈ weekly_names weekly → c ≠ "email" →
            (c ∉ weekly_operands ++ baseline_operands) ∧
            ((c +:+ "_intake") ∉ intake_names intake) ∧
            ((c +:+ "_intake") ∉ weekly_names weekly))
         (intake_names intake).

(** A week label that line 40 casts whatever the other labels of the
    column are: one that is no number, or an integer that a float holds
    exactly. *)
Definition castable_week (c : cell) : Prop :=
  match parse_week_cell c with
  | Ok None => True
  | Ok (Some z) => - 2 ^ 53 ≤ z ≤ 2 ^ 53
  | Err _ => False
  end.

(** The number of baseline rows that carry the identity of a row of the
    cleaned weekly table. *)
Definition baseline_matches (py_str : cell → string) (intake : DataFrame)
    (ir : Z * gmap string cell) : nat :=
  length (filter (λ jr, normalize_email py_str (get jr.2 "email") = get ir.2 "email")
                 (rows intake)).

(** [df'] has the rows of [df], label by label, every row changed by a
    step that satisfies [P]. *)
Definition tracks (P : gmap string cell → gmap string cell → Prop)
    (df df' : DataFrame) : Prop :=
  Forall2 (λ ir ir', ir'.1 = ir.1 ∧ P ir.2 ir'.2) (rows df) (rows df').

(** The weekly table as [prep_data] joins and returns it, given the
    parsed week numbers; and the baseline table as it joins it. *)
Definition mapped_weekly (py_str : cell → string) (to_datetime : cell → option Z)
    (weekly : DataFrame) (weeks : Series) : DataFrame :=
  let weekly := assign (normalize_common py_str to_datetime weekly) "week_number" weeks in
  let weekly :=
    if has_column weekly "nutrition_adherence_weekly"
    then set_column "adherence_score_weekly"
           (λ r, map_dict ADHERENCE_MAP (get r "nutrition_adherence_weekly")) weekly
    else weekly in
  if has_column weekly "sleep_hours_weekly"
  then set_column "sleep_hours_numeric_weekly"
         (λ r, map_dict SLEEP_BIN_MAP (get r "sleep_hours_weekly")) weekly
  else weekly.

Definition clean_weekly (py_str : cell → string) (to_datetime : cell → option Z)
    (weekly : DataFrame) (weeks : Series) : DataFrame :=
  cast_numeric (mapped_weekly py_str to_datetime weekly weeks) weekly_numeric.

Definition mapped_intake (py_str : cell → string) (to_datetime : cell → option Z)
    (intake : DataFrame) : DataFrame :=
  let intake := normalize_common py_str to_datetime intake in
  if has_column intake "sleep_hours_baseline"
  then set_column "sleep_hours_numeric_baseline"
         (λ r, map_dict SLEEP_BIN_MAP (get r "sleep_hours_baseline")) intake
  else intake.

Definition clean_intake (py_str : cell → string) (to_datetime : cell → option Z)
    (intake : DataFrame) : DataFrame :=
  cast_numeric (mapped_intake py_str to_datetime intake) intake_numeric.

(** The three differences of lines 145 to 150. *)
Definition add_deltas (merged : DataFrame) : result DataFrame :=
  merged ←r add_delta "delta_bodyweight_lbs"
              "bodyweight_lbs_weekly" "bodyweight_lbs_baseline" merged;
  merged ←r add_delta "delta_rhr_bpm" "rhr_bpm_weekly" "rhr_bpm_baseline" merged;
  add_delta "delta_energy" "energy_weekly" "energy_baseline" merged.

(** The operands of the differences are numbers or nulls. *)
Definition operands_numeric (M : DataFrame) : Prop :=
  ∀ c, c ∈ weekly_operands ++ baseline_operands → has_column M c = true →
    ∀ ir, ir ∈ rows M → numeric_or_null (get ir.2 c) = true.

(** *** Example tables *)

Definition example_weekly : DataFrame :=
  mkDF ["email"; "week_number"; "timestamp"]
    [(0, {["email" := VStr "a"; "week_number" := VInt 1; "timestamp" := VTime 5]});
     (1, {["email" := VStr "a"; "week_number" := VInt 1; "timestamp" := VTime 9]});
     (2, {["email" := VStr "a"; "week_number" := VInt 1; "timestamp" := VTime 9]});
     (3, {["email" := VStr "b"; "week_number" := VInt 1; "timestamp" := VTime 2]});
     (4, {["email" := VStr "b"; "week_number" := VInt 1; "timestamp" := VNull]})].

Definition example_deduped : DataFrame * DataFrame :=
  match dedupe_weekly_keep_latest stable_rows example_weekly with
  | Ok p => p
  | Err _ => (empty_frame, empty_frame)
  end.

Definition example_merged : DataFrame :=
  mkDF ["email"; "week_number"; "bodyweight_lbs_weekly"; "bodyweight_lbs_baseline"]
    [(0, {["email" := VStr "a"; "week_number" := VInt 1;
           "bodyweight_lbs_weekly" := VFloat (Fin 198);
           "bodyweight_lbs_baseline" := VFloat (Fin 200)]});
     (1, {["email" := VStr "b"; "week_number" := VInt 1;
           "bodyweight_lbs_weekly" := VFloat (Fin 151);
           "bodyweight_lbs_baseline" := VFloat (Fin 150)]});
     (2, {["email" := VStr "a"; "week_number" := VInt 2;
           "bodyweight_lbs_weekly" := VFloat (Fin 195);
           "bodyweight_lbs_baseline" := VFloat (Fin 200)]});
     (3, {["email" := VStr "c"; "week_number" := VInt 2;
           "bodyweight_lbs_weekly" := VNull;
           "bodyweight_lbs_baseline" := VFloat (Fin 180)]})].

Definition example_intake : DataFrame :=
  mkDF ["email"]
    [(0, {["email" := VStr "a"]}); (1, {["email" := VStr "b"]});
     (2, {["email" := VStr "c"]})].

Definition example_checkins : DataFrame :=
  mkDF ["email"; "week_number"; "nutrition_adherence_weekly";
        "stress_weekly"; "sleep_quality_weekly"]
    [(0, {["email" := VStr "a"; "week_number" := VInt 1;
           "nutrition_adherence_weekly" := VStr "Most days";
           "stress_weekly" := VInt 9; "sleep_quality_weekly" := VInt 3]});
     (1, {["email" := VStr "a"; "week_number" := VInt 2;
           "nutrition_adherence_weekly" := VStr "Most days";
           "stress_weekly" := VInt 7; "sleep_quality_weekly" := VInt 3]});
     (2, {["email" := VStr "c"; "week_number" := VInt 2;
           "nutrition_adherence_weekly" := VStr "Some days";
           "stress_weekly" := VInt 9; "sleep_quality_weekly" := VInt 3]})].

(** Library functions for the examples: no float or timestamp is turned
    into text, and a cell is a timestamp only if it already is one. *)
Definition example_py_str (c : cell) : string := "".

Definition example_to_datetime (c : cell) : option Z :=
  match c with VTime t => Some t | _ => None end.

Definition example_baseline : DataFrame :=
  mkDF ["timestamp"; "email"; "bodyweight_lbs_baseline"]
    [(0, {["timestamp" := VTime 1; "email" := VStr "a@x.com";
           "bodyweight_lbs_baseline" := VInt 200]});
     (1, {["timestamp" := VStr "soon"; "email" := VStr "b@x.com";
           "bodyweight_lbs_baseline" := VStr "150.5"]})].

Definition example_raw_weekly : DataFrame :=
  mkDF ["timestamp"; "email"; "week_number"; "bodyweight_lbs_weekly"]
    [(0, {["timestamp" := VTime 7; "email" := VStr "A@X.com ";
           "week_number" := VStr "Week 1"; "bodyweight_lbs_weekly" := VInt 195]});
     (1, {["timestamp" := VTime 8; "email" := VStr "z@x.com";
           "week_number" := VStr "TBD"; "bodyweight_lbs_weekly" := VStr "n/a"]})].

Definition example_prepared : DataFrame * DataFrame :=
  match prep_data example_py_str example_to_datetime example_baseline example_raw_weekly with
  | Ok p => p
  | Err _ => (empty_frame, empty_frame)
  end.

(** Two baseline rows of one participant, and one check-in. *)
Definition example_twin_baseline : DataFrame :=
  mkDF ["email"; "bodyweight_lbs_baseline"]
    [(0, {["email" := VStr "a@x.com"; "bodyweight_lbs_baseline" := VInt 200]});
     (1, {["email" := VStr "A@x.com "; "bodyweight_lbs_baseline" := VInt 201]})].

Definition example_one_checkin : DataFrame :=
  mkDF ["email"; "week_number"; "bodyweight_lbs_weekly"]
    [(0, {["email" := VStr "a@x.com"; "week_number" := VStr "1";
           "bodyweight_lbs_weekly" := VInt 195]})].

(** Weekly tables without the week-number column, without the identity
    column, and with a week label that is a number but no integer. *)
Definition example_no_week : DataFrame :=
  mkDF ["email"; "bodyweight_lbs_weekly"]
    [(0, {["email" := VStr "a@x.com"; "bodyweight_lbs_weekly" := VInt 195]})].

Definition example_no_email : DataFrame :=
  mkDF ["week_number"; "bodyweight_lbs_weekly"]
    [(0, {["week_number" := VStr "1"; "bodyweight_lbs_weekly" := VInt 195]})].

Definition example_half_week : DataFrame :=
  mkDF ["email"; "week_number"]
    [(0, {["email" := VStr "a@x.com"; "week_number" := VStr "Week 3.5"]})].

Definition example_week_labels : Series :=
  [(0, VStr "Week 3"); (1, VStr " 3 "); (2, VStr "3"); (3, VStr "TBD")].

(** ** [validate_intake] and [validate_weekly] *)

Definition REQUIRED_INTAKE : gset string :=
  list_to_set ["timestamp"; "email";
               "bodyweight_lbs_baseline"; "rhr_bpm_baseline";
               "sleep_quality_baseline"; "energy_baseline"].

Definition REQUIRED_WEEKLY_MIN : gset string :=
  list_to_set ["timestamp"; "email"; "week_number"].

(** [sorted(list(required - set(df.columns)))]: the order in which the set
    is listed does not matter, the names are sorted byte by byte. *)
Definition missing_columns (required : gset string) (df : DataFrame) : list string :=
  stable_sort String.leb (elements (required ∖ list_to_set (columns df))).

Definition validate_intake (intake : DataFrame) : list string :=
  missing_columns REQUIRED_INTAKE intake.

Definition validate_weekly (weekly : DataFrame) : list string :=
  missing_columns REQUIRED_WEEKLY_MIN weekly.

(** ** [member_latest_snapshot] *)

(** [df.tail(1)] *)
Definition tail1 {A} (l : list A) : list A := drop (length l - 1) l.

(** [merged["email"] == member_email] holds on a row whose identity is
    that text; [dropna(subset=["week_number"])] raises [KeyError] when the
    column is not there. *)
Definition member_latest_snapshot (sort : sorter) (merged : DataFrame)
    (member_email : string) : result DataFrame :=
  if is_empty merged || negb (has_column merged "email") then Ok empty_frame
  else
    let df := with_rows merged
                (filter (λ ir, get ir.2 "email" = VStr member_email) (rows merged)) in
    if negb (has_column df "week_number") then Err (KeyError "week_number")
    else
      df ←r sort_values sort cell_leb "week_number" (dropna "week_number" df);
      if is_empty df then Ok empty_frame
      else Ok (with_rows df (tail1 (rows df))).

(** ** The callers in [app.py] *)

(** Line 91: the number of weeks tracked. *)
Definition weeks_tracked (merged_df : DataFrame) : nat :=
  if has_column merged_df "week_number"
  then nunique (column_values merged_df "week_number")
  else 0%nat.

(** What a run of the script comes to at line 82: the tables, a stop with
    the list of missing columns shown to the coach, or an exception. *)
Inductive outcome (A : Type) :=
  | Done (a : A)
  | Stopped (missing : list string)
  | Raised (e : error).
Arguments Done {A} a.
Arguments Stopped {A} missing.
Arguments Raised {A} e.

Section App.
Variable sort : sorter.
Variable py_str : cell → string.
Variable to_datetime : cell → option Z.

(** Lines 72 to 82, on the weekly table that was read and the intake
    table as normalised at line 61: merged table, cleaned weekly table
    and duplicates report. *)
Definition weekly_pipeline (intake_df weekly_df : DataFrame)
    : outcome (DataFrame * DataFrame * DataFrame) :=
  if is_empty weekly_df then Done (empty_frame, empty_frame, empty_frame)
  else
    let weekly_df := normalize_common py_str to_datetime weekly_df in
    match validate_weekly weekly_df with
    | (_ :: _) as missing_weekly => Stopped missing_weekly
    | [] =>
        match
          (raw ←r column weekly_df "week_number";
           weeks ←r parse_week_number raw;
           let weekly_df := assign weekly_df "week_number" weeks in
           p ←r dedupe_weekly_keep_latest sort weekly_df;
           q ←r prep_data py_str to_datetime intake_df p.1;
           Ok (q.1, q.2, p.2))
        with
        | Ok tables => Done tables
        | Err e => Raised e
        end
    end.

(** Lines 60 to 82. *)
Definition load_tables (intake_df weekly_df : DataFrame)
    : outcome (DataFrame * DataFrame * DataFrame) :=
  let intake_df := normalize_common py_str to_datetime intake_df in
  match validate_intake intake_df with
  | (_ :: _) as missing_intake => Stopped missing_intake
  | [] => weekly_pipeline intake_df weekly_df
  end.

End App.

(** ** Auxiliary definitions for the statements, continued *)

(** A text without surrounding whitespace and without upper-case letters,
    as [normalize_common] leaves an identity. *)
Definition normal_text (s : string) : Prop :=
  Text.strip s = s ∧ Text.lower s = s.

Definition normal_identity (c : cell) : Prop :=
  ∃ s, c = VStr s ∧ normal_text s.

(** The names the validators ask for, in the order of [sorted]. *)
Definition intake_required_sorted : list string :=
  ["bodyweight_lbs_baseline"; "email"; "energy_baseline";
   "rhr_bpm_baseline"; "sleep_quality_baseline"; "timestamp"].

Definition weekly_required_sorted : list string :=
  ["email"; "timestamp"; "week_number"].

(** The rows of one member that have a week number. *)
Definition member_rows (merged : DataFrame) (member_email : string)
    : list (Z * gmap string cell) :=
  filter (λ ir, email_of ir = VStr member_email ∧ week_of ir ≠ VNull) (rows merged).

(** The rows whose key is on another row too. *)
Definition repeated_rows (weekly : DataFrame) : list (Z * gmap string cell) :=
  filter (λ ir, duplicated submission_key (rows weekly) ir = true) (rows weekly).

(** The non-null week numbers of a table, as values. *)
Definition week_keys (merged : DataFrame) : gset key :=
  list_to_set (map cell_key (filter (λ c, notna c = true)
                                    (column_values merged "week_number"))).

(** The rows of one week. *)
Definition week_group (merged : DataFrame) (w : cell) : list (Z * gmap string cell) :=
  filter (λ ir, cell_key (week_of ir) = cell_key w) (rows merged).


(** *** Example tables, continued *)

(** A merged table with every column that the summary reads. *)
Definition example_cohort : DataFrame :=
  mkDF ["email"; "week_number"; "bodyweight_lbs_weekly"; "rhr_bpm_weekly";
        "energy_weekly"; "adherence_score_weekly"; "sleep_hours_numeric_weekly";
        "stress_weekly"]
    [(0, {["email" := VStr "a"; "week_number" := VInt 2;
           "bodyweight_lbs_weekly" := VInt 195; "rhr_bpm_weekly" := VInt 60;
           "energy_weekly" := VInt 7; "adherence_score_weekly" := VFloat (Fin 1);
           "sleep_hours_numeric_weekly" := VFloat (Fin (15 # 2));
           "stress_weekly" := VInt 3]});
     (1, {["email" := VStr "b"; "week_number" := VInt 1;
           "bodyweight_lbs_weekly" := VInt 150; "rhr_bpm_weekly" := VNull;
           "energy_weekly" := VInt 5; "adherence_score_weekly" := VNull;
           "sleep_hours_numeric_weekly" := VFloat (Fin (13 # 2));
           "stress_weekly" := VInt 8]});
     (2, {["email" := VStr "a"; "week_number" := VInt 1;
           "bodyweight_lbs_weekly" := VInt 198; "rhr_bpm_weekly" := VInt 62;
           "energy_weekly" := VInt 6; "adherence_score_weekly" := VFloat (Fin (1 # 2));
           "sleep_hours_numeric_weekly" := VNull;
           "stress_weekly" := VInt 4]});
     (3, {["email" := VStr "c"; "week_number" := VNull;
           "bodyweight_lbs_weekly" := VInt 170; "rhr_bpm_weekly" := VInt 70;
           "energy_weekly" := VInt 4; "adherence_score_weekly" := VFloat (Fin 0);
           "sleep_hours_numeric_weekly" := VFloat (Fin (11 # 2));
           "stress_weekly" := VInt 9]})].

(** Check-ins as they are read: one participant twice in week 1. *)
Definition example_submissions : DataFrame :=
  mkDF ["timestamp"; "email"; "week_number"; "bodyweight_lbs_weekly"]
    [(0, {["timestamp" := VTime 5; "email" := VStr "A@x.com ";
           "week_number" := VStr "Week 1"; "bodyweight_lbs_weekly" := VInt 199]});
     (1, {["timestamp" := VTime 9; "email" := VStr "a@x.com";
           "week_number" := VStr "1"; "bodyweight_lbs_weekly" := VInt 198]});
     (2, {["timestamp" := VTime 3; "email" := VStr "b@x.com";
           "week_number" := VStr "Week 2"; "bodyweight_lbs_weekly" := VStr "151"]})].

Definition example_run : DataFrame * DataFrame * DataFrame :=
  match weekly_pipeline stable_rows example_py_str example_to_datetime
          (normalize_common example_py_str example_to_datetime example_baseline)
          example_submissions with
  | Done tables => tables
  | _ => (empty_frame, empty_frame, empty_frame)
  end.

(** A baseline table with the six required columns, and two weekly
    tables with the three required columns whose week label is no integer:
    a fraction and an infinity. *)
Definition example_full_intake : DataFrame :=
  mkDF ["timestamp"; "email"; "bodyweight_lbs_baseline"; "rhr_bpm_baseline";
        "sleep_quality_baseline"; "energy_baseline"]
    [(0, {["timestamp" := VTime 1; "email" := VStr "a@x.com";
           "bodyweight_lbs_baseline" := VInt 200; "rhr_bpm_baseline" := VInt 64;
           "sleep_quality_baseline" := VInt 6; "energy_baseline" := VInt 5]})].

Definition example_bad_label : DataFrame :=
  mkDF ["timestamp"; "email"; "week_number"]
    [(0, {["timestamp" := VTime 7; "email" := VStr "a@x.com";
           "week_number" := VStr "Week 3.5"]})].

Definition example_infinite_label : DataFrame :=
  mkDF ["timestamp"; "email"; "week_number"]
    [(0, {["timestamp" := VTime 7; "email" := VStr "a@x.com";
           "week_number" := VStr "Week inf"]})].

End Backend.

Import Backend.

(** Membership in a list that is written out. *)
Ltac in_list := repeat first [apply list_elem_of_here | apply list_elem_of_further].

(** * Properties *)

(** * Facts about the model *)

(** ** The error monad *)

Lemma rbind_Ok {A B} (m : result A) (f : A → result B) (b : B) :
  rbind m f = Ok b → ∃ a, m = Ok a ∧ f a = Ok b.
Proof. destruct m as [a|e]; simpl; [eauto | discriminate]. Qed.

Lemma rmapM_Ok_length {A B} (f : A → result B) l l' :
  rmapM f l = Ok l' → length l' = length l.
Proof.
  revert l'. induction l as [|x l IH]; intros l' H; simpl in H.
  - by inversion H.
  - apply rbind_Ok in H as (y & _ & H). apply rbind_Ok in H as (ys & Hys & H).
    inversion H; subst. simpl. f_equal. by apply IH.
Qed.

Lemma rmapM_Ok_Forall2 {A B} (f : A → result B) l l' :
  rmapM f l = Ok l' → Forall2 (λ x y, f x = Ok y) l l'.
Proof.
  revert l'. induction l as [|x l IH]; intros l' H; simpl in H.
  - inversion H. constructor.
  - apply rbind_Ok in H as (y & Hy & H). apply rbind_Ok in H as (ys & Hys & H).
    inversion H; subst. constructor; auto.
Qed.

Lemma rmapM_total {A B} (f : A → result B) (g : A → B) l :
  Forall (λ x, f x = Ok (g x)) l → rmapM f l = Ok (map g l).
Proof.
  induction 1 as [|x l Hx _ IH]; simpl; [done|]. by rewrite Hx, IH.
Qed.

(** ** The order of cells *)

Lemma string_leb_refl s : String.leb s s = true.
Proof. destruct (String.leb_total s s); done. Qed.

Lemma string_compare_trans_lt a b c :
  String.compare a b = Lt → String.compare b c = Lt → String.compare a c = Lt.
Proof.
  revert b c. induction a as [|x a IH]; intros [|y b] [|z c]; simpl; try done.
  unfold Ascii.compare.
  destruct (N.compare_spec (N_of_ascii x) (N_of_ascii y)) as [E1|L1|G1]; try done;
  destruct (N.compare_spec (N_of_ascii y) (N_of_ascii z)) as [E2|L2|G2]; try done;
  intros H1 H2.
  - rewrite E1, E2, N.compare_refl. eauto.
  - rewrite E1. by apply N.compare_lt_iff in L2 as ->.
  - rewrite <- E2. by apply N.compare_lt_iff in L1 as ->.
  - assert (N_of_ascii x < N_of_ascii z)%N as L by lia.
    by apply N.compare_lt_iff in L as ->.
Qed.

Lemma string_leb_trans a b c :
  String.leb a b = true → String.leb b c = true → String.leb a c = true.
Proof.
  unfold String.leb. intros H1 H2.
  destruct (String.compare a b) eqn:E1; try done;
  destruct (String.compare b c) eqn:E2; try done.
  - apply String.compare_eq_iff in E1 as ->. by rewrite E2.
  - apply String.compare_eq_iff in E1 as ->. by rewrite E2.
  - apply String.compare_eq_iff in E2 as <-. by rewrite E1.
  - by rewrite (string_compare_trans_lt a b c).
Qed.

Lemma Qcompare_le_iff x y : (x ?= y)%Q ≠ Gt ↔ (x <= y)%Q.
Proof. rewrite Qle_alt. done. Qed.

Lemma num_leb_total a b : Num.leb a b = true ∨ Num.leb b a = true.
Proof.
  unfold Num.leb. destruct a as [x|[]], b as [y|[]]; simpl; auto.
  rewrite <- (Qcompare_antisym x y). destruct (x ?= y)%Q; simpl; auto.
Qed.

Lemma num_leb_Fin x y : Num.leb (Fin x) (Fin y) = true ↔ (x <= y)%Q.
Proof.
  unfold Num.leb; simpl. rewrite <- Qcompare_le_iff.
  destruct (x ?= y)%Q; split; congruence.
Qed.

Lemma num_leb_trans a b c :
  Num.leb a b = true → Num.leb b c = true → Num.leb a c = true.
Proof.
  destruct a as [x|[]], b as [y|[]], c as [z|[]]; try done.
  rewrite !num_leb_Fin. apply Qle_trans.
Qed.

Lemma num_leb_refl a : Num.leb a a = true.
Proof. destruct (num_leb_total a a); done. Qed.

Lemma cell_leb_total a b : cell_leb a b = true ∨ cell_leb b a = true.
Proof.
  destruct a as [|s|z|f|t], b as [|s'|z'|f'|t']; simpl; auto;
    try apply String.leb_total; try apply num_leb_total; lia.
Qed.

Lemma cell_leb_refl a : cell_leb a a = true.
Proof. destruct (cell_leb_total a a); done. Qed.

Lemma cell_leb_trans a b c :
  cell_leb a b = true → cell_leb b c = true → cell_leb a c = true.
Proof.
  destruct a as [|s|z|f|t], b as [|s'|z'|f'|t'], c as [|s''|z''|f''|t''];
    simpl; try done; try apply string_leb_trans; try apply num_leb_trans; lia.
Qed.

Lemma cell_leb_null a : cell_leb VNull a = true → a = VNull.
Proof. by destruct a. Qed.

Lemma cell_geb_total a b : cell_geb a b = true ∨ cell_geb b a = true.
Proof.
  destruct (cell_leb_total a b), (cell_leb_total b a);
    destruct a, b; simpl in *; auto.
Qed.

Lemma cell_geb_trans a b c :
  cell_geb a b = true → cell_geb b c = true → cell_geb a c = true.
Proof.
  intros H1 H2.
  destruct a, b, c; simpl in *; try done;
    try (eapply string_leb_trans; eassumption);
    try (eapply num_leb_trans; eassumption); lia.
Qed.

(** ** The insertion sort *)

Section StableSortPerm.
Context {A : Type} (leb : A → A → bool).

Lemma insert_sorted_perm x l : insert_sorted leb x l ≡ₚ x :: l.
Proof.
  induction l as [|y l IH]; simpl; [done|].
  destruct (leb x y); [done|]. rewrite IH. apply Permutation_swap.
Qed.

Lemma stable_sort_perm l : stable_sort leb l ≡ₚ l.
Proof.
  induction l as [|x l IH]; simpl; [done|].
  rewrite insert_sorted_perm. by rewrite IH.
Qed.

End StableSortPerm.

Section StableSortFacts.
Context {A : Type} (leb : A → A → bool).
Hypothesis leb_total : ∀ a b, leb a b = true ∨ leb b a = true.
Hypothesis leb_trans : ∀ a b c, leb a b = true → leb b c = true → leb a c = true.

Let le (a b : A) : Prop := leb a b = true.

Lemma insert_sorted_sorted x l :
  StronglySorted le l → StronglySorted le (insert_sorted leb x l).
Proof.
  induction 1 as [|y l Hs IH Hy]; simpl.
  - repeat constructor.
  - destruct (leb x y) eqn:E.
    + constructor; [by constructor|].
      constructor; [done|].
      eapply Forall_impl; [exact Hy|]. intros z Hz. by eapply leb_trans.
    + constructor; [done|].
      rewrite insert_sorted_perm. constructor; [|done].
      destruct (leb_total x y); unfold le; congruence.
Qed.

Lemma stable_sort_sorted l : StronglySorted le (stable_sort leb l).
Proof.
  induction l as [|x l IH]; simpl; [constructor|].
  by apply insert_sorted_sorted.
Qed.
End StableSortFacts.

(** ** Sorting functions *)

Lemma stable_rows_sorts : sorts stable_rows.
Proof.
  intros leb Htotal Htrans rs. split.
  - apply stable_sort_perm.
  - by apply stable_sort_sorted.
Qed.


(** ** Duplicates *)

Section DuplicatesFacts.
Context {A K : Type} `{EqDecision K} (k : A → K).

Lemma drop_duplicates_last_sublist l : drop_duplicates_last k l `sublist_of` l.
Proof.
  induction l as [|x l IH]; simpl; [done|].
  case_bool_decide; [by apply sublist_cons | by apply sublist_skip].
Qed.

Lemma drop_duplicates_last_elem x l : x ∈ drop_duplicates_last k l → x ∈ l.
Proof. apply sublist_subseteq, drop_duplicates_last_sublist. Qed.

Lemma drop_duplicates_last_NoDup l : NoDup (map k (drop_duplicates_last k l)).
Proof.
  induction l as [|x l IH]; simpl; [constructor|].
  case_bool_decide as Hx; [done|]. simpl. constructor; [|done].
  intros Hin. apply Hx.
  apply list_elem_of_fmap in Hin as (y & -> & Hy).
  apply list_elem_of_fmap. eauto using drop_duplicates_last_elem.
Qed.

Lemma drop_duplicates_last_keys l x :
  x ∈ l → ∃ y, y ∈ drop_duplicates_last k l ∧ k y = k x.
Proof.
  revert x. induction l as [|z l IH]; intros x; [by intros ?%elem_of_nil|].
  intros [->|Hx]%elem_of_cons; simpl; case_bool_decide as Hz.
  - apply list_elem_of_fmap in Hz as (y & Hy & Hin).
    destruct (IH y Hin) as (y' & ? & ?). exists y'. split; [done|congruence].
  - exists z. split; [left|done].
  - by apply IH.
  - destruct (IH x Hx) as (y & ? & ?). exists y. split; [by right|done].
Qed.

(** A row that stays is followed by no row of its key. *)
Lemma drop_duplicates_last_split l x :
  x ∈ drop_duplicates_last k l →
  ∃ l1 l2, l = l1 ++ x :: l2 ∧ k x ∉ map k l2.
Proof.
  induction l as [|z l IH]; simpl; [by intros ?%elem_of_nil|].
  case_bool_decide as Hz.
  - intros (l1 & l2 & -> & ?)%IH. by exists (z :: l1), l2.
  - intros [->|(l1 & l2 & -> & ?)%IH]%elem_of_cons.
    + by exists [], l.
    + by exists (z :: l1), l2.
Qed.

Lemma drop_duplicates_last_id l :
  NoDup (map k l) → drop_duplicates_last k l = l.
Proof.
  induction l as [|x l IH]; simpl; [done|].
  intros [Hx Hl]%NoDup_cons. rewrite bool_decide_eq_false_2 by done.
  f_equal. by apply IH.
Qed.

Lemma filter_key_NoDup l c :
  NoDup (map k l) → (length (filter (λ y, k y = c) l) ≤ 1)%nat.
Proof.
  induction l as [|x l IH]; simpl; [lia|].
  intros [Hx Hl]%NoDup_cons. rewrite filter_cons. case_decide as Hc.
  - destruct (filter (λ y, k y = c) l) as [|y l'] eqn:E; simpl; [lia|].
    exfalso. apply Hx. assert (y ∈ filter (λ y, k y = c) l) as Hy by (rewrite E; left).
    apply list_elem_of_filter in Hy as [Hy Hin].
    apply list_elem_of_fmap. exists y. split; [congruence|done].
  - by apply IH.
Qed.

Lemma duplicated_NoDup l x : NoDup (map k l) → duplicated k l x = false.
Proof.
  intros Hl. unfold duplicated. apply bool_decide_eq_false_2.
  pose proof (filter_key_NoDup l (k x) Hl). lia.
Qed.
End DuplicatesFacts.

(** ** Columns of one kind *)

Lemma same_kind_refl a : same_kind a a = true.
Proof. destruct a; simpl; done. Qed.

Lemma same_kind_sym a b : same_kind a b = same_kind b a.
Proof. destruct a, b; simpl; done. Qed.

Lemma sortable_spec l :
  sortable l = true ↔ ∀ a b, a ∈ l → b ∈ l → same_kind a b = true.
Proof.
  induction l as [|c l IH]; simpl.
  - split; [|done]. by intros _ a b ?%elem_of_nil.
  - rewrite andb_true_iff, forallb_forall, IH. split.
    + intros [Hc Hl] a b [->|Ha]%elem_of_cons [->|Hb]%elem_of_cons.
      * apply same_kind_refl.
      * apply Hc. by apply list_elem_of_In.
      * rewrite same_kind_sym. apply Hc. by apply list_elem_of_In.
      * by apply Hl.
    + intros H. split.
      * intros x Hx%list_elem_of_In. apply H; [left|by right].
      * intros a b Ha Hb. apply H; by right.
Qed.

Lemma sortable_subseteq l1 l2 : l1 ⊆ l2 → sortable l2 = true → sortable l1 = true.
Proof. rewrite !sortable_spec. intros Hsub H a b Ha Hb. apply H; by apply Hsub. Qed.

Lemma sortable_nil_or_single l : (length l ≤ 1)%nat → sortable l = true.
Proof. destruct l as [|a [|b l]]; simpl; [done|done|lia]. Qed.

(** ** Cells of a row *)

Lemma get_list_to_map (f : string → cell) (cs : list string) (c : string) :
  get (list_to_map (map (λ c, (c, f c)) cs)) c = if bool_decide (c ∈ cs) then f c else VNull.
Proof.
  unfold get. induction cs as [|d cs IH]; simpl.
  - by rewrite lookup_empty.
  - destruct (decide (d = c)) as [->|Hne].
    + rewrite lookup_insert_eq. rewrite bool_decide_eq_true_2 by left. done.
    + rewrite lookup_insert_ne by done. rewrite IH.
      destruct (bool_decide (c ∈ cs)) eqn:E.
      * apply bool_decide_eq_true in E. rewrite bool_decide_eq_true_2 by (by right). done.
      * apply bool_decide_eq_false in E. rewrite bool_decide_eq_false_2; [done|].
        intros [?|?]%elem_of_cons; congruence.
Qed.

Lemma column_values_with_rows df rs c :
  column_values (with_rows df rs) c = map (λ ir, get ir.2 c) rs.
Proof. done. Qed.

Lemma column_values_subseteq df rs c :
  rs ⊆ rows df → column_values (with_rows df rs) c ⊆ column_values df c.
Proof.
  intros Hsub x (ir & -> & Hir)%list_elem_of_fmap.
  apply list_elem_of_fmap. exists ir. split; [done|]. by apply Hsub.
Qed.

Lemma has_columns_cons df c cs :
  has_columns df (c :: cs) = has_column df c && has_columns df cs.
Proof. done. Qed.

(** ** [dedupe_weekly_keep_latest] *)

Lemma by_timestamp_total a b : by_timestamp a b = true ∨ by_timestamp b a = true.
Proof. apply cell_leb_total. Qed.

Lemma by_timestamp_trans a b c :
  by_timestamp a b = true → by_timestamp b c = true → by_timestamp a c = true.
Proof. apply cell_leb_trans. Qed.

Lemma by_label_total a b : by_label a b = true ∨ by_label b a = true.
Proof. unfold by_label. lia. Qed.

Lemma by_label_trans a b c :
  by_label a b = true → by_label b c = true → by_label a c = true.
Proof. unfold by_label. lia. Qed.

Lemma sorted_rows_perm sort weekly :
  sorts sort → sorted_rows sort weekly ≡ₚ rows weekly.
Proof.
  intros Hsort. unfold sorted_rows. destruct (has_column _ _).
  - apply Hsort; [apply by_timestamp_total | apply by_timestamp_trans].
  - apply Hsort; [apply by_label_total | apply by_label_trans].
Qed.

Lemma dedupe_Ok sort weekly wk dups :
  has_columns weekly ["email"; "week_number"] = true →
  dedupe_weekly_keep_latest sort weekly = Ok (wk, dups) →
  wk = with_rows weekly (drop_duplicates_last submission_key (sorted_rows sort weekly)) ∧
  (has_column weekly "timestamp" = true → one_kind weekly "timestamp").
Proof.
  intros Hc. unfold dedupe_weekly_keep_latest, sorted_rows. rewrite Hc. simpl negb. cbv iota.
  unfold sort_values, one_kind.
  destruct (has_column weekly "timestamp") eqn:Ht; simpl negb; cbv iota.
  - destruct (sortable (column_values weekly "timestamp")) eqn:Hs; [|done].
    simpl rbind. intros (d & _ & [= <- _])%rbind_Ok. done.
  - simpl rbind. intros (d & _ & [= <- _])%rbind_Ok. done.
Qed.

Lemma dedupe_no_key sort weekly :
  has_columns weekly ["email"; "week_number"] = false →
  dedupe_weekly_keep_latest sort weekly = Ok (weekly, empty_frame).
Proof. intros Hc. unfold dedupe_weekly_keep_latest. by rewrite Hc. Qed.

Lemma sorted_rows_sorted_ts sort weekly :
  sorts sort →
  has_column weekly "timestamp" = true →
  StronglySorted (λ a b, by_timestamp a b = true) (sorted_rows sort weekly).
Proof.
  intros Hsort Ht. unfold sorted_rows. rewrite Ht.
  apply Hsort; [apply by_timestamp_total | apply by_timestamp_trans].
Qed.

Lemma StronglySorted_sublist {A} (R : relation A) l1 l2 :
  l1 `sublist_of` l2 → StronglySorted R l2 → StronglySorted R l1.
Proof.
  induction 1 as [|x l1 l2 Hs IH|x l1 l2 Hs IH]; intros H; [done| |].
  - apply StronglySorted_cons in H as [Hx H]. constructor; [by apply IH|].
    eapply Forall_forall. intros y Hy. rewrite Forall_forall in Hx. apply Hx.
    by eapply sublist_subseteq.
  - apply StronglySorted_cons in H as [_ H]. by apply IH.
Qed.

Lemma StronglySorted_lookup {A} (R : relation A) l i j a b :
  StronglySorted R l → (i < j)%nat → l !! i = Some a → l !! j = Some b → R a b.
Proof.
  intros Hs. revert i j. induction Hs as [|x l Hs IH Hx]; intros i j Hij Hi Hj.
  - by rewrite lookup_nil in Hi.
  - destruct j as [|j]; [lia|]. destruct i as [|i]; simpl in *.
    + inversion Hi; subst. rewrite Forall_forall in Hx. apply Hx.
      by eapply list_elem_of_lookup_2.
    + eapply (IH i j); [lia|done..].
Qed.

Lemma same_kind_null_l a : same_kind VNull a = true.
Proof. done. Qed.

Lemma same_kind_null_r a : same_kind a VNull = true.
Proof. by destruct a. Qed.

Lemma sortable_project df rs cols c :
  one_kind df c → rs ⊆ rows df →
  sortable (column_values (project cols (with_rows df rs)) c) = true.
Proof.
  intros Hk Hsub. apply sortable_spec.
  assert (∀ a, a ∈ column_values (project cols (with_rows df rs)) c →
               a = VNull ∨ a ∈ column_values df c) as Hin.
  { intros a (ir & -> & Hir)%list_elem_of_fmap.
    apply list_elem_of_fmap in Hir as (jr & -> & Hjr). simpl.
    rewrite get_list_to_map. case_bool_decide; [right|by left].
    apply list_elem_of_fmap. exists jr. split; [done|]. by apply Hsub. }
  intros a b [->|Ha]%Hin [->|Hb]%Hin;
    auto using same_kind_null_l, same_kind_null_r.
  unfold one_kind in Hk. rewrite sortable_spec in Hk. by apply Hk.
Qed.

Lemma filter_rows_subseteq {A} (P : A → Prop) `{∀ x, Decision (P x)} (l : list A) :
  filter P l ⊆ l.
Proof. intros x [_ ?]%list_elem_of_filter. done. Qed.

(** The deduplicator returns on every table whose key and timestamp
    columns are each of one kind. *)
Lemma dedupe_returns sort weekly :
  sorts sort →
  (has_column weekly "timestamp" = true → one_kind weekly "timestamp") →
  one_kind weekly "email" → one_kind weekly "week_number" →
  is_Ok (dedupe_weekly_keep_latest sort weekly).
Proof.
  intros Hsort Hts He Hw. unfold is_Ok.
  destruct (has_columns weekly ["email"; "week_number"]) eqn:Hc;
    [|rewrite (dedupe_no_key _ _ Hc); eauto].
  unfold dedupe_weekly_keep_latest. rewrite Hc. simpl negb. cbv iota.
  pose proof Hc as Hc'. rewrite !has_columns_cons, !andb_true_iff in Hc'.
  destruct Hc' as (Hce & Hcw & _).
  set (wk := with_rows weekly (sorted_rows sort weekly)).
  assert ((if has_column weekly "timestamp"
           then sort_values sort cell_leb "timestamp" weekly
           else Ok (sort_index sort weekly)) = Ok wk) as ->.
  { unfold wk, sorted_rows, sort_values.
    destruct (has_column weekly "timestamp") eqn:Ht; simpl; [|done].
    unfold one_kind in Hts. by rewrite Hts. }
  simpl rbind.
  assert (∀ c, has_column wk c = has_column weekly c) as Hhas by done.
  assert (rows wk ⊆ rows weekly) as Hsub.
  { intros x. unfold wk; simpl. by rewrite sorted_rows_perm. }
  match goal with |- context [with_rows wk ?m] => set (marked := m) end.
  assert (marked ⊆ rows weekly) as Hm.
  { etrans; [apply filter_rows_subseteq|done]. }
  clearbody marked.
  assert (filter (λ c, has_column wk c = true) ["email"; "week_number"; "timestamp"]
          = "email" :: "week_number"
              :: (if has_column weekly "timestamp" then ["timestamp"] else [])) as ->.
  { rewrite filter_cons_True by done. rewrite filter_cons_True by done.
    rewrite filter_cons. rewrite Hhas.
    destruct (has_column weekly "timestamp"); by rewrite ?decide_True, ?decide_False by done. }
  rewrite Hhas.
  assert (∀ c cols, sortable (column_values (project cols (with_rows wk marked)) c) = true
                    ↔ sortable (column_values (project cols (with_rows weekly marked)) c) = true)
    as Hproj by done.
  unfold sort_values_by.
  destruct (has_column weekly "timestamp") eqn:Ht.
  - assert (filter (λ c, negb (has_column
              (project ["email"; "week_number"; "timestamp"] (with_rows wk marked)) c))
              ["email"; "week_number"; "timestamp"] = []) as -> by done.
    simpl forallb.
    rewrite !(proj2 (Hproj _ _)) by (apply sortable_project; auto).
    simpl. eauto.
  - assert (filter (λ c, negb (has_column
              (project ["email"; "week_number"] (with_rows wk marked)) c))
              ["email"; "week_number"] = []) as -> by done.
    simpl forallb.
    rewrite !(proj2 (Hproj _ _)) by (apply sortable_project; auto).
    simpl. eauto.
Qed.

(** The row that line 91 keeps for a key is a row of the table given and,
    in the order of the sort, no row of its key is greater. *)
Lemma kept_row_is_greatest (sort : sorter) (l : list (Z * gmap string cell)) ir :
  sorts sort →
  ir ∈ drop_duplicates_last submission_key (sort by_timestamp l) →
  ir ∈ l ∧
  ∀ jr, jr ∈ l → submission_key jr = submission_key ir →
    cell_leb (timestamp_of jr) (timestamp_of ir) = true.
Proof.
  intros Hsort Hir.
  destruct (Hsort by_timestamp by_timestamp_total by_timestamp_trans l) as [Hperm Hsorted].
  apply drop_duplicates_last_split in Hir as (l1 & l2 & Hl & Hlast).
  rewrite Hl in Hperm, Hsorted. split.
  { rewrite <- Hperm. apply elem_of_app. right. left. }
  intros jr Hjr Hk. rewrite <- Hperm in Hjr.
  apply elem_of_app in Hjr as [Hjr|Hjr].
  - apply StronglySorted_app in Hsorted as (Hlt & _ & _).
    apply (Hlt jr ir Hjr). left.
  - apply elem_of_cons in Hjr as [->|Hjr]; [apply cell_leb_refl|].
    exfalso. apply Hlast. apply list_elem_of_fmap. exists jr. by split.
Qed.

(** What the deduplicator returns on a table with the three columns. *)
Lemma dedupe_kept (sort : sorter) (weekly : DataFrame) :
  sorts sort →
  has_columns weekly ["email"; "week_number"; "timestamp"] = true →
  one_kind weekly "email" → one_kind weekly "week_number" →
  one_kind weekly "timestamp" →
  ∃ dups,
    dedupe_weekly_keep_latest sort weekly
    = Ok (with_rows weekly
            (drop_duplicates_last submission_key (sort by_timestamp (rows weekly))),
          dups).
Proof.
  intros Hsort Hc He Hw Ht.
  rewrite !has_columns_cons, !andb_true_iff in Hc. destruct Hc as (Hce & Hcw & Hct & _).
  assert (has_columns weekly ["email"; "week_number"] = true) as Hc
    by (by rewrite !has_columns_cons, Hce, Hcw).
  destruct (dedupe_returns sort weekly) as [[wk dups] Hd]; auto.
  exists dups. rewrite Hd.
  destruct (dedupe_Ok _ _ _ _ Hc Hd) as [-> _].
  unfold sorted_rows. by rewrite Hct.
Qed.




(** C10.  On a weekly table with identity, week-number and timestamp
    columns, each of one kind, the deduplicator returns, whatever the
    sorting function; in the table returned no row with a timestamp comes
    after a row whose timestamp is null; and for every (email, week_number)
    key that has a row with a null timestamp, the one row kept for the key
    is a row of the table given whose timestamp is null. *)
Theorem null_timestamp_row_survives (sort : sorter) (weekly : DataFrame) :
  sorts sort →
  has_columns weekly ["email"; "week_number"; "timestamp"] = true →
  one_kind weekly "email" → one_kind weekly "week_number" →
  one_kind weekly "timestamp" →
  ∃ wk dups,
    dedupe_weekly_keep_latest sort weekly = Ok (wk, dups) ∧
    (∀ i j a b, (i < j)%nat →
       rows wk !! i = Some a → rows wk !! j = Some b →
       timestamp_of a = VNull → timestamp_of b = VNull) ∧
    (∀ jr, jr ∈ rows weekly → timestamp_of jr = VNull →
       ∃ ir, ir ∈ rows wk ∧ ir ∈ rows weekly ∧
             submission_key ir = submission_key jr ∧
             timestamp_of ir = VNull ∧
             ∀ ir', ir' ∈ rows wk → submission_key ir' = submission_key jr → ir' = ir).
Proof.
  intros Hsort Hc He Hw Ht.
  destruct (dedupe_kept sort weekly Hsort Hc He Hw Ht) as [dups Hd].
  eexists _, dups. split; [exact Hd|]. cbn [columns rows with_rows].
  destruct (Hsort by_timestamp by_timestamp_total by_timestamp_trans (rows weekly))
    as [Hperm Hsorted].
  set (kept := drop_duplicates_last submission_key (sort by_timestamp (rows weekly))).
  split.
  - intros i j a b Hij Ha Hb Hn.
    assert (StronglySorted (λ a b, by_timestamp a b = true) kept) as Hs.
    { eapply StronglySorted_sublist; [|exact Hsorted].
      apply drop_duplicates_last_sublist. }
    pose proof (StronglySorted_lookup _ _ _ _ _ _ Hs Hij Ha Hb) as Hab.
    unfold by_timestamp in Hab. rewrite Hn in Hab. by apply cell_leb_null.
  - intros jr Hjr Hn.
    destruct (drop_duplicates_last_keys submission_key
                (sort by_timestamp (rows weekly)) jr) as (ir & Hir & Hk).
    { by rewrite Hperm. }
    fold kept in Hir.
    destruct (kept_row_is_greatest sort (rows weekly) ir Hsort Hir) as [Hin Hmax].
    exists ir. split_and!; [done|done|done| |].
    + specialize (Hmax jr Hjr (eq_sym Hk)). rewrite Hn in Hmax.
      by apply cell_leb_null.
    + intros ir' Hir' Hk'.
      pose proof (drop_duplicates_last_NoDup submission_key
                    (sort by_timestamp (rows weekly))) as Hnd.
      fold kept in Hnd.
      apply list_elem_of_lookup in Hir as [i Hi].
      apply list_elem_of_lookup in Hir' as [i' Hi'].
      assert (i' = i) as ->; [|congruence].
      eapply NoDup_lookup; [exact Hnd| |].
      * rewrite list_lookup_fmap, Hi'. simpl. reflexivity.
      * rewrite list_lookup_fmap, Hi. simpl. by rewrite Hk', Hk.
Qed.

Lemma null_timestamp_row_survives_witness :
  timestamp_of (4, {["email" := VStr "b"; "week_number" := VInt 1;
                     "timestamp" := VNull]}) = VNull ∧
  ∃ wk dups,
    dedupe_weekly_keep_latest stable_rows example_weekly = Ok (wk, dups) ∧
    map fst (rows wk) = [2; 4] ∧
    map timestamp_of (rows wk) = [VTime 9; VNull] ∧
    (∀ jr, jr ∈ rows example_weekly → timestamp_of jr = VNull →
       ∃ ir, ir ∈ rows wk ∧ ir ∈ rows example_weekly ∧
             submission_key ir = submission_key jr ∧
             timestamp_of ir = VNull ∧
             ∀ ir', ir' ∈ rows wk → submission_key ir' = submission_key jr → ir' = ir).
Proof.
  split; [reflexivity|].
  destruct (null_timestamp_row_survives stable_rows example_weekly)
    as (wk & dups & Hd & _ & Hnull);
    [exact stable_rows_sorts|vm_compute; reflexivity..|].
  exists wk, dups. split; [exact Hd|].
  vm_compute in Hd. injection Hd as <- _.
  split; [reflexivity|]. split; [reflexivity|]. exact Hnull.
Defined.

Lemma filter_none {A} (P : A → Prop) `{∀ x, Decision (P x)} (l : list A) :
  (∀ x, x ∈ l → ¬ P x) → filter P l = [].
Proof.
  induction l as [|x l IH]; intros Hl; [done|].
  rewrite filter_cons_False by (apply Hl; left).
  apply IH. intros y Hy. apply Hl. by right.
Qed.

Lemma sorted_rows_sorted_label sort weekly :
  sorts sort →
  has_column weekly "timestamp" = false →
  StronglySorted (λ a b, by_label a b = true) (sorted_rows sort weekly).
Proof.
  intros Hsort Ht. unfold sorted_rows. rewrite Ht.
  apply Hsort; [apply by_label_total | apply by_label_trans].
Qed.

(** A table without repeated keys goes through the deduplicator with its
    rows sorted and nothing else changed. *)
Lemma dedupe_no_repeats (sort : sorter) (wk : DataFrame) :
  sorts sort →
  has_columns wk ["email"; "week_number"] = true →
  (has_column wk "timestamp" = true → one_kind wk "timestamp") →
  NoDup (map submission_key (rows wk)) →
  ∃ dups,
    dedupe_weekly_keep_latest sort wk = Ok (with_rows wk (sorted_rows sort wk), dups) ∧
    rows dups = [].
Proof.
  intros Hsort Hc Hk Hnd.
  assert (NoDup (map submission_key (sorted_rows sort wk))) as Hnd'.
  { by rewrite sorted_rows_perm. }
  unfold dedupe_weekly_keep_latest. rewrite Hc. cbn [negb].
  set (w1 := with_rows wk (sorted_rows sort wk)).
  assert ((if has_column wk "timestamp"
           then sort_values sort cell_leb "timestamp" wk
           else Ok (sort_index sort wk)) = Ok w1) as ->.
  { unfold w1, sorted_rows, sort_values.
    destruct (has_column wk "timestamp") eqn:Ht; cbn [negb]; [|done].
    unfold one_kind in Hk. by rewrite Hk. }
  cbn [rbind].
  assert (∀ c, has_column w1 c = has_column wk c) as Hhas by done.
  change (rows w1) with (sorted_rows sort wk).
  rewrite (filter_none _ (sorted_rows sort wk)).
  2: { intros x _. by rewrite duplicated_NoDup. }
  rewrite drop_duplicates_last_id by done.
  rewrite !has_columns_cons, !andb_true_iff in Hc. destruct Hc as (Hce & Hcw & _).
  rewrite <- Hhas in Hce, Hcw.
  rewrite filter_cons_True by done. rewrite filter_cons_True by done.
  unfold sort_values_by.
  destruct (has_column w1 "timestamp") eqn:Ht.
  - rewrite filter_cons_True by done. rewrite filter_nil. cbn [app].
    assert (filter (λ c, negb (has_column
              (project ["email"; "week_number"; "timestamp"] (with_rows w1 [])) c))
              ["email"; "week_number"; "timestamp"] = []) as -> by done.
    cbn. eexists. split; reflexivity.
  - rewrite filter_cons_False by (rewrite Ht; done). rewrite filter_nil. cbn [app].
    assert (filter (λ c, negb (has_column
              (project ["email"; "week_number"] (with_rows w1 [])) c))
              ["email"; "week_number"] = []) as -> by done.
    cbn. eexists. split; reflexivity.
Qed.

(** C6.  Whenever the deduplicator returns a table, running it on that
    table returns a table with the same columns and the same rows, none
    removed, in an order that the sorting function chooses, and a
    duplicates report of no rows. *)
Theorem dedupe_idempotent (sort : sorter) (weekly wk dups : DataFrame) :
  sorts sort →
  dedupe_weekly_keep_latest sort weekly = Ok (wk, dups) →
  ∃ wk' dups',
    dedupe_weekly_keep_latest sort wk = Ok (wk', dups') ∧
    columns wk' = columns wk ∧
    rows wk' ≡ₚ rows wk ∧
    rows dups' = [].
Proof.
  intros Hsort Hd.
  destruct (has_columns weekly ["email"; "week_number"]) eqn:Hc.
  2: { rewrite (dedupe_no_key _ _ Hc) in Hd. inversion Hd; subst.
       exists wk, empty_frame. by rewrite (dedupe_no_key _ _ Hc). }
  destruct (dedupe_Ok _ _ _ _ Hc Hd) as [-> Hk]. clear Hd dups.
  set (kept := drop_duplicates_last submission_key (sorted_rows sort weekly)).
  set (wk := with_rows weekly kept).
  assert (∀ c, has_column wk c = has_column weekly c) as Hhas by done.
  destruct (dedupe_no_repeats sort wk Hsort) as (dups' & Hd' & Hnil).
  - done.
  - rewrite Hhas. intros Ht. eapply sortable_subseteq; [|by apply Hk].
    apply column_values_subseteq. intros x Hx.
    rewrite <- (sorted_rows_perm sort weekly Hsort).
    by eapply drop_duplicates_last_elem.
  - apply drop_duplicates_last_NoDup.
  - eexists _, dups'. split; [exact Hd'|]. split; [done|]. split; [|done].
    by apply sorted_rows_perm.
Qed.

Lemma dedupe_idempotent_witness :
  dedupe_weekly_keep_latest stable_rows example_weekly = Ok example_deduped ∧
  map fst (rows example_deduped.1) = [2; 4] ∧
  ∃ wk' dups',
    dedupe_weekly_keep_latest stable_rows example_deduped.1 = Ok (wk', dups') ∧
    columns wk' = columns example_deduped.1 ∧
    rows wk' ≡ₚ rows example_deduped.1 ∧
    rows dups' = [].
Proof.
  split; [vm_compute; reflexivity|]. split; [reflexivity|].
  apply (dedupe_idempotent stable_rows example_weekly example_deduped.1 example_deduped.2).
  - exact stable_rows_sorts.
  - vm_compute. reflexivity.
Defined.

(** ** [compute_total_weight_lost] *)

Lemma notna_true c : notna c = true ↔ c ≠ VNull.
Proof. destruct c; simpl; split; try done; intros H; by destruct H. Qed.

Lemma cell_key_null c : cell_key c = KNull ↔ c = VNull.
Proof. destruct c as [| | |[]|]; simpl; split; congruence. Qed.






Lemma by_week_total a b : by_week a b = true ∨ by_week b a = true.
Proof. apply cell_leb_total. Qed.

Lemma by_week_trans a b c :
  by_week a b = true → by_week b c = true → by_week a c = true.
Proof. apply cell_leb_trans. Qed.







(** ** [current_week] *)











(** ** The missing check-ins *)

Lemma elem_of_email_set (df : DataFrame) k :
  k ∈ email_set df ↔ has_column df "email" = true ∧ identity_in (rows df) k.
Proof.
  unfold email_set, identity_in. destruct (has_column df "email").
  - rewrite elem_of_list_to_set, list_elem_of_fmap. split.
    + intros (c & -> & Hc). apply list_elem_of_filter in Hc as [Hn Hc].
      apply list_elem_of_fmap in Hc as (ir & -> & Hir).
      split; [done|]. exists ir. by rewrite <- notna_true.
    + intros (_ & ir & Hir & Hn & <-). exists (email_of ir). split; [done|].
      apply list_elem_of_filter. split; [by apply notna_true|].
      apply list_elem_of_fmap. eauto.
  - split; [by intros ?%not_elem_of_empty|]. by intros [? _].
Qed.

Lemma Qred_inject_Z z : Qred (inject_Z z) = inject_Z z.
Proof. apply Qred_identity. simpl. apply Z.gcd_1_r. Qed.

Lemma cell_key_key_cell c : cell_key (key_cell (cell_key c)) = cell_key c.
Proof.
  destruct c as [|s|z|[q|n]|t]; simpl; try done.
  - by rewrite Qred_inject_Z.
  - by rewrite Qred_involutive.
Qed.

Lemma same_kind_key_cell a b :
  same_kind (key_cell (cell_key a)) (key_cell (cell_key b)) = same_kind a b.
Proof. destruct a as [| | |[]|], b as [| | |[]|]; done. Qed.

Lemma key_cell_inj_on a b :
  key_cell (cell_key a) = key_cell (cell_key b) → cell_key a = cell_key b.
Proof. intros H. by rewrite <- (cell_key_key_cell a), H, cell_key_key_cell. Qed.

Lemma email_set_canonical (df : DataFrame) k :
  k ∈ email_set df → ∃ c, c ∈ column_values df "email" ∧ k = cell_key c.
Proof.
  intros (_ & ir & Hir & _ & <-)%elem_of_email_set.
  exists (email_of ir). split; [|done]. apply list_elem_of_fmap. eauto.
Qed.

Lemma email_column_of_list (l : list cell) :
  map (λ ir : Z * gmap string cell, get ir.2 "email")
      (imap (λ i c, (Z.of_nat i, {["email" := c]})) l) = l.
Proof.
  change (map ?f ?x) with (f <$> x). rewrite fmap_imap.
  rewrite (imap_ext _ (λ _, id)).
  - rewrite (imap_const id). apply list_fmap_id.
  - intros i c _. simpl. unfold get. by rewrite lookup_singleton_eq.
Qed.

Lemma missing_checkin_spec (intake this_week : DataFrame) :
  one_kind intake "email" →
  ∃ df, missing_checkin intake this_week = Ok df ∧
    columns df = ["email"] ∧
    StronglySorted (λ a b, cell_leb a b = true) (column_values df "email") ∧
    NoDup (map cell_key (column_values df "email")) ∧
    (∀ k, k ∈ map cell_key (column_values df "email")
          ↔ k ∈ email_set intake ∧ k ∉ email_set this_week).
Proof.
  intros Hk. unfold missing_checkin.
  set (D := email_set intake ∖ email_set this_week).
  set (cells := map key_cell (elements D)).
  assert (∀ k, k ∈ D → ∃ c, c ∈ column_values intake "email" ∧ k = cell_key c) as HD.
  { intros k [Hin _]%elem_of_difference. by apply email_set_canonical. }
  assert (sortable cells = true) as Hs.
  { apply sortable_spec. intros a b Ha Hb.
    apply list_elem_of_fmap in Ha as (ka & -> & Ha%elem_of_elements).
    apply list_elem_of_fmap in Hb as (kb & -> & Hb%elem_of_elements).
    destruct (HD _ Ha) as (ca & Hca & ->), (HD _ Hb) as (cb & Hcb & ->).
    rewrite same_kind_key_cell. unfold one_kind in Hk.
    rewrite sortable_spec in Hk. by apply Hk. }
  assert (map cell_key cells = elements D) as Hkeys.
  { unfold cells. change (cell_key <$> (key_cell <$> elements D) = elements D).
    rewrite <- list_fmap_compose. rewrite <- (list_fmap_id (elements D)) at 2.
    apply list_fmap_ext. intros i k Hi. simpl.
    destruct (HD k) as (c & _ & ->); [|apply cell_key_key_cell].
    apply elem_of_elements. by eapply list_elem_of_lookup_2. }
  unfold sorted. rewrite Hs. cbn [rbind].
  eexists. split; [reflexivity|]. cbn [columns]. split; [done|].
  unfold column_values. cbn [rows]. rewrite email_column_of_list.
  assert (map cell_key (stable_sort cell_leb cells) ≡ₚ elements D) as Hperm.
  { rewrite <- Hkeys. apply fmap_Permutation, stable_sort_perm. }
  split_and!.
  - apply stable_sort_sorted; [apply cell_leb_total | apply cell_leb_trans].
  - rewrite Hperm. apply NoDup_elements.
  - intros k. rewrite Hperm, elem_of_elements. unfold D. apply elem_of_difference.
Qed.

(** ** The at-risk rules *)

Lemma lookup_label_map {A B} (f : Z * A → B) (l : list (Z * A)) ir :
  NoDup (map fst l) → ir ∈ l →
  lookup_label (map (λ x, (x.1, f x)) l) ir.1 = Some (f ir).
Proof.
  induction l as [|x l IH]; simpl; [by intros _ ?%elem_of_nil|].
  intros [Hx Hl]%NoDup_cons [->|Hir]%elem_of_cons.
  - by rewrite bool_decide_eq_true_2.
  - rewrite bool_decide_eq_false_2; [by apply IH|].
    intros Heq. apply Hx. rewrite Heq. apply list_elem_of_fmap. eauto.
Qed.

Lemma lookup_label_all_false n i :
  default false (lookup_label (all_false n) i) = false.
Proof.
  unfold all_false. induction (seq 0 n) as [|x l IH]; simpl; [done|].
  by case_bool_decide.
Qed.

Lemma lookup_label_tabulate (labels : list Z) (v : Z → bool) i :
  i ∈ labels → lookup_label (map (λ j, (j, v j)) labels) i = Some (v i).
Proof.
  induction labels as [|j labels IH]; simpl; [by intros ?%elem_of_nil|].
  intros Hi. case_bool_decide as Hj; [by rewrite Hj|].
  apply IH. apply elem_of_cons in Hi as [->|?]; done.
Qed.

Lemma series_or_same_labels (a b : BoolSeries) :
  map fst a = map fst b → NoDup (map fst a) →
  zip_with (λ x y, (x.1, x.2 || y.2)) a b
  = map (λ p, (p.1, p.2 || default false (lookup_label b p.1))) a.
Proof.
  revert b. induction a as [|x a IH]; intros [|y b]; simpl; try done.
  intros [= Hxy Hab] [Hx Ha]%NoDup_cons.
  rewrite bool_decide_eq_true_2 by done. simpl. f_equal.
  rewrite IH by done. apply list_fmap_ext. intros i p Hp. simpl.
  rewrite bool_decide_eq_false_2; [done|].
  intros Hy. apply Hx. rewrite Hxy, Hy. apply list_elem_of_fmap.
  exists p. split; [done|]. by eapply list_elem_of_lookup_2.
Qed.

(** The flags stored at line 229, for an adherence rule computed from
    the rows themselves: whatever the labels of the other rule, every row
    gets its own adherence flag or-ed with the other rule's flag at its
    label, if there is one. *)
Lemma reindex_series_or (a b : BoolSeries) :
  NoDup (map fst a) →
  reindex (map fst a) (series_or a b)
  = map (λ p, Some (p.2 || default false (lookup_label b p.1))) a.
Proof.
  intros Hnd. unfold series_or. case_bool_decide as Hlab.
  - rewrite series_or_same_labels by done. unfold reindex.
    rewrite bool_decide_eq_true_2.
    + change (map ?f ?x) with (f <$> x). by rewrite <- list_fmap_compose.
    + change (map ?f ?x) with (f <$> x). rewrite <- list_fmap_compose.
      by apply list_fmap_ext.
  - set (labels := map fst a ++ _).
    set (v := λ i : Z, match lookup_label a i with
                       | Some x => x || default false (lookup_label b i)
                       | None => false
                       end).
    assert (∀ p, p ∈ a → v p.1 = p.2 || default false (lookup_label b p.1)) as Hv.
    { intros p Hp. unfold v.
      pose proof (lookup_label_map (λ x, x.2) a p Hnd Hp) as Hl. simpl in Hl.
      assert (map (λ x : Z * bool, (x.1, x.2)) a = a) as Hid.
      { rewrite <- (list_fmap_id a) at 2. apply list_fmap_ext. by intros ? []. }
      rewrite Hid in Hl. by rewrite Hl. }
    unfold reindex. case_bool_decide as Hl2.
    + change (map ?f ?x) with (f <$> x) in *. rewrite <- list_fmap_compose in *.
      simpl in *. fold labels in Hl2 |- *.
      rewrite list_fmap_id in Hl2. rewrite Hl2.
      rewrite <- list_fmap_compose. apply list_fmap_ext.
      intros i p Hp. simpl. f_equal. apply Hv. by eapply list_elem_of_lookup_2.
    + change (map ?f ?x) with (f <$> x). rewrite <- list_fmap_compose.
      apply list_fmap_ext. intros i p Hp. simpl.
      rewrite (lookup_label_tabulate labels v).
      * f_equal. apply Hv. by eapply list_elem_of_lookup_2.
      * unfold labels. apply elem_of_app. left. apply list_elem_of_fmap.
        exists p. split; [done|]. by eapply list_elem_of_lookup_2.
Qed.

Lemma mask_rows_flags (rs : list (Z * gmap string cell))
    (F : Z * gmap string cell → bool) :
  mask_rows rs (map (λ ir, Some (F ir)) rs) = Ok (filter (λ ir, F ir = true) rs).
Proof.
  unfold mask_rows.
  rewrite (rmapM_total _ (λ o, default false o)).
  2: { apply Forall_forall. by intros o (ir & -> & _)%list_elem_of_fmap. }
  cbn [rbind]. f_equal.
  induction rs as [|x rs IH]; [done|]. cbn [map zip zip_with].
  rewrite !filter_cons. cbn [snd default]. rewrite <- IH.
  destruct (F x); by rewrite ?decide_True, ?decide_False by done.
Qed.

Lemma cell_cmp_numeric test c n :
  numeric_or_null c = true →
  cell_cmp test c n
  = Ok (match cell_num c with Some x => test x (Num.of_Z n) | None => false end).
Proof. by destruct c. Qed.

Lemma elem_of_add_column cs d c : c ∈ add_column cs d ↔ c ∈ cs ∨ c = d.
Proof.
  unfold add_column. case_bool_decide.
  - split; [by left|]. by intros [?| ->].
  - rewrite elem_of_app, list_elem_of_singleton. done.
Qed.

Lemma numeric_cells_sortable (l : list cell) :
  forallb numeric_or_null l = true → sortable l = true.
Proof.
  rewrite forallb_forall. intros H. apply sortable_spec. intros a b Ha Hb.
  apply list_elem_of_In, H in Ha. apply list_elem_of_In, H in Hb.
  by destruct a, b.
Qed.

Lemma by_stress_desc_total a b : by_stress_desc a b = true ∨ by_stress_desc b a = true.
Proof. apply cell_geb_total. Qed.

Lemma by_stress_desc_trans a b c :
  by_stress_desc a b = true → by_stress_desc b c = true → by_stress_desc a c = true.
Proof. apply cell_geb_trans. Qed.

(** What lines 220 to 235 return on the rows of the current week, when
    the adherence column is there. *)
Lemma at_risk_rules_spec (sort : sorter) (this_week : DataFrame) :
  has_column this_week "nutrition_adherence_weekly" = true →
  NoDup (map fst (rows this_week)) →
  numeric_column this_week "stress_weekly" →
  numeric_column this_week "sleep_quality_weekly" →
  ∃ at_risk,
    at_risk_rules sort this_week = Ok at_risk ∧
    columns at_risk = add_column (columns this_week) "risk_flag" ∧
    rows at_risk
    = (if has_column this_week "stress_weekly"
       then sort by_stress_desc
       else id) (map marked (filter (λ ir, flagged this_week ir = true) (rows this_week))).
Proof.
  intros Ha Hnd Hs Hq. unfold at_risk_rules. rewrite Ha.
  set (rs := rows this_week).
  set (both := has_columns this_week ["stress_weekly"; "sleep_quality_weekly"]).
  set (B := λ ir, both && rule_B ir).
  assert (∃ rb, (if both
                 then rmapM (λ ir, s ←r cell_ge (get ir.2 "stress_weekly") 8;
                                   q ←r cell_le (get ir.2 "sleep_quality_weekly") 4;
                                   Ok (ir.1, s && q)) rs
                 else Ok (all_false (length rs))) = Ok rb ∧
               ∀ ir, ir ∈ rs → default false (lookup_label rb ir.1) = B ir)
    as (rb & -> & Hrb).
  { unfold B. destruct both.
    - exists (map (λ ir, (ir.1, rule_B ir)) rs). split.
      + apply rmapM_total, Forall_forall. intros ir Hir.
        unfold cell_ge, cell_le.
        rewrite !cell_cmp_numeric.
        * cbn [rbind]. unfold rule_B, stress_of, sleep_quality_of.
          destruct (cell_num (get ir.2 "stress_weekly")),
                   (cell_num (get ir.2 "sleep_quality_weekly")); try done.
          by rewrite andb_false_r.
        * unfold numeric_column in Hq. rewrite forallb_forall in Hq.
          apply Hq, list_elem_of_In, list_elem_of_fmap. eauto.
        * unfold numeric_column in Hs. rewrite forallb_forall in Hs.
          apply Hs, list_elem_of_In, list_elem_of_fmap. eauto.
      + intros ir Hir. by rewrite (lookup_label_map rule_B rs ir Hnd Hir).
    - exists (all_false (length rs)). split; [done|].
      intros ir _. apply lookup_label_all_false. }
  cbn [rbind].
  set (ra := map (λ ir, (ir.1, very_few_days (get ir.2 "nutrition_adherence_weekly"))) rs).
  assert (map fst ra = map fst rs) as Hlab.
  { unfold ra. change (map ?f ?x) with (f <$> x). by rewrite <- list_fmap_compose. }
  rewrite <- Hlab. rewrite reindex_series_or by (by rewrite Hlab).
  assert (map (λ p : Z * bool, Some (p.2 || default false (lookup_label rb p.1))) ra
          = map (λ ir, Some (flagged this_week ir)) rs) as ->.
  { unfold ra. change (map ?f ?x) with (f <$> x). rewrite <- list_fmap_compose.
    apply list_fmap_ext. intros i ir Hir. simpl. f_equal.
    rewrite Hrb by (by eapply list_elem_of_lookup_2). done. }
  rewrite mask_rows_flags. cbn [rbind].
  set (fl := filter _ rs).
  set (out := {| columns := _; rows := _ |}).
  assert (has_column out "stress_weekly" = has_column this_week "stress_weekly") as Hhas.
  { unfold has_column, out. cbn [columns]. apply bool_decide_ext.
    rewrite elem_of_add_column. split; [|by left]. by intros [?|?]. }
  rewrite Hhas. destruct (has_column this_week "stress_weekly") eqn:Hst.
  - unfold sort_values. rewrite Hhas, ?Hst. cbn [negb].
    assert (sortable (column_values out "stress_weekly") = true) as ->.
    { apply numeric_cells_sortable. apply forallb_forall. intros c Hc%list_elem_of_In.
      apply list_elem_of_fmap in Hc as (ir & -> & Hir). unfold out in Hir. cbn [rows] in Hir.
      apply list_elem_of_fmap in Hir as (jr & -> & Hjr). cbn [snd].
      unfold get. rewrite lookup_insert_ne by done.
      unfold numeric_column in Hs. rewrite forallb_forall in Hs.
      apply Hs, list_elem_of_In, list_elem_of_fmap. exists jr. split; [done|].
      by apply list_elem_of_filter in Hjr as [_ ?]. }
    eexists. split; [reflexivity|]. split; done.
  - eexists. split; [reflexivity|]. split; done.
Qed.

(** ** [coaching_action_list] *)


Lemma sublist_map {A B} (f : A → B) l1 l2 :
  l1 `sublist_of` l2 → map f l1 `sublist_of` map f l2.
Proof. induction 1; simpl; by constructor. Qed.




(** Baseline identities a, b, c and submitters a, c of the current week:
    b is missing. *)
Lemma missing_checkin_example :
  ∃ missing at_risk,
    coaching_action_list stable_rows example_intake example_checkins
    = Ok (missing, at_risk) ∧
    column_values missing "email" = [VStr "b"].
Proof. vm_compute. eauto. Qed.

Lemma NoDup_labels_eq {A} (l : list (Z * A)) a b :
  NoDup (map fst l) → a ∈ l → b ∈ l → a.1 = b.1 → a = b.
Proof.
  induction l as [|x l IH]; simpl; [by intros _ ?%elem_of_nil|].
  intros [Hx Hl]%NoDup_cons [->|Ha]%elem_of_cons [->|Hb]%elem_of_cons Hab; auto.
  - exfalso. apply Hx. rewrite Hab. apply list_elem_of_fmap. eauto.
  - exfalso. apply Hx. rewrite <- Hab. apply list_elem_of_fmap. eauto.
Qed.

Lemma rule_A_spec ir :
  rule_A ir = true ↔ ∃ s, adherence_of ir = VStr s ∧ Text.strip s = "Very few days".
Proof.
  unfold rule_A, very_few_days. destruct (adherence_of ir) as [|s| | |].
  2: { rewrite bool_decide_eq_true. split; [eauto|]. by intros (? & [= <-] & ?). }
  all: split; [done|]; by intros (? & ? & _).
Qed.

Lemma rule_B_spec ir :
  rule_B ir = true ↔
  ∃ s q, cell_num (stress_of ir) = Some s ∧ cell_num (sleep_quality_of ir) = Some q ∧
         Num.leb (Num.of_Z 8) s = true ∧ Num.leb q (Num.of_Z 4) = true.
Proof.
  unfold rule_B.
  destruct (cell_num (stress_of ir)) as [s|], (cell_num (sleep_quality_of ir)) as [q|].
  - rewrite andb_true_iff. split; [eauto 6|]. by intros (? & ? & [= <-] & [= <-] & ?).
  - split; [done|]. by intros (? & ? & _ & ? & _).
  - split; [done|]. by intros (? & ? & ? & _).
  - split; [done|]. by intros (? & ? & ? & _).
Qed.

(** C4 (amended).  For a merged table with a current week [wk] that has
    the adherence column (labels distinct, stress and sleep quality
    numeric or null), [coaching_action_list] returns, and its at-risk
    table holds exactly the rows of week [wk] for which rule A or, when
    both its columns are there, rule B holds, each once, marked with the
    risk flag.  Rule A: the adherence answer, with surrounding whitespace
    trimmed, is "Very few days".  Rule B: stress and sleep quality are both
    numbers, stress >= 8 and sleep quality <= 4.  When the stress column is
    there the rows are in descending order of stress, nulls last.  The
    sorting function of line 234 is any that returns a sorted permutation. *)
Theorem at_risk_rows (sort : sorter) (intake merged : DataFrame) (wk : Z) :
  sorts sort →
  current_week merged = Ok (Some wk) →
  has_column merged "nutrition_adherence_weekly" = true →
  NoDup (map fst (rows merged)) →
  numeric_column merged "stress_weekly" →
  numeric_column merged "sleep_quality_weekly" →
  one_kind intake "email" →
  ∃ missing at_risk,
    coaching_action_list sort intake merged = Ok (missing, at_risk) ∧
    rows at_risk ≡ₚ
      map marked (filter (λ ir, flagged merged ir = true) (rows (this_week_of merged wk))) ∧
    (∀ ir, ir ∈ rows (this_week_of merged wk) →
       marked ir ∈ rows at_risk ↔
       rule_A ir = true
       ∨ (has_columns merged ["stress_weekly"; "sleep_quality_weekly"] = true
          ∧ rule_B ir = true)) ∧
    (has_column merged "stress_weekly" = true →
     StronglySorted (λ a b, by_stress_desc a b = true) (rows at_risk)).
Proof.
  intros Hsort Hw Ha Hnd Hs Hq Hk.
  set (tw := this_week_of merged wk).
  assert (rows tw `sublist_of` rows merged) as Hsub by apply sublist_filter.
  assert (NoDup (map fst (rows tw))) as Hnd'.
  { eapply (sublist_NoDup _ (map fst (rows merged))); [exact Hnd|by apply sublist_map]. }
  assert (∀ c, numeric_column merged c → numeric_column tw c) as Hnum.
  { intros c. unfold numeric_column. rewrite !forallb_forall. intros H v Hv. apply H.
    apply list_elem_of_In. apply list_elem_of_In in Hv.
    apply list_elem_of_fmap in Hv as (ir & -> & Hir).
    apply list_elem_of_fmap. exists ir. split; [done|]. by eapply sublist_subseteq. }
  destruct (at_risk_rules_spec sort tw Ha Hnd' (Hnum _ Hs) (Hnum _ Hq))
    as (at_risk & Har & _ & Hrows).
  destruct (missing_checkin_spec intake tw Hk) as (missing & Hm & _).
  exists missing, at_risk.
  assert (rows at_risk ≡ₚ map marked (filter (λ ir, flagged merged ir = true) (rows tw)))
    as Hperm.
  { rewrite Hrows. change (flagged tw) with (flagged merged).
    destruct (has_column tw "stress_weekly"); [|done].
    apply Hsort; [apply by_stress_desc_total | apply by_stress_desc_trans]. }
  split_and!.
  - unfold coaching_action_list. rewrite Hw. cbn [rbind]. fold tw.
    by rewrite Hm, Har.
  - done.
  - intros ir Hir. rewrite Hperm.
    assert (flagged merged ir = true ↔
            rule_A ir = true
            ∨ (has_columns merged ["stress_weekly"; "sleep_quality_weekly"] = true
               ∧ rule_B ir = true)) as <-.
    { unfold flagged. by rewrite orb_true_iff, andb_true_iff. }
    rewrite list_elem_of_fmap. setoid_rewrite list_elem_of_filter. split.
    + intros (jr & Heq & Hf & Hjr).
      assert (jr = ir) as ->; [|done].
      apply (NoDup_labels_eq (rows tw)); try done. by inversion Heq.
    + intros Hf. by exists ir.
  - intros Hst. rewrite Hrows. change (has_column tw "stress_weekly")
      with (has_column merged "stress_weekly"). rewrite Hst.
    apply Hsort; [apply by_stress_desc_total | apply by_stress_desc_trans].
Qed.

Lemma at_risk_rows_witness :
  current_week example_checkins = Ok (Some 2) ∧
  ∃ missing at_risk,
    coaching_action_list stable_rows example_intake example_checkins
    = Ok (missing, at_risk) ∧
    rows at_risk ≡ₚ
      map marked (filter (λ ir, flagged example_checkins ir = true)
                         (rows (this_week_of example_checkins 2))).
Proof.
  split; [reflexivity|].
  destruct (at_risk_rows stable_rows example_intake example_checkins 2)
    as (missing & at_risk & H1 & H2 & _).
  - exact stable_rows_sorts.
  - reflexivity.
  - reflexivity.
  - apply (bool_decide_unpack _). vm_compute. exact I.
  - reflexivity.
  - reflexivity.
  - reflexivity.
  - exists missing, at_risk. split; assumption.
Defined.

(** C4, as stated, fails: an adherence answer with surrounding blanks is
    not textually "Very few days", stress and sleep quality are absent,
    and the row is flagged. *)
Lemma at_risk_counterexample :
  let merged :=
    mkDF ["email"; "week_number"; "nutrition_adherence_weekly";
          "stress_weekly"; "sleep_quality_weekly"]
      [(0, {["email" := VStr "a"; "week_number" := VInt 1;
             "nutrition_adherence_weekly" := VStr " Very few days ";
             "stress_weekly" := VNull; "sleep_quality_weekly" := VNull]})] in
  " Very few days " ≠ "Very few days" ∧
  ∃ missing at_risk,
    coaching_action_list stable_rows example_intake merged = Ok (missing, at_risk) ∧
    map fst (rows at_risk) = [0] ∧
    map adherence_of (rows at_risk) = [VStr " Very few days "] ∧
    map stress_of (rows at_risk) = [VNull] ∧
    map sleep_quality_of (rows at_risk) = [VNull].
Proof. split; [done|]. vm_compute. eauto 10. Qed.

(** Without the adherence column the default series of line 221 is
    labelled 0, 1, ... while the rows of the current week keep their own
    labels: a row of stress 9 and sleep quality 3 whose label is not among
    the first is not flagged; with neither rule's columns the mask holds
    NaN and line 230 raises. *)
Lemma at_risk_without_adherence_column :
  let merged := project ["email"; "week_number"; "stress_weekly"; "sleep_quality_weekly"]
                        example_checkins in
  (∃ missing at_risk,
     coaching_action_list stable_rows example_intake merged = Ok (missing, at_risk) ∧
     map week_of (rows merged) = [VInt 1; VInt 2; VInt 2] ∧
     map stress_of (rows merged) = [VInt 9; VInt 7; VInt 9] ∧
     map sleep_quality_of (rows merged) = [VInt 3; VInt 3; VInt 3] ∧
     rows at_risk = []) ∧
  coaching_action_list stable_rows example_intake
    (project ["email"; "week_number"] example_checkins)
  = Err ValueError.
Proof. split; [vm_compute; eauto 10|reflexivity]. Qed.

(** ** Rows through the steps of [prep_data] *)

Lemma get_insert c d v (r : gmap string cell) :
  get (<[c := v]> r) d = if decide (c = d) then v else get r d.
Proof.
  unfold get. case_decide as H.
  - subst. by rewrite lookup_insert_eq.
  - by rewrite lookup_insert_ne.
Qed.

Lemma get_insert_ne c d v (r : gmap string cell) :
  c ≠ d → get (<[c := v]> r) d = get r d.
Proof. intros. rewrite get_insert. by case_decide. Qed.

Lemma has_column_add cs c d :
  bool_decide (d ∈ add_column cs c) = bool_decide (d ∈ cs) || bool_decide (d = c).
Proof.
  apply eq_true_iff_eq. rewrite orb_true_iff, !bool_decide_eq_true.
  apply elem_of_add_column.
Qed.

Lemma add_column_NoDup cs c : NoDup cs → NoDup (add_column cs c).
Proof.
  intros H. unfold add_column. case_bool_decide; [done|].
  apply NoDup_app. split_and!; [done| |apply NoDup_singleton].
  intros x Hx ->%list_elem_of_singleton. done.
Qed.

Lemma add_column_subseteq cs c : cs ⊆ add_column cs c.
Proof. intros x Hx. apply elem_of_add_column. by left. Qed.

Lemma tracks_refl (P : gmap string cell → gmap string cell → Prop) df :
  (∀ r, P r r) → tracks P df df.
Proof. intros H. apply Forall_Forall2_diag, Forall_forall. auto. Qed.

Lemma tracks_trans (P : gmap string cell → gmap string cell → Prop) df1 df2 df3 :
  (∀ a b c, P a b → P b c → P a c) →
  tracks P df1 df2 → tracks P df2 df3 → tracks P df1 df3.
Proof.
  intros HP H1 H2. unfold tracks in *.
  eapply Forall2_trans; [|exact H1|exact H2].
  simpl. intros x y z [? ?] [? ?]. split; [congruence|eauto].
Qed.

Lemma tracks_set_column (P : gmap string cell → gmap string cell → Prop) c f df :
  (∀ r, P r (<[c := f r]> r)) → tracks P df (set_column c f df).
Proof.
  intros H. unfold tracks, set_column. cbn [rows].
  apply Forall2_fmap_r, Forall_Forall2_diag, Forall_forall. intros ir _. auto.
Qed.

Lemma tracks_cast_numeric (P : gmap string cell → gmap string cell → Prop) df cols :
  (∀ r, P r r) → (∀ a b c, P a b → P b c → P a c) →
  (∀ c r, c ∈ cols → P r (<[c := to_numeric (get r c)]> r)) →
  tracks P df (cast_numeric df cols).
Proof.
  intros Hr Ht Hs. unfold cast_numeric. revert df.
  induction cols as [|c cols IH]; intros df; simpl; [by apply tracks_refl|].
  eapply tracks_trans; [done| |apply IH].
  - destruct (has_column df c); [|by apply tracks_refl].
    apply tracks_set_column. intros r. apply Hs. left.
  - intros c' r Hc'. apply Hs. by right.
Qed.

Lemma tracks_length P df df' : tracks P df df' → length (rows df') = length (rows df).
Proof. intros H. symmetry. by eapply Forall2_length. Qed.

Lemma tracks_labels P df df' : tracks P df df' → map fst (rows df') = map fst (rows df).
Proof.
  unfold tracks. induction 1 as [|x y l l' [H _] _ IH]; simpl; [done|]. by f_equal.
Qed.

Lemma columns_cast_numeric df cols : columns (cast_numeric df cols) = columns df.
Proof.
  unfold cast_numeric. revert df. induction cols as [|c cols IH]; intros df; simpl; [done|].
  rewrite IH. destruct (has_column df c) eqn:H; [|done].
  unfold set_column, add_column. cbn [columns]. unfold has_column in H. by rewrite H.
Qed.

Lemma has_column_cast_numeric df cols c :
  has_column (cast_numeric df cols) c = has_column df c.
Proof. unfold has_column. by rewrite columns_cast_numeric. Qed.

Lemma to_numeric_numeric c : numeric_or_null (to_numeric c) = true.
Proof. destruct c as [|s| | |]; simpl; try done. by destruct (Parse.to_numeric_str s). Qed.

Lemma to_numeric_idem c : numeric_or_null c = true → numeric_or_null (to_numeric c) = true.
Proof. intros _. apply to_numeric_numeric. Qed.

(** After [cast_numeric] a listed column that is there holds numbers and
    nulls only. *)
Lemma cast_numeric_numeric df cols c :
  c ∈ cols → has_column df c = true →
  Forall (λ ir, numeric_or_null (get ir.2 c) = true) (rows (cast_numeric df cols)).
Proof.
  unfold cast_numeric. revert df.
  assert (∀ cols df, Forall (λ ir, numeric_or_null (get ir.2 c) = true) (rows df) →
    Forall (λ ir, numeric_or_null (get ir.2 c) = true)
      (rows (foldl (λ d c0, if has_column d c0
                            then set_column c0 (λ r, to_numeric (get r c0)) d
                            else d) df cols))) as Hkeep.
  { clear. induction cols as [|c0 cols IH]; intros df H; simpl; [done|].
    apply IH. destruct (has_column df c0); [|done].
    unfold set_column. cbn [rows]. apply Forall_fmap. eapply Forall_impl; [exact H|].
    intros ir Hir. simpl. rewrite get_insert. case_decide; [|done].
    apply to_numeric_numeric. }
  induction cols as [|c0 cols IH]; intros df Hc Hhas; [by apply elem_of_nil in Hc|].
  simpl. destruct (decide (c0 = c)) as [->|Hne].
  - rewrite Hhas. apply Hkeep. unfold set_column. cbn [rows].
    apply Forall_fmap, Forall_forall. intros ir _. simpl.
    rewrite get_insert, decide_True by done. apply to_numeric_numeric.
  - apply IH.
    + apply elem_of_cons in Hc as [?|?]; [congruence|done].
    + destruct (has_column df c0) eqn:H0; [|done].
      unfold has_column, set_column. cbn [columns]. rewrite has_column_add.
      unfold has_column in Hhas. by rewrite Hhas.
Qed.

Lemma snd_imap_labels {A} (l : list A) :
  map snd (imap (λ i r, (Z.of_nat i, r)) l) = l.
Proof.
  change (map ?f ?x) with (f <$> x). rewrite fmap_imap.
  rewrite (imap_ext _ (λ _, id)) by done. rewrite (imap_const id). apply list_fmap_id.
Qed.

Lemma get_union_l (m1 m2 : gmap string cell) c v :
  m1 !! c = Some v → get (m1 ∪ m2) c = v.
Proof. intros H. unfold get. by rewrite (lookup_union_Some_l _ _ _ _ H). Qed.

Lemma get_union_r (m1 m2 : gmap string cell) c :
  m1 !! c = None → get (m1 ∪ m2) c = get m2 c.
Proof. intros H. unfold get. by rewrite lookup_union_r. Qed.

Lemma right_part_lookup_None left right f c :
  c ∉ map (suffixed left) (right_columns right) → right_part left right f !! c = None.
Proof.
  intros H. unfold right_part. apply not_elem_of_list_to_map_1.
  change (map ?g ?x) with (g <$> x) in *. by rewrite <- list_fmap_compose.
Qed.

Lemma right_part_lookup_Some left right f c :
  NoDup (map (suffixed left) (right_columns right)) → c ∈ right_columns right →
  right_part left right f !! suffixed left c = Some (f c).
Proof.
  intros Hnd Hc. unfold right_part. apply elem_of_list_to_map_1.
  - change (map ?g ?x) with (g <$> x) in *. by rewrite <- list_fmap_compose.
  - apply list_elem_of_fmap. eauto.
Qed.

Lemma merge_left_Ok left right merged :
  merge_left left right = Ok merged →
  has_column left "email" = true ∧ has_column right "email" = true ∧
  NoDup (columns left ++ map (suffixed left) (right_columns right)) ∧
  columns merged = columns left ++ map (suffixed left) (right_columns right) ∧
  map snd (rows merged) = flat_map (λ ir, joined_rows left right ir.2) (rows left).
Proof.
  unfold merge_left.
  destruct (has_column left "email"); [|done].
  destruct (has_column right "email"); [|done]. cbn [negb].
  case_bool_decide as Hnd; [|done]. intros [= <-]. cbn [columns rows].
  by rewrite snd_imap_labels.
Qed.

Lemma merge_left_total left right :
  has_column left "email" = true → has_column right "email" = true →
  NoDup (columns left ++ map (suffixed left) (right_columns right)) →
  is_Ok (merge_left left right).
Proof.
  intros Hl Hr Hnd. unfold merge_left. rewrite Hl, Hr. cbn [negb].
  rewrite bool_decide_eq_true_2 by done. by eexists.
Qed.

Lemma joined_rows_length left right r :
  length (joined_rows left right r) = (1 `max` length (matches right r))%nat.
Proof.
  unfold joined_rows. destruct (matches right r) as [|jr ms]; [done|].
  rewrite length_map. simpl. lia.
Qed.

(** A joined row carries the weekly row on the weekly columns, and, on
    the baseline side, the cells of a matching baseline row, or nulls
    when there is none. *)
Lemma joined_rows_cells left right r mr :
  NoDup (columns left ++ map (suffixed left) (right_columns right)) →
  mr ∈ joined_rows left right r →
  (∀ c, c ∈ columns left → get mr c = get r c) ∧
  (∀ c, c ∈ right_columns right →
     (matches right r = [] ∧ get mr (suffixed left c) = VNull)
     ∨ ∃ jr, jr ∈ matches right r ∧ get mr (suffixed left c) = get jr.2 c).
Proof.
  intros (Hl & Hdisj & Hr)%NoDup_app Hmr.
  assert (∃ f, mr = right_part left right f ∪ r ∧
               ((matches right r = [] ∧ f = λ _, VNull)
                ∨ ∃ jr, jr ∈ matches right r ∧ f = get jr.2)) as (f & -> & Hf).
  { unfold joined_rows in Hmr. destruct (matches right r) as [|j ms] eqn:E.
    - apply list_elem_of_singleton in Hmr. subst.
      exists (λ _, VNull). split; [done|]. by left.
    - apply list_elem_of_fmap in Hmr as (jr & -> & Hjr).
      exists (get jr.2). split; [done|]. right. eauto. }
  split.
  - intros c Hc. apply get_union_r, right_part_lookup_None. by apply Hdisj.
  - intros c Hc.
    rewrite (get_union_l _ _ _ _ (right_part_lookup_Some left right f c Hr Hc)).
    destruct Hf as [[? ->]|(jr & ? & ->)]; eauto.
Qed.

Lemma cell_sub_numeric a b :
  numeric_or_null a = true → numeric_or_null b = true →
  cell_sub a b = Ok (float_cell (x ← cell_num a; y ← cell_num b; Num.sub x y)).
Proof. destruct a, b; done. Qed.

Lemma zip_with_map_r {A B C} (F : A → B → C) (G : A → B) (l : list A) :
  zip_with F l (map G l) = map (λ x, F x (G x)) l.
Proof. induction l; simpl; by f_equal. Qed.

(** One difference: the table returned has the rows of the table given,
    with at most the cell of the difference changed. *)
Lemma add_delta_Ok d a b (M M' : DataFrame) :
  add_delta d a b M = Ok M' →
  columns M' ⊆ columns M ++ [d] ∧ columns M ⊆ columns M' ∧
  tracks (λ r r', ∀ c, c ≠ d → get r' c = get r c) M M'.
Proof.
  unfold add_delta. destruct (has_columns M [a; b]).
  - intros (vs & Hvs & [= <-])%rbind_Ok. cbn [columns assign]. split_and!.
    + intros c [?| ->]%elem_of_add_column; apply elem_of_app; [by left|right; left].
    + apply add_column_subseteq.
    + unfold tracks. cbn [rows assign].
      apply rmapM_Ok_Forall2 in Hvs. clear -Hvs.
      induction Hvs as [|ir iv rs vs Hiv _ IH]; simpl; constructor; [|done].
      split; [done|]. intros c Hc. cbn [snd]. by rewrite get_insert_ne.
  - intros [= <-]. split_and!.
    + intros c Hc. apply elem_of_app. by left.
    + done.
    + by apply tracks_refl.
Qed.

Lemma add_delta_total d a b (M : DataFrame) :
  (has_columns M [a; b] = true →
   ∀ ir, ir ∈ rows M → numeric_or_null (get ir.2 a) = true
                       ∧ numeric_or_null (get ir.2 b) = true) →
  is_Ok (add_delta d a b M).
Proof.
  intros H. unfold add_delta. destruct (has_columns M [a; b]); [|by eexists].
  rewrite (rmapM_total _ (λ ir, (ir.1, float_cell (x ← cell_num (get ir.2 a);
                                                    y ← cell_num (get ir.2 b);
                                                    Num.sub x y)))).
  - by eexists.
  - apply Forall_forall. intros ir Hir. destruct (H eq_refl ir Hir) as [Ha Hb].
    by rewrite cell_sub_numeric.
Qed.

Lemma add_column_within cs c base extra :
  cs ⊆ base ++ extra → c ∈ extra → add_column cs c ⊆ base ++ extra.
Proof.
  intros Hs Hc x [?| ->]%elem_of_add_column; [by apply Hs|].
  apply elem_of_app. by right.
Qed.

Lemma email_not_cast : "email" ∉ intake_numeric.
Proof. apply (bool_decide_unpack _). vm_compute. exact I. Qed.

Section PrepData.
Variable py_str : cell → string.
Variable to_datetime : cell → option Z.

Local Abbreviation normalize_common := (normalize_common py_str to_datetime).
Local Abbreviation clean_weekly := (clean_weekly py_str to_datetime).
Local Abbreviation clean_intake := (clean_intake py_str to_datetime).
Local Abbreviation prep_data := (prep_data py_str to_datetime).

Lemma clean_weekly_eq weekly weeks :
  clean_weekly weekly weeks
  = cast_numeric (mapped_weekly py_str to_datetime weekly weeks) weekly_numeric.
Proof. reflexivity. Qed.

Lemma clean_intake_eq intake :
  clean_intake intake
  = cast_numeric (mapped_intake py_str to_datetime intake) intake_numeric.
Proof. reflexivity. Qed.

Lemma prep_data_unfold intake weekly :
  prep_data intake weekly =
    (raw ←r column (normalize_common weekly) "week_number";
     weeks ←r parse_week_number raw;
     merged ←r merge_left (clean_weekly weekly weeks) (clean_intake intake);
     merged ←r add_deltas merged;
     Ok (merged, clean_weekly weekly weeks)).
Proof.
  unfold Backend.prep_data, Backend.clean_weekly, Backend.clean_intake,
    Backend.mapped_weekly, Backend.mapped_intake, add_deltas.
  destruct (column _ _) as [raw|]; [|done]. cbn [rbind].
  destruct (parse_week_number raw) as [weeks|]; [|done]. cbn [rbind].
  destruct (merge_left _ _) as [m|]; [|done]. cbn [rbind].
  destruct (add_delta _ _ _ m) as [m1|]; [|done]. cbn [rbind].
  destruct (add_delta _ _ _ m1) as [m2|]; [|done]. cbn [rbind].
  by destruct (add_delta _ _ _ m2).
Qed.

Lemma columns_normalize_common df : columns (normalize_common df) = columns df.
Proof.
  unfold Backend.normalize_common.
  assert (∀ c f d, has_column d c = true → columns (set_column c f d) = columns d) as H.
  { intros c f d Hc. unfold set_column, add_column. cbn [columns].
    unfold has_column in Hc. by rewrite Hc. }
  destruct (has_column df "email") eqn:He.
  - destruct (has_column (set_column _ _ df) "timestamp") eqn:Ht; rewrite ?H; done.
  - destruct (has_column df "timestamp") eqn:Ht; rewrite ?H; done.
Qed.

Lemma has_column_normalize_common df c :
  has_column (normalize_common df) c = has_column df c.
Proof. unfold has_column. by rewrite columns_normalize_common. Qed.

Lemma tracks_normalize_common (P : gmap string cell → gmap string cell → Prop) df :
  (∀ r, P r r) → (∀ a b c, P a b → P b c → P a c) →
  (∀ r v, P r (<["email" := v]> r)) → (∀ r v, P r (<["timestamp" := v]> r)) →
  tracks P df (normalize_common df).
Proof.
  intros Hr Ht He Hts. unfold Backend.normalize_common.
  eapply (tracks_trans P _ (if has_column df "email" then _ else df)); [done| |].
  - destruct (has_column df "email"); [|by apply tracks_refl].
    apply tracks_set_column. intros r. apply He.
  - destruct (has_column _ "timestamp"); [|by apply tracks_refl].
    apply tracks_set_column. intros r. apply Hts.
Qed.

(** The identity column after normalisation. *)
Lemma normalize_common_email df :
  has_column df "email" = true →
  tracks (λ r r', get r' "email" = normalize_email py_str (get r "email"))
         df (normalize_common df).
Proof.
  intros He. unfold Backend.normalize_common. rewrite He.
  set (df1 := set_column "email" _ df).
  assert (tracks (λ r r', get r' "email" = normalize_email py_str (get r "email")) df df1)
    as H1.
  { apply tracks_set_column. intros r. by rewrite get_insert, decide_True. }
  destruct (has_column df1 "timestamp"); [|done].
  unfold tracks in *. eapply Forall2_trans; [|exact H1|].
  2: { apply (tracks_set_column (λ r r', get r' "email" = get r "email")).
       intros r. by rewrite get_insert_ne. }
  simpl. intros x y z [? ?] [? ?]. split; congruence.
Qed.

Lemma tracks_assign (P : gmap string cell → gmap string cell → Prop) df c (s : Series) :
  length s = length (rows df) → (∀ r v, P r (<[c := v]> r)) →
  tracks P df (assign df c s).
Proof.
  intros Hlen HP. unfold tracks, assign. cbn [rows].
  revert s Hlen. induction (rows df) as [|ir rs IH]; intros [|iv s] Hlen;
    simpl in *; try lia.
  - constructor.
  - constructor; [split; [done|apply HP]|]. apply IH. lia.
Qed.

Lemma tracks_compose (P Q R : gmap string cell → gmap string cell → Prop) df1 df2 df3 :
  (∀ a b c, P a b → Q b c → R a c) →
  tracks P df1 df2 → tracks Q df2 df3 → tracks R df1 df3.
Proof.
  intros H H1 H2. unfold tracks in *. eapply Forall2_trans; [|exact H1|exact H2].
  simpl. intros x y z [? ?] [? ?]. split; [congruence|eauto].
Qed.

Lemma tracks_if (P : gmap string cell → gmap string cell → Prop) (b : bool) c f df :
  (∀ r, P r r) → (∀ r v, P r (<[c := v]> r)) →
  tracks P df (if b then set_column c f df else df).
Proof.
  intros Hr Hs. destruct b; [|by apply tracks_refl].
  apply tracks_set_column. intros r. apply Hs.
Qed.

(** *** The cleaned weekly table *)

Lemma clean_weekly_tracks (P : gmap string cell → gmap string cell → Prop)
    weekly weeks :
  length weeks = length (rows weekly) →
  (∀ r, P r r) → (∀ a b c, P a b → P b c → P a c) →
  (∀ r c v, c ∈ ["email"; "timestamp"; "week_number"; "adherence_score_weekly";
                 "sleep_hours_numeric_weekly"] ++ weekly_numeric →
            P r (<[c := v]> r)) →
  tracks P weekly (clean_weekly weekly weeks).
Proof.
  intros Hlen Hr Ht Hs. unfold Backend.clean_weekly, Backend.mapped_weekly.
  set (w0 := normalize_common weekly).
  set (w1 := assign w0 "week_number" weeks).
  set (w2 := if has_column w1 "nutrition_adherence_weekly" then _ else w1).
  set (w3 := if has_column w2 "sleep_hours_weekly" then _ else w2).
  assert (tracks P weekly w0) as H0.
  { apply tracks_normalize_common; try done; intros; apply Hs; in_list. }
  assert (tracks P w0 w1) as H1.
  { apply tracks_assign; [|intros; apply Hs; in_list].
    rewrite Hlen. symmetry. by eapply tracks_length. }
  assert (tracks P w1 w2) as H2.
  { apply tracks_if; [done|]. intros; apply Hs; in_list. }
  assert (tracks P w2 w3) as H3.
  { apply tracks_if; [done|]. intros; apply Hs; in_list. }
  assert (tracks P w3 (cast_numeric w3 weekly_numeric)) as H4.
  { apply tracks_cast_numeric; [done..|].
    intros c r Hc. apply Hs. do 5 right. done. }
  eauto using tracks_trans.
Qed.

Lemma clean_weekly_labels weekly weeks :
  length weeks = length (rows weekly) →
  map fst (rows (clean_weekly weekly weeks)) = map fst (rows weekly).
Proof.
  intros Hlen. apply (tracks_labels (λ _ _, True)).
  by apply clean_weekly_tracks.
Qed.

Lemma clean_weekly_columns weekly weeks :
  has_column weekly "week_number" = true →
  columns weekly ⊆ columns (clean_weekly weekly weeks) ∧
  columns (clean_weekly weekly weeks) ⊆ weekly_names weekly ∧
  (NoDup (columns weekly) → NoDup (columns (clean_weekly weekly weeks))).
Proof.
  intros Hw. unfold Backend.clean_weekly, Backend.mapped_weekly. rewrite columns_cast_numeric.
  set (w1 := assign _ _ _).
  assert (columns w1 = columns weekly) as H1.
  { unfold w1, assign. cbn [columns]. rewrite columns_normalize_common.
    unfold add_column. unfold has_column in Hw. by rewrite Hw. }
  set (w2 := if has_column w1 _ then _ else w1).
  assert (columns w2 = columns w1 ∨ columns w2 = add_column (columns w1) "adherence_score_weekly")
    as H2 by (unfold w2; destruct (has_column w1 _); auto).
  set (w3 := if has_column w2 _ then _ else w2).
  assert (columns w3 = columns w2 ∨ columns w3 = add_column (columns w2) "sleep_hours_numeric_weekly")
    as H3 by (unfold w3; destruct (has_column w2 _); auto).
  unfold weekly_names. rewrite <- H1.
  split_and!.
  - destruct H2 as [H2 | H2], H3 as [H3 | H3]; rewrite H3, ?H2; intros c Hc;
      rewrite ?elem_of_add_column; auto.
  - assert (columns w1 ⊆ columns w1 ++ ["adherence_score_weekly";
              "sleep_hours_numeric_weekly"] ++ weekly_operands) as H0
      by (intros c Hc; apply elem_of_app; by left).
    destruct H2 as [H2 | H2], H3 as [H3 | H3]; rewrite H3, ?H2;
      repeat (first [exact H0 | apply add_column_within; [|in_list]]).
  - intros Hnd. destruct H2 as [H2 | H2], H3 as [H3 | H3]; rewrite H3, ?H2;
      auto using add_column_NoDup.
Qed.

Lemma clean_weekly_numeric weekly weeks c :
  c ∈ weekly_numeric → has_column (clean_weekly weekly weeks) c = true →
  Forall (λ ir, numeric_or_null (get ir.2 c) = true) (rows (clean_weekly weekly weeks)).
Proof.
  intros Hc Hhas.
  rewrite clean_weekly_eq in Hhas |- *.
  rewrite has_column_cast_numeric in Hhas.
  exact (cast_numeric_numeric _ _ _ Hc Hhas).
Qed.

(** *** The cleaned baseline table *)

Lemma clean_intake_columns intake :
  columns intake ⊆ columns (clean_intake intake) ∧
  columns (clean_intake intake) ⊆ intake_names intake ∧
  (NoDup (columns intake) → NoDup (columns (clean_intake intake))).
Proof.
  unfold Backend.clean_intake, Backend.mapped_intake. rewrite columns_cast_numeric.
  set (i1 := normalize_common intake).
  assert (columns i1 = columns intake) as H1 by apply columns_normalize_common.
  set (i2 := if has_column i1 _ then _ else i1).
  assert (columns i2 = columns i1
          ∨ columns i2 = add_column (columns i1) "sleep_hours_numeric_baseline")
    as H2 by (unfold i2; destruct (has_column i1 _); auto).
  unfold intake_names. rewrite <- H1. split_and!.
  - destruct H2 as [H2 | H2]; rewrite H2; intros c Hc;
      rewrite ?elem_of_add_column; auto.
  - assert (columns i1 ⊆ columns i1 ++ ["sleep_hours_numeric_baseline"]
              ++ baseline_operands) as H0
      by (intros c Hc; apply elem_of_app; by left).
    destruct H2 as [H2 | H2]; rewrite H2;
      repeat (first [exact H0 | apply add_column_within; [|in_list]]).
  - intros Hnd. destruct H2 as [H2 | H2]; rewrite H2; auto using add_column_NoDup.
Qed.

Lemma clean_intake_email intake :
  has_column intake "email" = true →
  tracks (λ r r', get r' "email" = normalize_email py_str (get r "email"))
         intake (clean_intake intake).
Proof.
  intros He. unfold Backend.clean_intake, Backend.mapped_intake.
  set (i1 := normalize_common intake).
  set (i2 := if has_column i1 "sleep_hours_baseline" then _ else i1).
  assert (tracks (λ r r', get r' "email" = get r "email") i1 i2) as H2.
  { apply tracks_if; [done|]. intros r v. by rewrite get_insert_ne. }
  assert (tracks (λ r r', get r' "email" = get r "email") i2
                 (cast_numeric i2 intake_numeric)) as H3.
  { apply tracks_cast_numeric; [done|intros; congruence|].
    intros c r Hc. rewrite get_insert_ne; [done|].
    intros ->. by apply email_not_cast in Hc. }
  eapply (tracks_compose _ (λ r r', get r' "email" = get r "email"));
    [|by apply normalize_common_email|].
  { simpl. intros a b c H H'. congruence. }
  eapply (tracks_trans _ _ i2); [|done..]. intros; congruence.
Qed.

Lemma clean_intake_numeric intake c :
  c ∈ intake_numeric → has_column (clean_intake intake) c = true →
  Forall (λ ir, numeric_or_null (get ir.2 c) = true) (rows (clean_intake intake)).
Proof.
  intros Hc Hhas.
  rewrite clean_intake_eq in Hhas |- *.
  rewrite has_column_cast_numeric in Hhas.
  exact (cast_numeric_numeric _ _ _ Hc Hhas).
Qed.
End PrepData.

Lemma Forall2_concat_split {A B} (R : A → B → Prop) (bs : list (list A)) (l' : list B) :
  Forall2 R (concat bs) l' →
  ∃ bs', concat bs' = l' ∧ Forall2 (Forall2 R) bs bs'.
Proof.
  revert l'. induction bs as [|b bs IH]; intros l' H; simpl in *.
  - inversion H; subst. exists []. split; [done|constructor].
  - apply Forall2_app_inv_l in H as (k1 & k2 & H1 & H2 & ->).
    destruct (IH _ H2) as (bs' & <- & Hbs).
    exists (k1 :: bs'). split; [done|]. by constructor.
Qed.

Lemma filter_length_Forall2 {A B} (P : A → Prop) (Q : B → Prop)
    `{∀ x, Decision (P x)} `{∀ y, Decision (Q y)} (l : list A) (l' : list B) :
  Forall2 (λ x y, P x ↔ Q y) l l' → length (filter P l) = length (filter Q l').
Proof.
  induction 1 as [|x y l l' Hxy _ IH]; [done|].
  rewrite !filter_cons. destruct (decide (P x)), (decide (Q y)); simpl; tauto || lia.
Qed.

Lemma Forall2_Forall_r_weak {A B} (R : A → B → Prop) (P : A → Prop) (Q : B → Prop) l l' :
  (∀ x y, R x y → P x → Q y) → Forall2 R l l' → Forall P l → Forall Q l'.
Proof.
  intros H. induction 1 as [|x y l l' Hxy _ IH]; [constructor|].
  intros [Hx Hl]%Forall_cons. constructor; eauto.
Qed.

Lemma cell_key_text s c : cell_key (VStr s) = cell_key c ↔ VStr s = c.
Proof. destruct c as [| | |[]|]; simpl; split; congruence. Qed.

Lemma operands_not_delta c :
  c ∈ weekly_operands ++ baseline_operands → c ∉ delta_names.
Proof.
  intros Hc Hd. revert Hc. apply (bool_decide_unpack _).
  revert c Hd. apply Forall_forall. vm_compute. repeat constructor.
Qed.

Lemma weekly_operands_numeric c : c ∈ weekly_operands → c ∈ weekly_numeric.
Proof. revert c. apply Forall_forall. repeat constructor; in_list. Qed.

Lemma baseline_operands_numeric c : c ∈ baseline_operands → c ∈ intake_numeric.
Proof. revert c. apply Forall_forall. repeat constructor; in_list. Qed.

Lemma operand_not_email c :
  c ∈ weekly_operands ++ baseline_operands → c ≠ "email".
Proof.
  intros Hc ->. revert Hc. apply (bool_decide_unpack _). vm_compute. exact I.
Qed.

Lemma length_append s t :
  String.length (s +:+ t) = (String.length s + String.length t)%nat.
Proof. induction s as [|a s IH]; simpl; [done|]. by rewrite IH. Qed.

Lemma append_inj_suffix t s1 s2 : s1 +:+ t = s2 +:+ t → s1 = s2.
Proof.
  revert s2. induction s1 as [|a s1 IH]; intros [|b s2] H; cbn [append] in H.
  - done.
  - apply (f_equal String.length) in H. rewrite !length_append in H. simpl in H. lia.
  - apply (f_equal String.length) in H. rewrite !length_append in H. simpl in H. lia.
  - change (String a (s1 +:+ t) = String b (s2 +:+ t)) in H.
    injection H as -> H. f_equal. by apply IH.
Qed.

Lemma add_deltas_Ok M M' :
  add_deltas M = Ok M' →
  columns M' ⊆ columns M ++ delta_names ∧
  tracks (λ r r', ∀ c, c ∉ delta_names → get r' c = get r c) M M'.
Proof.
  unfold add_deltas. intros H.
  destruct (add_delta _ _ _ M) as [M1|] eqn:H1; [|done]. cbn [rbind] in H.
  destruct (add_delta _ _ _ M1) as [M2|] eqn:H2; [|done]. cbn [rbind] in H.
  apply add_delta_Ok in H1 as (Hc1 & _ & Ht1).
  apply add_delta_Ok in H2 as (Hc2 & _ & Ht2).
  apply add_delta_Ok in H as (Hc3 & _ & Ht3).
  split.
  - intros c Hc%Hc3. unfold delta_names.
    rewrite elem_of_app in Hc. destruct Hc as [Hc%Hc2|Hc%list_elem_of_singleton].
    + rewrite elem_of_app in Hc. destruct Hc as [Hc%Hc1|Hc%list_elem_of_singleton].
      * rewrite elem_of_app in Hc. destruct Hc as [Hc|Hc%list_elem_of_singleton].
        -- apply elem_of_app. by left.
        -- subst c. apply elem_of_app. right. in_list.
      * subst c. apply elem_of_app. right. in_list.
    + subst c. apply elem_of_app. right. in_list.
  - set (P := λ r r' : gmap string cell, ∀ c, c ∉ delta_names → get r' c = get r c).
    assert (∀ a b c, P a b → P b c → P a c) as Htrans.
    { intros a b c Hab Hbc x Hx. by rewrite Hbc, Hab. }
    assert (∀ d A B, d ∈ delta_names →
              tracks (λ r r', ∀ c, c ≠ d → get r' c = get r c) A B → tracks P A B) as Hweak.
    { intros d A B Hd Ht. unfold tracks in *. eapply Forall2_impl; [exact Ht|].
      simpl. intros x y [? Hxy]. split; [done|]. intros c Hc. apply Hxy.
      intros ->. done. }
    eapply tracks_trans; [exact Htrans| |eapply (Hweak _ M2 M'); [|exact Ht3]; in_list].
    eapply tracks_trans; [exact Htrans| |eapply (Hweak _ M1 M2); [|exact Ht2]; in_list].
    eapply (Hweak _ M M1); [|exact Ht1]. in_list.
Qed.

(** The merged table, block by block. *)
Lemma join_blocks (cw ci M0 M1 : DataFrame) :
  merge_left cw ci = Ok M0 → add_deltas M0 = Ok M1 →
  ∃ blocks : list (list (gmap string cell)),
    concat blocks = map snd (rows M1) ∧
    Forall2 (λ ir block,
        length block = (1 `max` length (matches ci ir.2))%nat ∧
        ∀ r, r ∈ block →
          (∀ c, c ∈ columns cw → c ∉ delta_names → get r c = get ir.2 c) ∧
          (matches ci ir.2 = [] →
           ∀ c, c ∈ columns M1 → c ∉ columns cw → c ∉ delta_names → get r c = VNull))
      (rows cw) blocks.
Proof.
  intros (Hle & Hre & Hnd & Hcols & Hrows)%merge_left_Ok [Hc1 Ht1]%add_deltas_Ok.
  set (R := λ r r' : gmap string cell, ∀ c, c ∉ delta_names → get r' c = get r c).
  assert (Forall2 R (map snd (rows M0)) (map snd (rows M1))) as HF.
  { apply Forall2_fmap. unfold tracks in Ht1. eapply Forall2_impl; [exact Ht1|].
    simpl. by intros ?? [_ ?]. }
  rewrite Hrows in HF.
  rewrite flat_map_concat_map in HF.
  apply Forall2_concat_split in HF as (blocks & Hconcat & HF).
  exists blocks. split; [done|].
  apply (Forall2_fmap_l (λ ir : Z * gmap string cell, joined_rows cw ci ir.2)) in HF.
  eapply Forall2_impl; [exact HF|]. simpl. intros ir block HFb. split.
  - rewrite <- (Forall2_length _ _ _ HFb). apply joined_rows_length.
  - intros r' Hr'.
    apply list_elem_of_lookup in Hr' as [k Hk].
    destruct (Forall2_lookup_r _ _ _ _ _ HFb Hk) as (r & Hr%list_elem_of_lookup_2 & HR).
    destruct (joined_rows_cells cw ci ir.2 r Hnd Hr) as [Hleft Hright].
    split.
    + intros c Hc Hd. rewrite (HR c Hd). by apply Hleft.
    + intros Hzero c Hc Hnc Hd. rewrite (HR c Hd).
      apply Hc1, elem_of_app in Hc as [Hc|Hc]; [|done].
      rewrite Hcols in Hc. apply elem_of_app in Hc as [Hc|Hc]; [done|].
      apply list_elem_of_fmap in Hc as (c0 & -> & Hc0).
      destruct (Hright c0 Hc0) as [[_ Hn]|(jr & Hjr & _)]; [done|].
      rewrite Hzero in Hjr. by apply elem_of_nil in Hjr.
Qed.

Section PrepDataTheorems.
Variable py_str : cell → string.
Variable to_datetime : cell → option Z.

Local Abbreviation normalize_common := (normalize_common py_str to_datetime).
Local Abbreviation clean_weekly := (clean_weekly py_str to_datetime).
Local Abbreviation clean_intake := (clean_intake py_str to_datetime).
Local Abbreviation prep_data := (prep_data py_str to_datetime).

Lemma week_column_normalized weekly :
  tracks (λ r r', get r' "week_number" = get r "week_number")
         weekly (normalize_common weekly).
Proof.
  apply tracks_normalize_common; [done|intros; congruence|..];
    intros r v; by rewrite get_insert_ne.
Qed.

(** Lines 111 to 114 return when the week-number column is there and
    every week label can be cast. *)
Lemma parse_weeks_total weekly :
  has_column weekly "week_number" = true →
  Forall (λ ir, is_Ok (parse_week_cell (get ir.2 "week_number"))) (rows weekly) →
  ∃ raw weeks,
    column (normalize_common weekly) "week_number" = Ok raw ∧
    parse_week_number raw = Ok weeks ∧
    length weeks = length (rows weekly).
Proof.
  intros Hw Hp. unfold column. rewrite has_column_normalize_common, Hw.
  eexists _, _. split; [reflexivity|].
  set (g := λ iv : Z * cell,
         (iv.1, int_cell (match parse_week_cell iv.2 with Ok w => w | Err _ => None end))).
  assert (parse_week_number
            (map (λ ir, (ir.1, get ir.2 "week_number")) (rows (normalize_common weekly)))
          = Ok (map g (map (λ ir, (ir.1, get ir.2 "week_number"))
                           (rows (normalize_common weekly))))) as ->.
  { apply rmapM_total. apply Forall_fmap.
    eapply Forall2_Forall_r_weak; [|apply week_column_normalized|exact Hp].
    simpl. intros x y [_ Hxy] [w Hx]. unfold g. simpl. rewrite Hxy, Hx. done. }
  split; [done|]. rewrite !length_map.
  by apply (tracks_length _ _ _ (week_column_normalized weekly)).
Qed.

Lemma parse_weeks_Ok weekly raw weeks :
  column (normalize_common weekly) "week_number" = Ok raw →
  parse_week_number raw = Ok weeks →
  has_column weekly "week_number" = true ∧ length weeks = length (rows weekly).
Proof.
  unfold column. rewrite has_column_normalize_common.
  destruct (has_column weekly "week_number"); [|done].
  intros [= <-] Hp%rmapM_Ok_length. split; [done|].
  rewrite Hp, length_map.
  by apply (tracks_length _ _ _ (week_column_normalized weekly)).
Qed.

(** The joined table when no name is on both sides. *)
Lemma separate_names_join intake weekly weeks :
  has_column weekly "week_number" = true →
  separate_names intake weekly →
  NoDup (columns (clean_weekly weekly weeks)
         ++ map (suffixed (clean_weekly weekly weeks))
                (right_columns (clean_intake intake))) ∧
  (∀ c c0, c ∈ weekly_operands → c0 ∈ right_columns (clean_intake intake) →
           suffixed (clean_weekly weekly weeks) c0 ≠ c) ∧
  (∀ c, c ∈ baseline_operands → c ∉ columns (clean_weekly weekly weeks)) ∧
  (∀ c c0, c ∈ baseline_operands → c0 ∈ right_columns (clean_intake intake) →
           suffixed (clean_weekly weekly weeks) c0 = c → c0 = c).
Proof.
  intros Hw (Hnw & Hni & Hsep).
  destruct (clean_weekly_columns py_str to_datetime weekly weeks Hw) as (_ & Hcw & Hndw).
  destruct (clean_intake_columns py_str to_datetime intake) as (_ & Hci & Hndi).
  generalize dependent (clean_weekly weekly weeks). intros cw Hcw Hndw.
  generalize dependent (clean_intake intake). intros ci Hci Hndi.
  specialize (Hndw Hnw). specialize (Hndi Hni).
  rewrite Forall_forall in Hsep.
  assert (∀ c, c ∈ weekly_operands → c ∈ weekly_names weekly) as Hwop.
  { intros c Hc. unfold weekly_names. rewrite !elem_of_app. auto. }
  assert (∀ c, c ∈ baseline_operands → c ∈ intake_names intake) as Hbop.
  { intros c Hc. unfold intake_names. rewrite !elem_of_app. auto. }
  assert (∀ c, c ∈ right_columns ci → c ∈ columns cw →
            (c ∉ weekly_operands ++ baseline_operands) ∧
            ((c +:+ "_intake") ∉ intake_names intake) ∧
            ((c +:+ "_intake") ∉ weekly_names weekly)) as Hshared.
  { intros c [Hne Hc]%list_elem_of_filter Hc'. apply Hsep; auto. }
  assert (∀ c, c ∈ right_columns ci → c ∈ columns cw →
            suffixed cw c = c +:+ "_intake") as Hyes.
  { intros c _ Hc. unfold suffixed, has_column. by rewrite bool_decide_eq_true_2. }
  assert (∀ c, c ∉ columns cw → suffixed cw c = c) as Hno.
  { intros c Hc. unfold suffixed, has_column. by rewrite bool_decide_eq_false_2. }
  split_and!.
  - apply NoDup_app. split_and!; [done| |].
    + intros x Hx (c0 & -> & Hc0)%list_elem_of_fmap.
      destruct (decide (c0 ∈ columns cw)) as [Hin|Hout].
      * rewrite (Hyes c0 Hc0 Hin) in Hx.
        destruct (Hshared c0 Hc0 Hin) as (_ & _ & Hfresh). by apply Hfresh, Hcw.
      * rewrite (Hno c0 Hout) in Hx. done.
    + apply NoDup_fmap_2_strong; [|by apply NoDup_filter].
      intros c1 c2 Hc1 Hc2 Heq.
      destruct (decide (c1 ∈ columns cw)) as [Hin1|Hout1];
        destruct (decide (c2 ∈ columns cw)) as [Hin2|Hout2].
      * rewrite (Hyes c1 Hc1 Hin1), (Hyes c2 Hc2 Hin2) in Heq.
        by apply append_inj_suffix in Heq.
      * rewrite (Hyes c1 Hc1 Hin1), (Hno c2 Hout2) in Heq.
        destruct (Hshared c1 Hc1 Hin1) as (_ & Hfresh & _).
        exfalso. apply Hfresh. rewrite Heq. apply Hci.
        by apply list_elem_of_filter in Hc2 as [_ ?].
      * rewrite (Hno c1 Hout1), (Hyes c2 Hc2 Hin2) in Heq.
        destruct (Hshared c2 Hc2 Hin2) as (_ & Hfresh & _).
        exfalso. apply Hfresh. rewrite <- Heq. apply Hci.
        by apply list_elem_of_filter in Hc1 as [_ ?].
      * by rewrite (Hno c1 Hout1), (Hno c2 Hout2) in Heq.
  - intros c c0 Hc Hc0 Heq.
    destruct (decide (c0 ∈ columns cw)) as [Hin|Hout].
    + rewrite (Hyes c0 Hc0 Hin) in Heq.
      destruct (Hshared c0 Hc0 Hin) as (_ & _ & Hfresh).
      apply Hfresh. rewrite Heq. by apply Hwop.
    + rewrite (Hno c0 Hout) in Heq. subst c0.
      apply list_elem_of_filter in Hc0 as [Hne Hc0].
      destruct (Hsep c (Hci _ Hc0) (Hwop _ Hc) Hne) as (Hnop & _).
      apply Hnop, elem_of_app. by left.
  - intros c Hc Hc'.
    assert (c ≠ "email") as Hne.
    { apply operand_not_email, elem_of_app. by right. }
    destruct (Hsep c (Hbop _ Hc) (Hcw _ Hc') Hne) as (Hnop & _).
    apply Hnop, elem_of_app. by right.
  - intros c c0 Hc Hc0 Heq.
    destruct (decide (c0 ∈ columns cw)) as [Hin|Hout].
    + rewrite (Hyes c0 Hc0 Hin) in Heq.
      destruct (Hshared c0 Hc0 Hin) as (_ & Hfresh & _).
      exfalso. apply Hfresh. rewrite Heq. by apply Hbop.
    + by rewrite (Hno c0 Hout) in Heq.
Qed.

Lemma add_delta_keeps_operands d a b M M' :
  d ∈ delta_names → operands_numeric M → add_delta d a b M = Ok M' →
  operands_numeric M'.
Proof.
  intros Hd HM (Hcols & _ & Htr)%add_delta_Ok c Hc Hhas ir' Hir'.
  assert (c ≠ d) as Hne.
  { intros ->. by eapply operands_not_delta. }
  assert (has_column M c = true) as HhasM.
  { apply bool_decide_eq_true. apply bool_decide_eq_true in Hhas.
    apply Hcols, elem_of_app in Hhas as [?|?%list_elem_of_singleton]; done. }
  unfold tracks in Htr.
  apply list_elem_of_lookup in Hir' as [i Hi].
  destruct (Forall2_lookup_r _ _ _ _ _ Htr Hi) as (ir & Hir & _ & Hget).
  rewrite (Hget c) by (intros ->; done).
  eapply HM; eauto. by eapply list_elem_of_lookup_2.
Qed.

Lemma add_delta_operands_total d a b M :
  a ∈ weekly_operands → b ∈ baseline_operands → operands_numeric M →
  is_Ok (add_delta d a b M).
Proof.
  intros Ha Hb HM. apply add_delta_total.
  rewrite !has_columns_cons, !andb_true_iff. intros (Hca & Hcb & _) ir Hir. split.
  - eapply HM; eauto. apply elem_of_app. by left.
  - eapply HM; eauto. apply elem_of_app. by right.
Qed.

Lemma add_deltas_total M : operands_numeric M → is_Ok (add_deltas M).
Proof.
  intros HM. unfold add_deltas.
  destruct (add_delta_operands_total "delta_bodyweight_lbs"
              "bodyweight_lbs_weekly" "bodyweight_lbs_baseline" M) as [M1 H1];
    [in_list..|done|].
  rewrite H1. cbn [rbind].
  assert (operands_numeric M1) as HM1.
  { eapply add_delta_keeps_operands; [|exact HM|exact H1]. in_list. }
  destruct (add_delta_operands_total "delta_rhr_bpm"
              "rhr_bpm_weekly" "rhr_bpm_baseline" M1) as [M2 H2];
    [in_list..|done|].
  rewrite H2. cbn [rbind].
  assert (operands_numeric M2) as HM2.
  { eapply add_delta_keeps_operands; [|exact HM1|exact H2]. in_list. }
  apply add_delta_operands_total; [in_list..|done].
Qed.

Lemma merged_operands_numeric intake weekly weeks M :
  has_column weekly "week_number" = true →
  separate_names intake weekly →
  merge_left (clean_weekly weekly weeks) (clean_intake intake) = Ok M →
  operands_numeric M.
Proof.
  intros Hw Hsep HM.
  destruct (separate_names_join intake weekly weeks Hw Hsep) as (Hnd & Hwo & Hbo & Hbo').
  pose proof (clean_weekly_numeric py_str to_datetime weekly weeks) as Hnw.
  pose proof (clean_intake_numeric py_str to_datetime intake) as Hni.
  revert HM Hnd Hwo Hbo Hbo' Hnw Hni.
  generalize (clean_weekly weekly weeks). intros cw.
  generalize (clean_intake intake). intros ci.
  intros (_ & _ & Hnd' & Hcols & Hrows)%merge_left_Ok Hnd Hwo Hbo Hbo' Hnw Hni.
  intros c Hc Hhas ir Hir.
  assert (ir.2 ∈ flat_map (λ wr, joined_rows cw ci wr.2) (rows cw)) as Hin.
  { rewrite <- Hrows. apply list_elem_of_fmap. eauto. }
  apply list_elem_of_In, in_flat_map in Hin as (wr & Hwr%list_elem_of_In & Hmr%list_elem_of_In).
  destruct (joined_rows_cells cw ci wr.2 ir.2 Hnd' Hmr) as [Hleft Hright].
  apply bool_decide_eq_true in Hhas. rewrite Hcols in Hhas.
  apply elem_of_app in Hc as [Hc|Hc].
  - assert (c ∈ columns cw) as Hccw.
    { apply elem_of_app in Hhas as [?|(c0 & Heq & Hc0)%list_elem_of_fmap]; [done|].
      exfalso. by apply (Hwo c c0). }
    rewrite (Hleft c Hccw).
    pose proof (Hnw c (weekly_operands_numeric c Hc)) as H.
    rewrite Forall_forall in H. apply H; [|done]. by apply bool_decide_eq_true.
  - assert (c ∈ right_columns ci ∧ suffixed cw c = c) as [Hcci Hs].
    { apply elem_of_app in Hhas as [?|(c0 & Heq & Hc0)%list_elem_of_fmap].
      - by apply Hbo in Hc.
      - symmetry in Heq. pose proof (Hbo' c c0 Hc Hc0 Heq) as ->. done. }
    destruct (Hright c Hcci) as [[_ Hn]|(jr & Hjr & Hv)]; rewrite Hs in *.
    + by rewrite Hn.
    + rewrite Hv. apply list_elem_of_filter in Hjr as [_ Hjr].
      pose proof (Hni c (baseline_operands_numeric c Hc)) as H.
      rewrite Forall_forall in H. apply H; [|done].
      apply bool_decide_eq_true. by apply list_elem_of_filter in Hcci as [_ ?].
Qed.

Lemma castable_week_Ok c : castable_week c → is_Ok (parse_week_cell c).
Proof.
  unfold castable_week, is_Ok. destruct (parse_week_cell c) as [w|e]; [eauto|done].
Qed.

(** C7 (amended).  [prep_data] returns whenever both tables have the
    identity column, the weekly table has the week-number column, every
    week label is no number or is an integer of magnitude at most 2^53,
    and no column name other than "email" is on both sides of the join:
    whichever of the categorical, metric and timestamp columns are there
    or not, and whatever the other cells hold. *)
Theorem prep_data_skips_absent_columns (intake weekly : DataFrame) :
  has_column intake "email" = true →
  has_column weekly "email" = true →
  has_column weekly "week_number" = true →
  Forall (λ ir, castable_week (get ir.2 "week_number")) (rows weekly) →
  separate_names intake weekly →
  is_Ok (prep_data intake weekly).
Proof.
  intros Hie Hwe Hw Hp Hsep.
  rewrite prep_data_unfold.
  destruct (parse_weeks_total weekly Hw) as (raw & weeks & Hraw & Hweeks & Hlen).
  { eapply Forall_impl; [exact Hp|]. intros ir. apply castable_week_Ok. }
  rewrite Hraw. cbn [rbind]. rewrite Hweeks. cbn [rbind].
  destruct (separate_names_join intake weekly weeks Hw Hsep) as (Hnd & _).
  destruct (clean_weekly_columns py_str to_datetime weekly weeks Hw) as (Hcw & _).
  destruct (clean_intake_columns py_str to_datetime intake) as (Hci & _).
  pose proof (merged_operands_numeric intake weekly weeks) as Hop.
  destruct (merge_left_total (clean_weekly weekly weeks) (clean_intake intake))
    as [M HM].
  - apply bool_decide_eq_true, Hcw. by apply bool_decide_eq_true in Hwe.
  - apply bool_decide_eq_true, Hci. by apply bool_decide_eq_true in Hie.
  - done.
  - rewrite HM. cbn [rbind].
    destruct (add_deltas_total M) as [M' HM']; [by apply Hop|].
    rewrite HM'. by eexists.
Qed.

Lemma matches_count intake ir :
  has_column intake "email" = true →
  (∃ s, get ir.2 "email" = VStr s) →
  length (matches (clean_intake intake) ir.2) = baseline_matches py_str intake ir.
Proof.
  intros Hie [s Hs]. unfold matches, baseline_matches. symmetry.
  apply filter_length_Forall2.
  pose proof (clean_intake_email py_str to_datetime intake Hie) as Ht.
  unfold tracks in Ht. eapply Forall2_impl; [exact Ht|].
  simpl. intros jr jr' [_ He]. rewrite He, Hs. unfold normalize_email.
  rewrite cell_key_text. done.
Qed.

Lemma clean_weekly_email weekly weeks :
  length weeks = length (rows weekly) →
  has_column weekly "email" = true →
  tracks (λ r r', get r' "email" = normalize_email py_str (get r "email"))
         weekly (clean_weekly weekly weeks).
Proof.
  intros Hlen He. unfold Backend.clean_weekly, Backend.mapped_weekly.
  set (w0 := normalize_common weekly).
  set (w1 := assign w0 "week_number" weeks).
  set (w2 := if has_column w1 "nutrition_adherence_weekly" then _ else w1).
  set (w3 := if has_column w2 "sleep_hours_weekly" then _ else w2).
  set (P := λ r r' : gmap string cell, get r' "email" = get r "email").
  assert (∀ a b c, P a b → P b c → P a c) as Htrans.
  { unfold P. intros; congruence. }
  assert (tracks P w0 w1) as H1.
  { apply tracks_assign.
    - rewrite Hlen. symmetry. eapply tracks_length.
      by apply (normalize_common_email py_str to_datetime).
    - intros r v. unfold P. by rewrite get_insert_ne. }
  assert (tracks P w1 w2) as H2.
  { apply tracks_if; [done|]. intros r v. unfold P. by rewrite get_insert_ne. }
  assert (tracks P w2 w3) as H3.
  { apply tracks_if; [done|]. intros r v. unfold P. by rewrite get_insert_ne. }
  assert (tracks P w3 (cast_numeric w3 weekly_numeric)) as H4.
  { apply tracks_cast_numeric; [done|done|].
    intros c r Hc. unfold P. rewrite get_insert_ne; [done|].
    intros ->. revert Hc. apply (bool_decide_unpack _). vm_compute. exact I. }
  eapply (tracks_compose (λ r r', get r' "email" = normalize_email py_str (get r "email")) P);
    [|by apply normalize_common_email|].
  { simpl. unfold P. intros a b c H H'. congruence. }
  eauto using tracks_trans.
Qed.

Lemma prep_data_Ok intake weekly merged wk :
  prep_data intake weekly = Ok (merged, wk) →
  ∃ raw weeks M0,
    column (normalize_common weekly) "week_number" = Ok raw ∧
    parse_week_number raw = Ok weeks ∧
    wk = clean_weekly weekly weeks ∧
    merge_left (clean_weekly weekly weeks) (clean_intake intake) = Ok M0 ∧
    add_deltas M0 = Ok merged.
Proof.
  rewrite prep_data_unfold.
  generalize (clean_weekly weekly). intros cw.
  generalize (clean_intake intake). intros ci H.
  destruct (column _ _) as [raw|] eqn:Hraw; [|done]. cbn [rbind] in H.
  destruct (parse_week_number raw) as [weeks|] eqn:Hweeks; [|done]. cbn [rbind] in H.
  exists raw, weeks.
  destruct (merge_left (cw weeks) ci) as [M0|] eqn:HM0; [|done]. cbn [rbind] in H.
  destruct (add_deltas M0) as [M1|] eqn:HM1; [|done]. cbn [rbind] in H.
  exists M0. injection H as <- <-. done.
Qed.

Lemma join_rows_counted (intake weekly cw ci M0 merged : DataFrame) :
  tracks (λ r r', get r' "email" = normalize_email py_str (get r "email")) weekly cw →
  (∀ ir, (∃ s, get ir.2 "email" = VStr s) →
         length (matches ci ir.2) = baseline_matches py_str intake ir) →
  merge_left cw ci = Ok M0 → add_deltas M0 = Ok merged →
  ∃ blocks : list (list (gmap string cell)),
    concat blocks = map snd (rows merged) ∧
    Forall2 (λ ir block,
        length block = (1 `max` baseline_matches py_str intake ir)%nat ∧
        ∀ r, r ∈ block →
          (∀ c, c ∈ columns cw → c ∉ delta_names → get r c = get ir.2 c) ∧
          (baseline_matches py_str intake ir = 0%nat →
           ∀ c, c ∈ columns merged → c ∉ columns cw → c ∉ delta_names →
                get r c = VNull))
      (rows cw) blocks.
Proof.
  intros Hwe Hcount HM0 HM1.
  destruct (join_blocks _ _ _ _ HM0 HM1) as (blocks & Hconcat & HF).
  exists blocks. split; [done|].
  apply Forall2_same_length_lookup in HF as [Hlen' HF].
  apply Forall2_same_length_lookup. split; [done|].
  intros i ir block Hir Hblock. specialize (HF i ir block Hir Hblock).
  cbv beta in HF.
  assert (∃ s, get ir.2 "email" = VStr s) as Hs.
  { unfold tracks in Hwe.
    destruct (Forall2_lookup_r _ _ _ _ _ Hwe Hir) as (ir0 & _ & _ & He).
    rewrite He. unfold normalize_email. eauto. }
  rewrite <- (Hcount ir Hs). destruct HF as [HFl HFr]. split; [exact HFl|].
  intros r Hr. destruct (HFr r Hr) as [H1 H2]. split; [exact H1|].
  intros Hzero. apply H2. apply length_zero_iff_nil. exact Hzero.
Qed.

Lemma merged_has_email intake weekly weeks M0 :
  has_column weekly "week_number" = true →
  merge_left (clean_weekly weekly weeks) (clean_intake intake) = Ok M0 →
  has_column weekly "email" = true ∧ has_column intake "email" = true.
Proof.
  intros Hw.
  pose proof (clean_weekly_columns py_str to_datetime weekly weeks Hw) as (_ & Hcw & _).
  pose proof (clean_intake_columns py_str to_datetime intake) as (_ & Hci & _).
  revert Hcw Hci.
  generalize (clean_weekly weekly weeks). intros cw.
  generalize (clean_intake intake). intros ci.
  intros Hcw Hci (Hle & Hre & _)%merge_left_Ok. split.
  - apply bool_decide_eq_true. apply bool_decide_eq_true in Hle.
    apply Hcw in Hle. unfold weekly_names in Hle.
    apply elem_of_app in Hle as [?|Hle]; [done|].
    exfalso. revert Hle. apply (bool_decide_unpack _). vm_compute. exact I.
  - apply bool_decide_eq_true. apply bool_decide_eq_true in Hre.
    apply Hci in Hre. unfold intake_names in Hre.
    apply elem_of_app in Hre as [?|Hre]; [done|].
    exfalso. revert Hre. apply (bool_decide_unpack _). vm_compute. exact I.
Qed.

(** C2 (amended).  When [prep_data] returns, the cleaned weekly table has
    the rows of the weekly table it was given, label by label, and the
    merged table is made of one block of rows per weekly row, in order:
    as many rows as there are baseline rows of the same normalised
    identity, and one row when there is none.  Every row of the block
    repeats the weekly row's cells, and when no baseline row matched its
    other columns are null (the columns of differences apart). *)
Theorem prep_data_join_rows intake weekly merged wk :
  prep_data intake weekly = Ok (merged, wk) →
  map fst (rows wk) = map fst (rows weekly) ∧
  ∃ blocks : list (list (gmap string cell)),
    concat blocks = map snd (rows merged) ∧
    Forall2 (λ ir block,
        length block = (1 `max` baseline_matches py_str intake ir)%nat ∧
        ∀ r, r ∈ block →
          (∀ c, c ∈ columns wk → c ∉ delta_names → get r c = get ir.2 c) ∧
          (baseline_matches py_str intake ir = 0%nat →
           ∀ c, c ∈ columns merged → c ∉ columns wk → c ∉ delta_names →
                get r c = VNull))
      (rows wk) blocks.
Proof.
  intros (raw & weeks & M0 & Hraw & Hweeks & Hwk & HM0 & HM1)%prep_data_Ok.
  destruct (parse_weeks_Ok weekly raw weeks Hraw Hweeks) as [Hw Hlen].
  destruct (merged_has_email intake weekly weeks M0 Hw HM0) as [Hwem Hiem].
  rewrite Hwk. split.
  - exact (clean_weekly_labels py_str to_datetime weekly weeks Hlen).
  - exact (join_rows_counted intake weekly _ _ M0 merged
             (clean_weekly_email weekly weeks Hlen Hwem)
             (λ ir, matches_count intake ir Hiem) HM0 HM1).
Qed.
End PrepDataTheorems.

(** *** [prep_data] on the example tables *)

Lemma example_prepared_eq :
  prep_data example_py_str example_to_datetime example_baseline example_raw_weekly
  = Ok (example_prepared.1, example_prepared.2).
Proof. vm_compute. reflexivity. Qed.

Lemma example_names_separate : separate_names example_baseline example_raw_weekly.
Proof.
  split_and!.
  - apply (bool_decide_unpack _). vm_compute. exact I.
  - apply (bool_decide_unpack _). vm_compute. exact I.
  - apply (bool_decide_unpack _). vm_compute. exact I.
Defined.

Lemma example_weeks_parse :
  Forall (λ ir : Z * gmap string cell, castable_week (get ir.2 "week_number"))
         (rows example_raw_weekly).
Proof. repeat constructor; vm_compute; (done || (split; discriminate)). Defined.

Lemma prep_data_skips_absent_columns_witness :
  has_column example_raw_weekly "sleep_hours_weekly" = false ∧
  has_column example_raw_weekly "nutrition_adherence_weekly" = false ∧
  has_column example_raw_weekly "rhr_bpm_weekly" = false ∧
  has_column example_baseline "sleep_hours_baseline" = false ∧
  is_Ok (prep_data example_py_str example_to_datetime example_baseline example_raw_weekly).
Proof.
  split_and!; [reflexivity..|].
  apply (prep_data_skips_absent_columns example_py_str example_to_datetime
           example_baseline example_raw_weekly).
  - reflexivity.
  - reflexivity.
  - reflexivity.
  - exact example_weeks_parse.
  - exact example_names_separate.
Defined.

(** Without the week-number column line 114 raises, whatever else the two
    tables hold. *)
Lemma prep_data_needs_week_number py_str to_datetime intake weekly :
  has_column weekly "week_number" = false →
  prep_data py_str to_datetime intake weekly = Err (KeyError "week_number").
Proof.
  intros Hw. rewrite prep_data_unfold. unfold column.
  by rewrite has_column_normalize_common, Hw.
Qed.

(** C7, counterexample.  A weekly table that has the identity column and a
    metric but no week-number column makes [prep_data] raise; so does a week
    label that is a number but no integer, and so does a weekly table
    without the identity column. *)
Lemma prep_data_counterexample :
  has_column example_no_week "week_number" = false ∧
  prep_data example_py_str example_to_datetime example_baseline example_no_week
  = Err (KeyError "week_number") ∧
  prep_data example_py_str example_to_datetime example_baseline example_half_week
  = Err TypeError ∧
  prep_data example_py_str example_to_datetime example_baseline example_no_email
  = Err (KeyError "email").
Proof. split_and!; vm_compute; reflexivity. Qed.

Lemma prep_data_join_rows_witness :
  prep_data example_py_str example_to_datetime example_baseline example_raw_weekly
  = Ok (example_prepared.1, example_prepared.2) ∧
  map fst (rows example_prepared.2) = map fst (rows example_raw_weekly) ∧
  ∃ blocks : list (list (gmap string cell)),
    concat blocks = map snd (rows example_prepared.1) ∧
    Forall2 (λ ir block,
        length block = (1 `max` baseline_matches example_py_str example_baseline ir)%nat ∧
        ∀ r, r ∈ block →
          (∀ c, c ∈ columns example_prepared.2 → c ∉ delta_names →
                get r c = get ir.2 c) ∧
          (baseline_matches example_py_str example_baseline ir = 0%nat →
           ∀ c, c ∈ columns example_prepared.1 → c ∉ columns example_prepared.2 →
                c ∉ delta_names → get r c = VNull))
      (rows example_prepared.2) blocks.
Proof.
  split; [vm_compute; reflexivity|].
  apply (prep_data_join_rows example_py_str example_to_datetime
           example_baseline example_raw_weekly).
  vm_compute. reflexivity.
Defined.

(** The example in full: the first check-in finds its baseline row, the
    second finds none and has the baseline side null. *)
Lemma prep_data_example :
  columns example_prepared.1
  = ["timestamp"; "email"; "week_number"; "bodyweight_lbs_weekly";
     "timestamp_intake"; "bodyweight_lbs_baseline"; "delta_bodyweight_lbs"] ∧
  map (λ ir, map (get ir.2) (columns example_prepared.1)) (rows example_prepared.1)
  = [[VTime 7; VStr "a@x.com"; VInt 1; VInt 195; VTime 1; VInt 200;
      VFloat (Fin (-5))];
     [VTime 8; VStr "z@x.com"; VNull; VNull; VNull; VNull; VNull]].
Proof. split; vm_compute; reflexivity. Qed.

(** C2, counterexample.  Two baseline rows whose identities are the same
    once normalised: the one check-in of that participant is in the merged
    table twice. *)
Lemma prep_data_join_counterexample :
  ∃ merged wk,
    prep_data example_py_str example_to_datetime example_twin_baseline example_one_checkin
    = Ok (merged, wk) ∧
    length (rows wk) = 1%nat ∧
    length (rows merged) = 2%nat ∧
    map email_of (rows merged) = [VStr "a@x.com"; VStr "a@x.com"] ∧
    map (λ ir, get ir.2 "bodyweight_lbs_baseline") (rows merged) = [VInt 200; VInt 201].
Proof. eexists _, _. split; [vm_compute; reflexivity|]. split_and!; reflexivity. Qed.

(** *** [cohort_weekly_summary] *)

Lemma cohort_summary_empty_shape merged :
  is_empty merged = true ∨ has_column merged "week_number" = false →
  cohort_weekly_summary merged = Ok (mkDF summary_columns []).
Proof.
  intros H. unfold cohort_weekly_summary.
  destruct H as [-> | ->]; [done|]. by rewrite orb_true_r.
Qed.

(** C8.  An empty table, or one without the week-number column, gives the
    table of no rows and the eight summary columns.  Otherwise the summary
    is computed only if every aggregated column is there: on the merged
    table that [prep_data] makes of a weekly table with the body weight as
    its only metric, which is not empty and has the week-number column, the
    aggregation raises [KeyError]. *)
Theorem cohort_summary_missing_metric :
  (∀ merged,
     is_empty merged = true ∨ has_column merged "week_number" = false →
     cohort_weekly_summary merged = Ok (mkDF summary_columns [])) ∧
  prep_data example_py_str example_to_datetime example_baseline example_raw_weekly
  = Ok (example_prepared.1, example_prepared.2) ∧
  is_empty example_prepared.1 = false ∧
  has_column example_prepared.1 "week_number" = true ∧
  has_column example_prepared.1 "email" = true ∧
  has_column example_prepared.1 "rhr_bpm_weekly" = false ∧
  cohort_weekly_summary example_prepared.1 = Err (KeyError "rhr_bpm_weekly").
Proof.
  split; [exact cohort_summary_empty_shape|].
  split; [exact example_prepared_eq|].
  split_and!; vm_compute; reflexivity.
Qed.

Lemma cohort_summary_missing_metric_witness :
  is_empty empty_frame = true ∧
  cohort_weekly_summary empty_frame = Ok (mkDF summary_columns []).
Proof.
  split; [reflexivity|].
  apply (proj1 cohort_summary_missing_metric empty_frame). left. reflexivity.
Defined.

(** *** [parse_week_number] *)

(** The cast of line 40 on an integer that 64 bits do not hold, and on
    an infinity. *)
Lemma parse_week_number_range :
  parse_week_number [(0, VStr "9223372036854775808")] = Err TypeError ∧
  parse_week_number [(0, VStr "Week inf")] = Err OverflowError.
Proof. split; vm_compute; reflexivity. Qed.

(** C9.  "Week 3", " 3 " and "3" parse to the integer 3 and "TBD" to the
    null, which is not the integer 0; but a label that is a number and no
    integer, such as "3.5" or "Week 3.5", makes the cast of line 40 raise
    [TypeError], for the whole column. *)
Theorem parse_week_number_examples :
  parse_week_number [(0, VStr "Week 3"); (1, VStr " 3 "); (2, VStr "3"); (3, VStr "TBD")]
  = Ok [(0, VInt 3); (1, VInt 3); (2, VInt 3); (3, VNull)] ∧
  VNull ≠ VInt 0 ∧
  parse_week_number [(0, VStr "3.5")] = Err TypeError ∧
  parse_week_number [(0, VStr "Week 3"); (1, VStr "Week 3.5")] = Err TypeError.
Proof. split_and!; [vm_compute; reflexivity|discriminate|vm_compute; reflexivity..]. Qed.

(** ** Text: trimming and lower case *)

Lemma rev_app_app s t u : String.rev_app s t +:+ u = String.rev_app s (t +:+ u).
Proof. revert t. induction s as [|a s IH]; intros t; simpl; [done|]. by rewrite IH. Qed.

Lemma rev_cons a s : String.rev (String a s) = String.rev s +:+ String a "".
Proof. unfold String.rev. simpl. by rewrite rev_app_app. Qed.

Lemma rev_app_append s u t :
  String.rev_app (s +:+ u) t = String.rev_app u (String.rev_app s t).
Proof. revert t. induction s as [|a s IH]; intros t; simpl; [done|]. by rewrite IH. Qed.

Lemma rev_snoc s a : String.rev (s +:+ String a "") = String a (String.rev s).
Proof. unfold String.rev. by rewrite rev_app_append. Qed.

Lemma rev_involutive s : String.rev (String.rev s) = s.
Proof.
  induction s as [|a s IH]; [done|]. by rewrite rev_cons, rev_snoc, IH.
Qed.

Lemma lstrip_idem s : Text.lstrip (Text.lstrip s) = Text.lstrip s.
Proof.
  induction s as [|a s IH]; [done|]. simpl.
  destruct (Text.is_space a) eqn:Ha; [done|]. simpl. by rewrite Ha.
Qed.

Lemma lstrip_snoc u c :
  Text.is_space c = false →
  Text.lstrip (u +:+ String c "") = Text.lstrip u +:+ String c "".
Proof.
  intros Hc. induction u as [|a u IH].
  - change (Text.lstrip (String c "") = String c ""). simpl. by rewrite Hc.
  - change (Text.lstrip (String a (u +:+ String c ""))
            = Text.lstrip (String a u) +:+ String c "").
    simpl. destruct (Text.is_space a); [exact IH|done].
Qed.

Lemma rstrip_idem s : Text.rstrip (Text.rstrip s) = Text.rstrip s.
Proof. unfold Text.rstrip. by rewrite rev_involutive, lstrip_idem. Qed.

Lemma rstrip_cons c t :
  Text.is_space c = false → Text.rstrip (String c t) = String c (Text.rstrip t).
Proof.
  intros Hc. unfold Text.rstrip. by rewrite rev_cons, lstrip_snoc, rev_snoc.
Qed.

Lemma lstrip_head s :
  Text.lstrip s = "" ∨ ∃ c t, Text.lstrip s = String c t ∧ Text.is_space c = false.
Proof.
  induction s as [|a s IH]; [by left|]. simpl.
  destruct (Text.is_space a) eqn:Ha; [done|]. right. eauto.
Qed.

Lemma strip_idem s : Text.strip (Text.strip s) = Text.strip s.
Proof.
  unfold Text.strip at 1.
  assert (Text.lstrip (Text.strip s) = Text.strip s) as ->.
  { unfold Text.strip. destruct (lstrip_head s) as [->|(c & t & -> & Hc)]; [done|].
    rewrite rstrip_cons by done. simpl. by rewrite Hc. }
  unfold Text.strip. apply rstrip_idem.
Qed.

Lemma lower_ascii_idem c : Text.lower_ascii (Text.lower_ascii c) = Text.lower_ascii c.
Proof. destruct c as [[] [] [] [] [] [] [] []]; reflexivity. Qed.

Lemma is_space_lower c : Text.is_space (Text.lower_ascii c) = Text.is_space c.
Proof. destruct c as [[] [] [] [] [] [] [] []]; reflexivity. Qed.

Lemma lower_idem s : Text.lower (Text.lower s) = Text.lower s.
Proof. induction s as [|a s IH]; simpl; [done|]. by rewrite lower_ascii_idem, IH. Qed.

Lemma lower_lstrip s : Text.lower (Text.lstrip s) = Text.lstrip (Text.lower s).
Proof.
  induction s as [|a s IH]; simpl; [done|]. rewrite is_space_lower.
  by destruct (Text.is_space a).
Qed.

Lemma lower_rev_app s t :
  Text.lower (String.rev_app s t) = String.rev_app (Text.lower s) (Text.lower t).
Proof. revert t. induction s as [|a s IH]; intros t; simpl; [done|]. by rewrite IH. Qed.

Lemma lower_strip s : Text.lower (Text.strip s) = Text.strip (Text.lower s).
Proof.
  unfold Text.strip, Text.rstrip, String.rev.
  by rewrite lower_rev_app, lower_lstrip, lower_rev_app, lower_lstrip.
Qed.

Lemma normal_text_lower_strip s : normal_text (Text.lower (Text.strip s)).
Proof.
  split.
  - by rewrite <- lower_strip, strip_idem.
  - apply lower_idem.
Qed.

Lemma normal_text_fixed s : normal_text s → Text.lower (Text.strip s) = s.
Proof. intros [Hs Hl]. by rewrite Hs, Hl. Qed.

Section Normalize.
Variable py_str : cell → string.
Variable to_datetime : cell → option Z.

Lemma normalize_email_normal c : normal_identity (normalize_email py_str c).
Proof. eexists. split; [reflexivity|]. apply normal_text_lower_strip. Qed.

Lemma normalize_email_fixed c :
  normal_identity c → normalize_email py_str c = c.
Proof.
  intros (s & -> & Hs). unfold normalize_email. simpl. by rewrite normal_text_fixed.
Qed.

(** X1.  [normalize_common] keeps the column names and the row labels, leaves
    every column other than "email" and "timestamp" as it is, makes every
    identity a text without surrounding whitespace or upper-case letters
    (the text of [astype(str)], trimmed and lower-cased) and every
    timestamp cell a timestamp or a null. *)
Theorem normalize_common_frame (df : DataFrame) :
  columns (normalize_common py_str to_datetime df) = columns df ∧
  Forall2 (λ ir ir',
      ir'.1 = ir.1 ∧
      (∀ c, c ≠ "email" → c ≠ "timestamp" → get ir'.2 c = get ir.2 c) ∧
      (has_column df "email" = true →
       get ir'.2 "email" = normalize_email py_str (get ir.2 "email")
       ∧ normal_identity (get ir'.2 "email")) ∧
      (has_column df "email" = false → get ir'.2 "email" = get ir.2 "email") ∧
      (has_column df "timestamp" = true →
       get ir'.2 "timestamp" = time_cell (to_datetime (get ir.2 "timestamp"))) ∧
      (has_column df "timestamp" = false →
       get ir'.2 "timestamp" = get ir.2 "timestamp"))
    (rows df) (rows (normalize_common py_str to_datetime df)).
Proof.
  split; [apply columns_normalize_common|].
  unfold normalize_common.
  destruct (has_column df "email") eqn:He.
  - assert (has_column (set_column "email"
              (λ r, normalize_email py_str (get r "email")) df) "timestamp"
            = has_column df "timestamp") as ->.
    { unfold has_column, set_column. cbn [columns]. rewrite has_column_add.
      destruct (bool_decide ("timestamp" ∈ columns df)); [done|].
      by rewrite bool_decide_eq_false_2. }
    destruct (has_column df "timestamp") eqn:Ht.
    + unfold set_column. cbn [rows]. rewrite map_map.
      apply Forall2_fmap_r, Forall_Forall2_diag, Forall_forall. intros ir _. simpl.
      split_and!; try done.
      * intros c H1 H2. by rewrite !get_insert_ne.
      * intros _. rewrite get_insert_ne, get_insert, decide_True by done.
        split; [done|apply normalize_email_normal].
      * intros _. rewrite get_insert, decide_True by done.
        by rewrite get_insert_ne.
    + unfold set_column. cbn [rows].
      apply Forall2_fmap_r, Forall_Forall2_diag, Forall_forall. intros ir _. simpl.
      split_and!; try done.
      * intros c H1 H2. by rewrite get_insert_ne.
      * intros _. rewrite get_insert, decide_True by done.
        split; [done|apply normalize_email_normal].
      * intros _. by rewrite get_insert_ne.
  - destruct (has_column df "timestamp") eqn:Ht.
    + unfold set_column. cbn [rows].
      apply Forall2_fmap_r, Forall_Forall2_diag, Forall_forall. intros ir _. simpl.
      split_and!; try done.
      * intros c H1 H2. by rewrite get_insert_ne.
      * intros _. by rewrite get_insert_ne.
      * intros _. by rewrite get_insert, decide_True.
    + apply Forall_Forall2_diag, Forall_forall. intros ir _. done.
Qed.

Lemma set_column_fixed c f df :
  has_column df c = true →
  (∀ ir, ir ∈ rows df → ir.2 !! c = Some (f ir.2)) →
  set_column c f df = df.
Proof.
  intros Hc Hf. destruct df as [cs rs]. unfold set_column, add_column. cbn [columns rows] in *.
  unfold has_column in Hc. cbn [columns] in Hc. rewrite Hc. f_equal.
  rewrite <- (list_fmap_id rs) at 2. apply list_fmap_ext.
  intros i [l r] Hir%list_elem_of_lookup_2. simpl. f_equal.
  apply insert_id. by apply (Hf (l, r)).
Qed.

Hypothesis to_datetime_timestamp : ∀ t, to_datetime (VTime t) = Some t.
Hypothesis to_datetime_null : to_datetime VNull = None.

Lemma time_cell_fixed c :
  time_cell (to_datetime (time_cell (to_datetime c))) = time_cell (to_datetime c).
Proof.
  destruct (to_datetime c) as [t|]; simpl.
  - by rewrite to_datetime_timestamp.
  - by rewrite to_datetime_null.
Qed.

(** X2.  Normalising a normalised table changes nothing, provided [to_datetime]
    reads a timestamp as itself and a null as a null. *)
Theorem normalize_common_idempotent (df : DataFrame) :
  normalize_common py_str to_datetime (normalize_common py_str to_datetime df)
  = normalize_common py_str to_datetime df.
Proof.
  set (n := normalize_common py_str to_datetime df).
  assert (∀ c, has_column n c = has_column df c) as Hcol.
  { intros c. apply has_column_normalize_common. }
  assert (has_column df "email" = true →
          ∀ ir, ir ∈ rows n → ∃ s, ir.2 !! "email" = Some (VStr s) ∧ normal_text s) as Hemail.
  { intros He ir Hir. subst n. unfold normalize_common in Hir. rewrite He in Hir.
    destruct (has_column _ "timestamp").
    - unfold set_column in Hir. cbn [rows] in Hir. rewrite map_map in Hir.
      apply list_elem_of_fmap in Hir as (jr & -> & _). simpl.
      rewrite lookup_insert_ne by done. rewrite lookup_insert_eq.
      eexists. split; [reflexivity|]. apply normal_text_lower_strip.
    - unfold set_column in Hir. cbn [rows] in Hir.
      apply list_elem_of_fmap in Hir as (jr & -> & _). simpl.
      rewrite lookup_insert_eq.
      eexists. split; [reflexivity|]. apply normal_text_lower_strip. }
  assert (has_column df "timestamp" = true →
          ∀ ir, ir ∈ rows n →
            ∃ c, ir.2 !! "timestamp" = Some (time_cell (to_datetime c))) as Htime.
  { intros Ht ir Hir. subst n. unfold normalize_common in Hir.
    assert (has_column (if has_column df "email"
              then set_column "email" (λ r, normalize_email py_str (get r "email")) df
              else df) "timestamp" = true) as Ht'.
    { destruct (has_column df "email"); [|done].
      unfold has_column, set_column. cbn [columns]. rewrite has_column_add.
      unfold has_column in Ht. by rewrite Ht. }
    rewrite Ht' in Hir. unfold set_column at 1 in Hir. cbn [rows] in Hir.
    apply list_elem_of_fmap in Hir as (jr & -> & _). simpl.
    rewrite lookup_insert_eq. eauto. }
  unfold normalize_common at 1. fold n.
  assert ((if has_column n "email"
           then set_column "email" (λ r, normalize_email py_str (get r "email")) n
           else n) = n) as ->.
  { rewrite Hcol. destruct (has_column df "email") eqn:He; [|done].
    apply set_column_fixed; [by rewrite Hcol|].
    intros ir Hir. destruct (Hemail eq_refl ir Hir) as (s & Hs & Hn).
    rewrite Hs. f_equal. unfold get. rewrite Hs. simpl.
    symmetry. apply normalize_email_fixed. by exists s. }
  rewrite Hcol. destruct (has_column df "timestamp") eqn:Ht; [|done].
  apply set_column_fixed; [by rewrite Hcol|].
  intros ir Hir. destruct (Htime eq_refl ir Hir) as (c & Hc).
  rewrite Hc. f_equal. unfold get. rewrite Hc. simpl.
  symmetry. apply time_cell_fixed.
Qed.
End Normalize.

Lemma normalize_common_idempotent_witness :
  normalize_common example_py_str example_to_datetime
    (normalize_common example_py_str example_to_datetime example_raw_weekly)
  = normalize_common example_py_str example_to_datetime example_raw_weekly.
Proof.
  apply (normalize_common_idempotent example_py_str example_to_datetime).
  - intros t. reflexivity.
  - reflexivity.
Defined.

(** ** An integer written out and read back *)

Lemma digit_of_pretty m :
  (m < 10)%N → Parse.digit_of (pretty_N_char m) = Some (Z.of_N m).
Proof.
  intros H.
  assert (m = 0 ∨ m = 1 ∨ m = 2 ∨ m = 3 ∨ m = 4 ∨ m = 5
          ∨ m = 6 ∨ m = 7 ∨ m = 8 ∨ m = 9)%N as Hm by lia.
  repeat (destruct Hm as [->|Hm]; [reflexivity|]). by subst.
Qed.

Lemma digits_pretty_go x s acc cnt :
  ∃ k, Parse.digits (pretty_N_go x s) acc cnt
       = Parse.digits s (acc * 10 ^ Z.of_nat k + Z.of_N x) (cnt + k)
     ∧ ((0 < x)%N → (0 < k)%nat).
Proof.
  revert s acc cnt. induction (N.lt_wf_0 x) as [x _ IH]. intros s acc cnt.
  assert (x = 0 ∨ 0 < x)%N as [->|Hx] by lia.
  - exists 0%nat. rewrite pretty_N_go_0. split; [|lia].
    f_equal; [|lia]. simpl. lia.
  - rewrite pretty_N_go_step by done.
    destruct (IH (x `div` 10)%N (N.div_lt x 10 Hx eq_refl)
                (String (pretty_N_char (x `mod` 10)) s) acc cnt) as (k & -> & _).
    exists (S k). split; [|lia].
    cbn [Parse.digits]. rewrite digit_of_pretty by (apply N.mod_lt; lia).
    f_equal; [|lia].
    rewrite Nat2Z.inj_succ, Z.pow_succ_r by lia.
    rewrite (N.div_mod x 10) at 3 by lia.
    rewrite N2Z.inj_add, N2Z.inj_mul. simpl (Z.of_N 10). lia.
Qed.

(** A character of a numeral: a digit or the minus sign. *)
Lemma digit_plain c :
  is_Some (Parse.digit_of c) ∨ c = "-"%char →
  Text.is_space c = false ∧ c ≠ "W"%char.
Proof.
  destruct c as [[] [] [] [] [] [] [] []]; vm_compute;
    (intros [[d H]|H]; [try discriminate H|try discriminate H]); split; congruence.
Qed.

Lemma digit_no_sign c :
  is_Some (Parse.digit_of c) → c ≠ "-"%char ∧ c ≠ "+"%char.
Proof.
  destruct c as [[] [] [] [] [] [] [] []]; vm_compute;
    (intros [d H]; try discriminate H); split; congruence.
Qed.

Lemma pretty_char_digit m : is_Some (Parse.digit_of (pretty_N_char m)).
Proof. unfold pretty_N_char. repeat case_match; vm_compute; eauto. Qed.

Lemma pretty_go_chars (P : ascii → Prop) x s :
  (∀ m, P (pretty_N_char m)) →
  Forall P (list_ascii_of_string s) → Forall P (list_ascii_of_string (pretty_N_go x s)).
Proof.
  intros HP. revert s. induction (N.lt_wf_0 x) as [x _ IH]. intros s Hs.
  assert (x = 0 ∨ 0 < x)%N as [->|Hx] by lia.
  - by rewrite pretty_N_go_0.
  - rewrite pretty_N_go_step by done. apply IH; [by apply N.div_lt|].
    simpl. constructor; [apply HP|done].
Qed.

Lemma no_space_rstrip s :
  Forall (λ c, Text.is_space c = false) (list_ascii_of_string s) → Text.rstrip s = s.
Proof.
  induction s as [|a s IH]; simpl; [done|]. intros [Ha Hs]%Forall_cons.
  rewrite rstrip_cons by done. by rewrite IH.
Qed.

Lemma no_space_strip s :
  Forall (λ c, Text.is_space c = false) (list_ascii_of_string s) → Text.strip s = s.
Proof.
  intros H. unfold Text.strip.
  assert (Text.lstrip s = s) as ->.
  { destruct s as [|a s]; [done|]. cbn [list_ascii_of_string] in H.
    apply Forall_cons in H as [Ha _]. simpl. by rewrite Ha. }
  by apply no_space_rstrip.
Qed.

Lemma no_W_remove s :
  Forall (λ c, c ≠ "W"%char) (list_ascii_of_string s) → Text.remove_all "Week" s = s.
Proof.
  unfold Text.remove_all.
  induction s as [|a s IH]; [done|]. cbn [list_ascii_of_string].
  intros [Ha Hs]%Forall_cons.
  cbn [Text.remove_from String.prefix].
  destruct (ascii_dec "W" a) as [<-|_]; [done|]. by rewrite IH.
Qed.

Lemma pow10_0 : Parse.pow10 0 = 1%Q.
Proof. reflexivity. Qed.

Lemma to_double_digits (neg : bool) s s1 x k :
  Text.lstrip s = s → Parse.sign s = (neg, s1) →
  Parse.digits s1 0 0%nat = (x, S k, "") →
  Parse.to_double s = Some (inject_Z (if neg then - x else x)).
Proof.
  intros Hl Hs Hd. unfold Parse.to_double. rewrite Hl, Hs, Hd. cbn.
  f_equal. destruct neg; (etrans; [|apply Qred_inject_Z]); apply Qred_complete;
    unfold Qeq; simpl; lia.
Qed.

Lemma digits_all x :
  (0 < x)%N →
  ∃ k, Parse.digits (pretty_N_go x "") 0 0%nat = (Z.of_N x, S k, "").
Proof.
  intros Hx. destruct (digits_pretty_go x "" 0 0%nat) as (k & Hk & Hpos).
  specialize (Hpos Hx). destruct k as [|k]; [lia|]. exists k.
  rewrite Hk. cbn [Parse.digits]. repeat f_equal; lia.
Qed.

Lemma pretty_go_head x :
  (0 < x)%N →
  ∃ c t, pretty_N_go x "" = String c t ∧ is_Some (Parse.digit_of c).
Proof.
  intros Hx.
  pose proof (pretty_go_chars (λ c, is_Some (Parse.digit_of c)) x ""
                pretty_char_digit (Forall_nil_2 _)) as Hall.
  destruct (digits_all x Hx) as (k & Hk).
  destruct (pretty_N_go x "") as [|c t]; [discriminate Hk|].
  apply Forall_cons in Hall as [Hc _]. eauto.
Qed.

Lemma to_numeric_pretty (z : Z) : Parse.to_numeric_str (pretty z) = Some (Fin (inject_Z z)).
Proof.
  unfold Parse.to_numeric_str.
  destruct z as [|p|p]; [reflexivity| |].
  - change (pretty (Z.pos p)) with (pretty_N_go (N.pos p) "").
    destruct (digits_all (N.pos p)) as (k & Hk); [lia|].
    destruct (pretty_go_head (N.pos p)) as (c & t & Hct & Hc); [lia|].
    rewrite (to_double_digits false _ (pretty_N_go (N.pos p) "") (Z.pos p) k); [done| | |done].
    + rewrite Hct. simpl.
      destruct (digit_plain c (or_introl Hc)) as [-> _]. done.
    + rewrite Hct. destruct (digit_no_sign c Hc) as [H1 H2].
      unfold Parse.sign.
      destruct c as [[] [] [] [] [] [] [] []]; try done.
  - change (pretty (Z.neg p)) with ("-" +:+ pretty_N_go (N.pos p) "").
    destruct (digits_all (N.pos p)) as (k & Hk); [lia|].
    rewrite (to_double_digits true _ (pretty_N_go (N.pos p) "") (Z.pos p) k); done.
Qed.

Lemma pretty_plain (z : Z) :
  Forall (λ c, Text.is_space c = false ∧ c ≠ "W"%char) (list_ascii_of_string (pretty z)).
Proof.
  assert (∀ x, Forall (λ c, Text.is_space c = false ∧ c ≠ "W"%char)
                 (list_ascii_of_string (pretty_N_go x ""))) as Hgo.
  { intros x. apply pretty_go_chars; [|constructor].
    intros m. apply digit_plain. left. apply pretty_char_digit. }
  destruct z as [|p|p].
  - repeat constructor; done.
  - apply Hgo.
  - change (pretty (Z.neg p)) with (String "-" (pretty_N_go (N.pos p) "")).
    simpl. constructor; [done|apply Hgo].
Qed.

(** The text of an integer is cast as that integer is. *)
Lemma parse_week_text_digits (z : Z) :
  parse_week_text (pretty z)
  = if (INT64_MIN <=? z) && (z <=? INT64_MAX) then Ok (Some z) else Err TypeError.
Proof.
  unfold parse_week_text.
  pose proof (pretty_plain z) as Hp.
  assert (Text.strip (pretty z) = pretty z) as Hs.
  { apply no_space_strip. eapply Forall_impl; [exact Hp|]. by intros c [? _]. }
  rewrite Hs, no_W_remove, Hs.
  2: { eapply Forall_impl; [exact Hp|]. by intros c [_ ?]. }
  rewrite to_numeric_pretty. unfold to_Int64, Num.is_integral.
  rewrite Qred_inject_Z. reflexivity.
Qed.

(** The text of an integer that 64 bits hold parses back to that integer. *)
Lemma parse_week_text_pretty (z : Z) :
  INT64_MIN ≤ z ≤ INT64_MAX → parse_week_text (pretty z) = Ok (Some z).
Proof.
  intros [H1 H2]. rewrite parse_week_text_digits.
  apply Z.leb_le in H1. apply Z.leb_le in H2. by rewrite H1, H2.
Qed.

(** What the cast returns is an integer that 64 bits hold. *)
Lemma to_Int64_range o z : to_Int64 o = Ok (Some z) → INT64_MIN ≤ z ≤ INT64_MAX.
Proof.
  destruct o as [[q|n]|]; cbn [to_Int64]; [|done..].
  destruct (Num.is_integral q); [|done].
  destruct (INT64_MIN <=? Qnum (Qred q)) eqn:H1; [|done].
  destruct (Qnum (Qred q) <=? INT64_MAX) eqn:H2; [|done].
  intros [= <-]. split; by apply Z.leb_le.
Qed.

Lemma parse_week_cell_range c z :
  parse_week_cell c = Ok (Some z) → INT64_MIN ≤ z ≤ INT64_MAX.
Proof.
  destruct c as [|s|x|f|t]; cbn [parse_week_cell]; [done| | | |done].
  - apply to_Int64_range.
  - apply to_Int64_range.
  - apply to_Int64_range.
Qed.

Lemma parse_week_cell_int w :
  (∀ z, w = Some z → INT64_MIN ≤ z ≤ INT64_MAX) →
  parse_week_cell (int_cell w) = Ok w.
Proof. destruct w as [z|]; simpl; [intros H; apply parse_week_text_pretty; auto|done]. Qed.

Lemma parse_week_cell_int_Ok w0 w : parse_week_cell (int_cell w0) = Ok w → w = w0.
Proof.
  destruct w0 as [z|]; simpl; [|by intros [= <-]].
  rewrite parse_week_text_digits. destruct (_ && _); [by intros [= <-]|done].
Qed.

(** A week parsed once parses to itself. *)
Lemma parse_week_cell_again c w :
  parse_week_cell c = Ok w → parse_week_cell (int_cell w) = Ok w.
Proof.
  intros Hc. apply parse_week_cell_int. intros z ->.
  by eapply parse_week_cell_range.
Qed.

(** X3.  When [parse_week_number] returns, the result has the labels of the
    input, holds integers and nulls only, and parsing it again returns it
    unchanged: the second parse, at line 114, of a column parsed at line 80
    is the identity. *)
Theorem parse_week_number_idempotent (s out : Series) :
  parse_week_number s = Ok out →
  map fst out = map fst s ∧
  Forall (λ iv, int_or_null iv.2 = true) out ∧
  parse_week_number out = Ok out.
Proof.
  intros H. apply rmapM_Ok_Forall2 in H.
  assert (Forall2 (λ iv iv', iv'.1 = iv.1 ∧
                     ∃ w, iv'.2 = int_cell w ∧ parse_week_cell (int_cell w) = Ok w)
                  s out) as HF.
  { eapply Forall2_impl; [exact H|]. simpl. intros iv iv' Hiv.
    apply rbind_Ok in Hiv as (w & Hp & Hw). inversion Hw; subst. simpl.
    split; [done|]. exists w. split; [done|]. by eapply parse_week_cell_again. }
  clear H. split_and!.
  - induction HF as [|iv iv' s out [H _] _ IH]; simpl; [done|]. by f_equal.
  - eapply Forall2_Forall_r; [exact HF|]. apply Forall_forall.
    intros iv _ iv' (_ & w & -> & _). by destruct w.
  - unfold parse_week_number. rewrite <- (list_fmap_id out) at 2.
    apply rmapM_total. eapply Forall2_Forall_r; [exact HF|]. apply Forall_forall.
    intros iv _ [l c] (_ & w & Hc & Hw). simpl in *. subst c.
    by rewrite Hw.
Qed.

Lemma parse_week_number_idempotent_witness :
  parse_week_number example_week_labels
  = Ok [(0, VInt 3); (1, VInt 3); (2, VInt 3); (3, VNull)] ∧
  parse_week_number [(0, VInt 3); (1, VInt 3); (2, VInt 3); (3, VNull)]
  = Ok [(0, VInt 3); (1, VInt 3); (2, VInt 3); (3, VNull)].
Proof.
  split; [reflexivity|].
  apply (parse_week_number_idempotent example_week_labels). reflexivity.
Defined.

(** ** [cast_numeric] *)

Lemma to_numeric_fixed c : to_numeric (to_numeric c) = to_numeric c.
Proof. destruct c as [|s| | |]; simpl; try done. by destruct (Parse.to_numeric_str s). Qed.

Lemma to_numeric_number c : is_Some (cell_num c) → to_numeric c = c.
Proof. destruct c; simpl; intros [x H]; by try discriminate H. Qed.

Lemma cast_numeric_cells (df : DataFrame) (cols : list string) :
  Forall2 (λ ir ir',
      ir'.1 = ir.1 ∧
      ∀ c, get ir'.2 c = if bool_decide (c ∈ cols ∧ c ∈ columns df)
                         then to_numeric (get ir.2 c) else get ir.2 c)
    (rows df) (rows (cast_numeric df cols)).
Proof.
  unfold cast_numeric. revert df.
  induction cols as [|c0 cols IH]; intros df; cbn [foldl].
  - apply Forall_Forall2_diag, Forall_forall. intros ir _. split; [done|].
    intros c. rewrite bool_decide_eq_false_2; [done|]. intros [H%elem_of_nil _]. done.
  - set (df1 := if has_column df c0 then _ else df).
    assert (columns df1 = columns df) as Hcols.
    { subst df1. destruct (has_column df c0) eqn:H; [|done].
      unfold set_column, add_column. cbn [columns]. unfold has_column in H. by rewrite H. }
    specialize (IH df1). rewrite Hcols in IH.
    assert (Forall2 (λ ir ir', ir'.1 = ir.1 ∧
              ∀ c, get ir'.2 c = if bool_decide (c = c0 ∧ c ∈ columns df)
                                 then to_numeric (get ir.2 c) else get ir.2 c)
              (rows df) (rows df1)) as H1.
    { subst df1. destruct (has_column df c0) eqn:H.
      - unfold set_column. cbn [rows].
        apply Forall2_fmap_r, Forall_Forall2_diag, Forall_forall. intros ir _.
        split; [done|]. intros c. simpl. rewrite get_insert.
        apply bool_decide_eq_true in H.
        case_decide as Hc.
        + subst c. by rewrite bool_decide_eq_true_2.
        + rewrite bool_decide_eq_false_2; [done|]. intros [-> _]. done.
      - apply Forall_Forall2_diag, Forall_forall. intros ir _. split; [done|].
        intros c. rewrite bool_decide_eq_false_2; [done|].
        intros [-> Hin]. apply bool_decide_eq_false in H. done. }
    eapply Forall2_trans; [|exact H1|exact IH].
    simpl. intros x y z [Hl1 Hxy] [Hl2 Hyz]. split; [congruence|].
    intros c. rewrite Hyz, Hxy.
    destruct (decide (c ∈ columns df)) as [Hin|Hout].
    + destruct (decide (c = c0)) as [->|Hne].
      * rewrite (bool_decide_eq_true_2 (c0 = c0 ∧ _)) by done.
        rewrite (bool_decide_eq_true_2 (c0 ∈ c0 :: cols ∧ _)) by (split; [left|done]).
        case_bool_decide; [apply to_numeric_fixed|done].
      * rewrite (bool_decide_eq_false_2 (c = c0 ∧ _)) by (by intros [? _]).
        rewrite (bool_decide_ext (c ∈ c0 :: cols ∧ c ∈ columns df)
                   (c ∈ cols ∧ c ∈ columns df)); [done|].
        rewrite elem_of_cons. split; [intros [[?|?] ?]; done|].
        intros [? ?]. split; [by right|done].
    + rewrite !bool_decide_eq_false_2; [done|by intros [_ ?]..].
Qed.

(** X4.  [cast_numeric] keeps the column names and the row labels; in a listed
    column that is there every cell becomes what [pd.to_numeric] reads
    from it, a number or a null, and a number stays as it is; every other
    cell is left alone. *)
Theorem cast_numeric_frame (df : DataFrame) (cols : list string) :
  columns (cast_numeric df cols) = columns df ∧
  map fst (rows (cast_numeric df cols)) = map fst (rows df) ∧
  (∀ ir', ir' ∈ rows (cast_numeric df cols) →
     ∃ ir, ir ∈ rows df ∧ ir'.1 = ir.1 ∧
       ∀ c, (c ∈ cols → c ∈ columns df →
               get ir'.2 c = to_numeric (get ir.2 c)
               ∧ numeric_or_null (get ir'.2 c) = true
               ∧ (is_Some (cell_num (get ir.2 c)) → get ir'.2 c = get ir.2 c)) ∧
            (c ∉ cols ∨ c ∉ columns df → get ir'.2 c = get ir.2 c)).
Proof.
  pose proof (cast_numeric_cells df cols) as HF.
  split; [apply columns_cast_numeric|]. split.
  - symmetry. induction HF as [|x y l l' [H _] _ IH]; simpl; [done|]. by f_equal.
  - intros ir' Hir'. apply list_elem_of_lookup in Hir' as [i Hi].
    destruct (Forall2_lookup_r _ _ _ _ _ HF Hi) as (ir & Hir & Hl & Hc).
    exists ir. split; [by eapply list_elem_of_lookup_2|]. split; [done|].
    intros c. rewrite Hc. split.
    + intros H1 H2. rewrite bool_decide_eq_true_2 by done.
      split; [done|]. split; [apply to_numeric_numeric|apply to_numeric_number].
    + intros H. rewrite bool_decide_eq_false_2; [done|]. intros [? ?]. by destruct H.
Qed.

Lemma cast_numeric_settled (d : DataFrame) (cols : list string) :
  (∀ c, c ∈ cols → has_column d c = true →
        ∀ ir, ir ∈ rows d → ∃ v, ir.2 !! c = Some v ∧ to_numeric v = v) →
  cast_numeric d cols = d.
Proof.
  unfold cast_numeric. induction cols as [|c0 cols IH]; intros H; simpl; [done|].
  assert ((if has_column d c0
           then set_column c0 (λ r, to_numeric (get r c0)) d else d) = d) as ->.
  { destruct (has_column d c0) eqn:Hc; [|done].
    apply set_column_fixed; [done|]. intros ir Hir.
    destruct (H c0 (list_elem_of_here _ _) Hc ir Hir) as (v & Hv & Hfix).
    unfold get. rewrite Hv. simpl. by rewrite Hfix. }
  apply IH. intros c Hc. apply H. by right.
Qed.

Lemma cast_numeric_settles (df : DataFrame) (cols : list string) c :
  c ∈ cols → has_column df c = true →
  ∀ ir, ir ∈ rows (cast_numeric df cols) → ∃ v, ir.2 !! c = Some v ∧ to_numeric v = v.
Proof.
  unfold cast_numeric. revert df.
  assert (∀ cols df,
    (∀ ir, ir ∈ rows df → ∃ v, ir.2 !! c = Some v ∧ to_numeric v = v) →
    ∀ ir, ir ∈ rows (foldl (λ d c0, if has_column d c0
                              then set_column c0 (λ r, to_numeric (get r c0)) d
                              else d) df cols) →
          ∃ v, ir.2 !! c = Some v ∧ to_numeric v = v) as Hkeep.
  { clear. induction cols as [|c0 cols IH]; intros df H; simpl; [done|].
    apply IH. destruct (has_column df c0); [|done].
    unfold set_column. cbn [rows]. intros ir (jr & -> & Hjr)%list_elem_of_fmap. simpl.
    destruct (decide (c0 = c)) as [->|Hne].
    - rewrite lookup_insert_eq. eexists. split; [done|]. apply to_numeric_fixed.
    - rewrite lookup_insert_ne by done. by apply H. }
  induction cols as [|c0 cols IH]; intros df Hc Hhas; [by apply elem_of_nil in Hc|].
  simpl. destruct (decide (c0 = c)) as [->|Hne].
  - rewrite Hhas. apply Hkeep. unfold set_column. cbn [rows].
    intros ir (jr & -> & Hjr)%list_elem_of_fmap. simpl.
    rewrite lookup_insert_eq. eexists. split; [done|]. apply to_numeric_fixed.
  - apply IH.
    + apply elem_of_cons in Hc as [?|?]; [congruence|done].
    + destruct (has_column df c0) eqn:H0; [|done].
      unfold has_column, set_column. cbn [columns]. rewrite has_column_add.
      unfold has_column in Hhas. by rewrite Hhas.
Qed.

(** X5.  Casting a table that was cast changes nothing. *)
Theorem cast_numeric_idempotent (df : DataFrame) (cols : list string) :
  cast_numeric (cast_numeric df cols) cols = cast_numeric df cols.
Proof.
  apply cast_numeric_settled. intros c Hc Hhas.
  rewrite has_column_cast_numeric in Hhas. by apply cast_numeric_settles.
Qed.

(** ** [validate_intake] and [validate_weekly] *)

Lemma string_leb_antisym : AntiSymm eq (λ a b : string, String.leb a b = true).
Proof. intros a b. apply String.leb_antisym. Qed.

Lemma missing_columns_sorted (required : gset string) (names : list string) df :
  StronglySorted (λ a b, String.leb a b = true) names → NoDup names →
  (∀ c, c ∈ names ↔ c ∈ required) →
  missing_columns required df = filter (λ c, has_column df c = false) names.
Proof.
  intros Hsorted Hnd Hnames. unfold missing_columns.
  pose proof string_leb_antisym as Hanti.
  apply (StronglySorted_unique (λ a b : string, String.leb a b = true)).
  - apply stable_sort_sorted; [apply String.leb_total|apply string_leb_trans].
  - eapply StronglySorted_sublist; [apply sublist_filter|done].
  - apply NoDup_Permutation.
    + rewrite stable_sort_perm. apply NoDup_elements.
    + by apply NoDup_filter.
    + intros c. rewrite stable_sort_perm, elem_of_elements, elem_of_difference.
      rewrite elem_of_list_to_set, list_elem_of_filter, <- Hnames.
      unfold has_column. rewrite bool_decide_eq_false. tauto.
Qed.

Lemma validate_intake_filter df :
  validate_intake df = filter (λ c, has_column df c = false) intake_required_sorted.
Proof.
  apply missing_columns_sorted.
  - unfold intake_required_sorted.
    repeat (apply SSorted_cons; [|repeat (apply Forall_cons; split; [reflexivity|]);
                                   apply Forall_nil_2]).
    apply SSorted_nil.
  - apply (bool_decide_unpack _). vm_compute. exact I.
  - intros c. unfold REQUIRED_INTAKE, intake_required_sorted.
    rewrite elem_of_list_to_set, !elem_of_cons, !elem_of_nil. tauto.
Qed.

Lemma validate_weekly_filter df :
  validate_weekly df = filter (λ c, has_column df c = false) weekly_required_sorted.
Proof.
  apply missing_columns_sorted.
  - unfold weekly_required_sorted.
    repeat (apply SSorted_cons; [|repeat (apply Forall_cons; split; [reflexivity|]);
                                   apply Forall_nil_2]).
    apply SSorted_nil.
  - apply (bool_decide_unpack _). vm_compute. exact I.
  - intros c. unfold REQUIRED_WEEKLY_MIN, weekly_required_sorted.
    rewrite elem_of_list_to_set, !elem_of_cons, !elem_of_nil. tauto.
Qed.

Lemma validate_intake_nil df :
  validate_intake df = [] ↔
  has_columns df ["timestamp"; "email"; "bodyweight_lbs_baseline"; "rhr_bpm_baseline";
                  "sleep_quality_baseline"; "energy_baseline"] = true.
Proof.
  rewrite validate_intake_filter. unfold intake_required_sorted.
  rewrite !has_columns_cons. unfold has_columns. cbn [forallb].
  rewrite !filter_cons, filter_nil.
  destruct (has_column df "timestamp"), (has_column df "email"),
    (has_column df "bodyweight_lbs_baseline"), (has_column df "rhr_bpm_baseline"),
    (has_column df "sleep_quality_baseline"), (has_column df "energy_baseline");
    simpl; split; intros H; try done; discriminate H.
Qed.

Lemma validate_weekly_nil df :
  validate_weekly df = [] ↔ has_columns df ["timestamp"; "email"; "week_number"] = true.
Proof.
  rewrite validate_weekly_filter. unfold weekly_required_sorted.
  rewrite !has_columns_cons. unfold has_columns. cbn [forallb].
  rewrite !filter_cons, filter_nil.
  destruct (has_column df "timestamp"), (has_column df "email"),
    (has_column df "week_number");
    simpl; split; intros H; try done; discriminate H.
Qed.

(** X6.  The validators list, in alphabetical order and without repetition,
    exactly the required columns that the table lacks; the list is empty
    exactly when every required column is there. *)
Theorem validators_list_missing (df : DataFrame) :
  validate_intake df = filter (λ c, has_column df c = false) intake_required_sorted ∧
  validate_weekly df = filter (λ c, has_column df c = false) weekly_required_sorted ∧
  NoDup (validate_intake df) ∧ NoDup (validate_weekly df) ∧
  (validate_intake df = [] ↔
     has_columns df ["timestamp"; "email"; "bodyweight_lbs_baseline"; "rhr_bpm_baseline";
                     "sleep_quality_baseline"; "energy_baseline"] = true) ∧
  (validate_weekly df = [] ↔ has_columns df ["timestamp"; "email"; "week_number"] = true).
Proof.
  split; [apply validate_intake_filter|].
  split; [apply validate_weekly_filter|].
  split.
  { rewrite validate_intake_filter. apply NoDup_filter.
    apply (bool_decide_unpack _). vm_compute. exact I. }
  split.
  { rewrite validate_weekly_filter. apply NoDup_filter.
    apply (bool_decide_unpack _). vm_compute. exact I. }
  split; [apply validate_intake_nil|apply validate_weekly_nil].
Qed.

(** ** [member_latest_snapshot] *)

Lemma tail1_snoc {A} (l : list A) x : tail1 (l ++ [x]) = [x].
Proof.
  unfold tail1. rewrite length_app. simpl.
  replace (length l + 1 - 1)%nat with (length l) by lia.
  by rewrite drop_app_length.
Qed.

Lemma last_split {A} (l : list A) : l ≠ [] → ∃ l' x, l = l' ++ [x].
Proof. induction l as [|x l _] using rev_ind; [done|eauto]. Qed.

Lemma is_empty_false df : rows df ≠ [] → columns df ≠ [] → is_empty df = false.
Proof. unfold is_empty. by destruct (rows df), (columns df). Qed.

Lemma member_rows_filter merged m :
  member_rows merged m
  = filter (λ ir, notna (get ir.2 "week_number") = true)
      (filter (λ ir, get ir.2 "email" = VStr m) (rows merged)).
Proof.
  unfold member_rows. rewrite list_filter_filter. apply list_filter_iff.
  intros ir. unfold email_of, week_of. rewrite notna_true. tauto.
Qed.

(** X7.  The snapshot of a member.  It is the empty table when the merged table
    is empty or has no identity column, and when the member has no row with
    a week number; without the week-number column line 246 raises.
    Otherwise (week numbers of one kind) it is, whatever the sorting
    function, one row of the member, a row with a week number, and no row
    of the member has a greater week number. *)
Theorem member_latest_snapshot_spec (sort : sorter) (merged : DataFrame)
    (member_email : string) :
  sorts sort →
  (is_empty merged = true ∨ has_column merged "email" = false →
   member_latest_snapshot sort merged member_email = Ok empty_frame) ∧
  (is_empty merged = false → has_column merged "email" = true →
   has_column merged "week_number" = false →
   member_latest_snapshot sort merged member_email = Err (KeyError "week_number")) ∧
  (is_empty merged = false → has_column merged "email" = true →
   has_column merged "week_number" = true → one_kind merged "week_number" →
   ∃ snap,
     member_latest_snapshot sort merged member_email = Ok snap ∧
     (member_rows merged member_email = [] → snap = empty_frame) ∧
     (member_rows merged member_email ≠ [] →
      columns snap = columns merged ∧
      ∃ ir,
        rows snap = [ir] ∧
        ir ∈ member_rows merged member_email ∧
        ∀ jr, jr ∈ member_rows merged member_email →
          cell_leb (week_of jr) (week_of ir) = true)).
Proof.
  intros Hsort. split_and!.
  - intros H. unfold member_latest_snapshot.
    destruct H as [-> | ->]; [done|]. by rewrite orb_true_r.
  - intros He Hc Hw. unfold member_latest_snapshot.
    rewrite He, Hc. cbn [negb orb]. unfold has_column, with_rows. cbn [columns].
    unfold has_column in Hw. by rewrite Hw.
  - intros He Hc Hw Hk. unfold member_latest_snapshot.
    rewrite He, Hc. cbn [negb orb].
    set (mine := filter (λ ir, get ir.2 "email" = VStr member_email) (rows merged)).
    assert (has_column (with_rows merged mine) "week_number" = true) as Hw1 by done.
    rewrite Hw1. cbn [negb].
    unfold sort_values.
    assert (has_column (dropna "week_number" (with_rows merged mine)) "week_number" = true)
      as Hw2 by done.
    rewrite Hw2. cbn [negb].
    assert (rows (dropna "week_number" (with_rows merged mine))
            = member_rows merged member_email) as Hrows.
    { by rewrite member_rows_filter. }
    assert (sortable (column_values (dropna "week_number" (with_rows merged mine))
                        "week_number") = true) as ->.
    { eapply sortable_subseteq; [|exact Hk].
      unfold dropna. rewrite column_values_with_rows. cbn [rows with_rows].
      intros c (ir & -> & Hir)%list_elem_of_fmap.
      apply list_elem_of_fmap. exists ir. split; [done|].
      apply list_elem_of_filter in Hir as [_ Hir].
      by apply list_elem_of_filter in Hir as [_ Hir]. }
    cbn [rbind]. rewrite Hrows.
    change (λ a b : Z * gmap string cell,
              cell_leb (get a.2 "week_number") (get b.2 "week_number")) with by_week.
    set (L := member_rows merged member_email).
    destruct (Hsort by_week by_week_total by_week_trans L) as [Hperm Hsorted].
    destruct (decide (L = [])) as [HL|HL].
    + rewrite HL in Hperm |- *. apply Permutation_nil_r in Hperm. rewrite Hperm.
      cbn. eexists. split; [reflexivity|]. split; [done|]. done.
    + assert (sort by_week L ≠ []) as Ht.
      { intros Heq. rewrite Heq in Hperm. symmetry in Hperm.
        by apply Permutation_nil_r in Hperm. }
      destruct (last_split _ Ht) as (t' & ir & Heq). rewrite Heq in Hperm, Hsorted.
      rewrite Heq.
      assert (columns merged ≠ []) as Hcols.
      { intros Hnil. apply bool_decide_eq_true in Hc. rewrite Hnil in Hc.
        by apply elem_of_nil in Hc. }
      rewrite is_empty_false; [|cbn [rows with_rows]; by intros [_ ?]%app_eq_nil|done].
      cbn [rows with_rows]. rewrite tail1_snoc.
      eexists. split; [reflexivity|]. split; [done|]. intros _. cbn [columns rows].
      split; [done|]. exists ir. split; [done|]. split.
      { rewrite <- Hperm. apply elem_of_app. right. left. }
      intros jr Hj. rewrite <- Hperm in Hj.
      apply StronglySorted_app in Hsorted as (Hlt & _ & _).
      apply elem_of_app in Hj as [Hj|Hj%list_elem_of_singleton].
      * apply (Hlt jr ir Hj). left.
      * subst jr. apply cell_leb_refl.
Qed.

Lemma member_latest_snapshot_spec_witness :
  is_empty example_merged = false ∧
  member_rows example_merged "a" ≠ [] ∧
  ∃ snap,
    member_latest_snapshot stable_rows example_merged "a" = Ok snap ∧
    map fst (rows snap) = [2] ∧ map week_of (rows snap) = [VInt 2] ∧
    ∃ ir, rows snap = [ir] ∧ ir ∈ member_rows example_merged "a".
Proof.
  split; [reflexivity|]. split; [discriminate|].
  destruct (proj2 (proj2 (member_latest_snapshot_spec stable_rows example_merged "a"
                            stable_rows_sorts)))
    as (snap & Hs & _ & Hrows).
  - reflexivity.
  - reflexivity.
  - reflexivity.
  - reflexivity.
  - exists snap. split; [exact Hs|].
    destruct Hrows as (_ & ir & Hir & Hin & _); [discriminate|].
    vm_compute in Hs. injection Hs as <-.
    split; [reflexivity|]. split; [reflexivity|]. by exists ir.
Defined.

(** ** [cohort_weekly_summary] on a table that has every column *)

Lemma sublist_reverse {A} (l1 l2 : list A) :
  l1 `sublist_of` l2 → reverse l1 `sublist_of` reverse l2.
Proof.
  induction 1 as [|x l1 l2 _ IH|x l1 l2 _ IH].
  - done.
  - rewrite !reverse_cons. by apply sublist_app.
  - rewrite reverse_cons. by apply sublist_inserts_r.
Qed.

Lemma drop_duplicates_first_spec {A K} `{EqDecision K} (k : A → K) (l : list A) :
  NoDup (map k (drop_duplicates_first k l)) ∧
  drop_duplicates_first k l `sublist_of` l ∧
  (∀ x, x ∈ l → ∃ y, y ∈ drop_duplicates_first k l ∧ k y = k x).
Proof.
  unfold drop_duplicates_first. split_and!.
  - change (map k ?x) with (k <$> x). rewrite fmap_reverse, reverse_Permutation.
    apply drop_duplicates_last_NoDup.
  - rewrite <- (reverse_involutive l) at 2. apply sublist_reverse.
    apply drop_duplicates_last_sublist.
  - intros x Hx.
    destruct (drop_duplicates_last_keys k (reverse l) x) as (y & Hy & Hk).
    { by apply elem_of_reverse. }
    exists y. split; [by apply elem_of_reverse|done].
Qed.

Lemma mean_numeric vals :
  Forall (λ c, numeric_or_null c = true) vals → is_Ok (mean vals).
Proof.
  intros H. unfold mean.
  assert (forallb (λ c, isna c || bool_decide (is_Some (cell_num c))) vals = true) as ->.
  { apply forallb_forall. intros c Hc%list_elem_of_In.
    rewrite Forall_forall in H. specialize (H c Hc).
    destruct c; simpl in *; try done; apply bool_decide_eq_true; eauto. }
  destruct (omap cell_num vals); eexists; reflexivity.
Qed.

(** The row of one week, given that every mean can be taken. *)
Lemma summary_row_Ok (d : DataFrame) (w : cell) :
  (∀ c, c ∈ map snd summary_means → numeric_column d c) →
  ∃ r, summary_row d w = Ok r ∧
    get r "week_number" = w ∧
    get r "n_participants"
    = VInt (Z.of_nat (nunique (map email_of
                (filter (λ ir, cell_key (week_of ir) = cell_key w) (rows d))))) ∧
    ∀ nc, nc ∈ summary_means →
      mean (map (λ ir, get ir.2 nc.2)
              (filter (λ ir, cell_key (week_of ir) = cell_key w) (rows d)))
      = Ok (get r nc.1).
Proof.
  intros Hnum. unfold summary_row.
  set (group := filter (λ ir, cell_key (get ir.2 "week_number") = cell_key w) (rows d)).
  set (f := λ nc : string * string,
         m ←r mean (map (λ ir : Z * gmap string cell, get ir.2 nc.2) group); Ok (nc.1, m)).
  set (g := λ nc : string * string,
         (nc.1, match mean (map (λ ir : Z * gmap string cell, get ir.2 nc.2) group) with
                | Ok m => m | Err _ => VNull end)).
  assert (∀ nc, nc ∈ summary_means →
            mean (map (λ ir : Z * gmap string cell, get ir.2 nc.2) group) = Ok (g nc).2) as Hg.
  { intros nc Hnc. destruct (mean_numeric (map (λ ir, get ir.2 nc.2) group)) as [m Hm].
    - apply Forall_fmap, Forall_forall. intros ir [_ Hir]%list_elem_of_filter.
      assert (numeric_column d nc.2) as Hc.
      { apply Hnum. apply list_elem_of_fmap. eauto. }
      unfold numeric_column in Hc. rewrite forallb_forall in Hc.
      apply Hc, list_elem_of_In, list_elem_of_fmap. eauto.
    - subst g. simpl. by rewrite Hm. }
  assert (rmapM f summary_means = Ok (map g summary_means)) as ->.
  { apply rmapM_total, Forall_forall. intros nc Hnc. subst f. simpl.
    rewrite (Hg nc Hnc). done. }
  cbn [rbind]. eexists. split; [reflexivity|].
  change (filter (λ ir : Z * gmap string cell, cell_key (week_of ir) = cell_key w) (rows d))
    with group.
  split_and!.
  - unfold get. by rewrite list_to_map_cons, lookup_insert_eq.
  - unfold get. rewrite !list_to_map_cons, lookup_insert_ne by done.
    by rewrite lookup_insert_eq.
  - intros nc Hnc. rewrite (Hg nc Hnc). f_equal.
    assert (nc.1 ≠ "week_number" ∧ nc.1 ≠ "n_participants") as [H1 H2].
    { revert nc Hnc. apply Forall_forall. repeat constructor; done. }
    unfold get. rewrite !list_to_map_cons, !lookup_insert_ne by done.
    erewrite elem_of_list_to_map_1; [done| |].
    + change (map g summary_means) with (g <$> summary_means).
      rewrite <- list_fmap_compose.
      apply (bool_decide_unpack _). vm_compute. exact I.
    + apply list_elem_of_fmap. exists nc. by destruct nc.
Qed.

Lemma week_group_dropna merged w :
  w ≠ VNull →
  filter (λ ir, cell_key (week_of ir) = cell_key w) (rows (dropna "week_number" merged))
  = week_group merged w.
Proof.
  intros Hw. unfold week_group, dropna. cbn [rows with_rows].
  rewrite list_filter_filter. apply list_filter_iff. intros ir.
  split; [by intros [? _]|]. intros H. split; [done|].
  apply notna_true. intros Hn. unfold week_of in H. rewrite Hn in H.
  symmetry in H. by apply cell_key_null in H.
Qed.

(** X8.  On a table that is not empty and has the week-number column, the
    identity column and the six aggregated columns (week numbers of one
    kind, the six columns numeric) the summary is computed: its columns are
    the eight summary columns, its rows are labelled 0, 1, ..., there is
    one row per week number of the table, nulls left out, in ascending
    order, so that the number of rows is the "weeks tracked" figure of the
    dashboard; the row of a week holds the number of distinct identities
    and the means of the six columns over the rows of that week. *)
Theorem cohort_summary_rows (merged : DataFrame) :
  is_empty merged = false →
  has_columns merged ("week_number" :: "email" :: map snd summary_means) = true →
  one_kind merged "week_number" →
  (∀ c, c ∈ map snd summary_means → numeric_column merged c) →
  ∃ out,
    cohort_weekly_summary merged = Ok out ∧
    columns out = summary_columns ∧
    map fst (rows out) = map Z.of_nat (seq 0 (length (rows out))) ∧
    StronglySorted (λ a b, cell_leb a b = true) (map week_of (rows out)) ∧
    NoDup (map cell_key (map week_of (rows out))) ∧
    (∀ k, k ∈ map cell_key (map week_of (rows out)) ↔ k ∈ week_keys merged) ∧
    length (rows out) = weeks_tracked merged ∧
    ∀ ir, ir ∈ rows out →
      week_of ir ≠ VNull ∧
      get ir.2 "n_participants"
      = VInt (Z.of_nat (nunique (map email_of (week_group merged (week_of ir))))) ∧
      ∀ nc, nc ∈ summary_means →
        mean (map (λ jr, get jr.2 nc.2) (week_group merged (week_of ir)))
        = Ok (get ir.2 nc.1).
Proof.
  intros He Hcols Hkind Hnum.
  rewrite has_columns_cons in Hcols. apply andb_true_iff in Hcols as [Hw Hcols].
  unfold cohort_weekly_summary. rewrite He, Hw. cbn [negb orb].
  set (d := dropna "week_number" merged).
  assert (filter (λ c, negb (has_column d c)) ("email" :: map snd summary_means) = []) as ->.
  { apply filter_none. intros c Hc. unfold has_columns in Hcols.
    rewrite forallb_forall in Hcols. apply list_elem_of_In, Hcols in Hc.
    change (has_column d c) with (has_column merged c). rewrite Hc. simpl. tauto. }
  set (weeks := column_values d "week_number").
  assert (weeks ⊆ column_values merged "week_number") as Hsub.
  { apply column_values_subseteq, filter_rows_subseteq. }
  assert (sortable weeks = true) as -> by (by eapply sortable_subseteq).
  set (groups := drop_duplicates_first cell_key (stable_sort cell_leb weeks)).
  destruct (drop_duplicates_first_spec cell_key (stable_sort cell_leb weeks))
    as (Hnd & Hsl & Hcov). fold groups in Hnd, Hsl, Hcov.
  assert (∀ w, w ∈ groups → w ∈ weeks) as Hin.
  { intros w Hw'. rewrite <- (stable_sort_perm cell_leb weeks).
    by eapply sublist_subseteq. }
  assert (∀ w, w ∈ weeks → w ≠ VNull) as Hnn.
  { intros w (ir & -> & Hir)%list_elem_of_fmap.
    apply list_elem_of_filter in Hir as [Hir _]. by apply notna_true. }
  assert (∀ c, c ∈ map snd summary_means → numeric_column d c) as Hnumd.
  { intros c Hc. specialize (Hnum c Hc). unfold numeric_column in *.
    rewrite forallb_forall in *. intros x Hx%list_elem_of_In. apply Hnum, list_elem_of_In.
    revert Hx. apply column_values_subseteq, filter_rows_subseteq. }
  set (row := λ w, match summary_row d w with Ok r => r | Err _ => ∅ end).
  assert (rmapM (summary_row d) groups = Ok (map row groups)) as ->.
  { apply rmapM_total, Forall_forall. intros w _.
    destruct (summary_row_Ok d w Hnumd) as (r & Hr & _). subst row. simpl. by rewrite Hr. }
  cbn [rbind]. eexists. split; [reflexivity|]. cbn [columns rows].
  assert (map week_of (imap (λ i r, (Z.of_nat i, r)) (map row groups)) = groups) as Hweeks.
  { change (map ?f ?x) with (f <$> x). rewrite fmap_imap, imap_fmap.
    rewrite (imap_ext _ (λ _, id)); [by rewrite (imap_const id), list_fmap_id|].
    intros i w Hi. simpl. unfold week_of. simpl.
    destruct (summary_row_Ok d w Hnumd) as (r & Hr & Hrw & _).
    subst row. simpl. by rewrite Hr. }
  rewrite Hweeks.
  assert (∀ k, k ∈ map cell_key groups ↔ k ∈ week_keys merged) as Hkeys.
  { intros k. unfold week_keys. rewrite elem_of_list_to_set. split.
    - intros (w & -> & Hw')%list_elem_of_fmap. apply list_elem_of_fmap. exists w.
      split; [done|]. apply list_elem_of_filter. split.
      + apply notna_true, Hnn, Hin, Hw'.
      + apply Hsub, Hin, Hw'.
    - intros (w & -> & Hw')%list_elem_of_fmap.
      apply list_elem_of_filter in Hw' as [Hna Hw'].
      destruct (Hcov w) as (y & Hy & Hk).
      + rewrite stable_sort_perm.
        apply list_elem_of_fmap in Hw' as (ir & -> & Hir).
        apply list_elem_of_fmap. exists ir. split; [done|].
        apply list_elem_of_filter. split; [done|done].
      + rewrite <- Hk. apply list_elem_of_fmap. eauto. }
  split_and!.
  - done.
  - change (map ?f ?x) with (f <$> x). rewrite fmap_imap.
    rewrite length_imap. rewrite (imap_ext _ (λ i _, Z.of_nat i)) by done.
    generalize (row <$> groups). intros l. rewrite imap_seq_0. done.
  - eapply StronglySorted_sublist; [exact Hsl|].
    apply stable_sort_sorted; [apply cell_leb_total|apply cell_leb_trans].
  - done.
  - done.
  - rewrite length_imap, length_map. unfold weeks_tracked. rewrite Hw.
    unfold nunique. fold (week_keys merged).
    trans (size (list_to_set (map cell_key groups) : gset key)).
    { rewrite size_list_to_set by done. by rewrite length_map. }
    f_equal. apply set_eq. intros k. rewrite elem_of_list_to_set. apply Hkeys.
  - intros ir (i & w & -> & Hi)%elem_of_lookup_imap.
    apply list_lookup_fmap_Some in Hi as (w0 & -> & Hw0%list_elem_of_lookup_2).
    destruct (summary_row_Ok d w0 Hnumd) as (r & Hr & Hrw & Hrn & Hrm).
    assert (row w0 = r) as -> by (subst row; simpl; by rewrite Hr).
    assert (week_of (Z.of_nat i, r) = w0) as -> by exact Hrw.
    assert (w0 ≠ VNull) as Hw0n by (apply Hnn, Hin, Hw0).
    rewrite <- (week_group_dropna merged w0 Hw0n).
    split; [done|]. split; [exact Hrn|exact Hrm].
Qed.

(** ** The differences that [prep_data] adds *)






Section Deltas.
Variable py_str : cell → string.
Variable to_datetime : cell → option Z.

End Deltas.


(** ** The two tables of the deduplicator *)

Lemma duplicated_perm {A K} `{EqDecision K} (k : A → K) (l l' : list A) x :
  l ≡ₚ l' → duplicated k l x = duplicated k l' x.
Proof.
  intros Hp. unfold duplicated. apply bool_decide_ext.
  assert (length (filter (λ y, k y = k x) l) = length (filter (λ y, k y = k x) l')) as ->;
    [|done].
  apply Permutation_length. by apply filter_Permutation.
Qed.

Lemma no_duplicated_NoDup {A K} `{EqDecision K} (k : A → K) (l : list A) :
  (∀ x, x ∈ l → duplicated k l x = false) → NoDup (map k l).
Proof.
  induction l as [|x l IH]; intros H; simpl; [constructor|].
  constructor.
  - intros (y & Hk & Hy)%list_elem_of_fmap.
    specialize (H x (list_elem_of_here _ _)).
    unfold duplicated in H. apply bool_decide_eq_false in H. apply H.
    rewrite filter_cons_True by done. simpl.
    apply list_elem_of_split in Hy as (l1 & l2 & ->).
    rewrite filter_app, filter_cons_True by done.
    rewrite length_app. simpl. lia.
  - apply IH. intros y Hy.
    specialize (H y (list_elem_of_further _ _ _ Hy)).
    unfold duplicated in *. apply bool_decide_eq_false in H. apply bool_decide_eq_false.
    intros H2. apply H. rewrite filter_cons. destruct (decide _); simpl; lia.
Qed.

Lemma stable_sort_by_rows (leb : gmap string cell → gmap string cell → bool)
    (l : list (Z * gmap string cell)) :
  (∀ a b, leb a b = true ∨ leb b a = true) →
  (∀ a b c, leb a b = true → leb b c = true → leb a c = true) →
  StronglySorted (λ a b : Z * gmap string cell, leb a.2 b.2 = true)
    (stable_sort (λ a b, leb a.2 b.2) l).
Proof.
  intros Ht Htr.
  apply (stable_sort_sorted (λ a b : Z * gmap string cell, leb a.2 b.2)).
  - intros a b. apply Ht.
  - intros a b c. apply Htr.
Qed.

Lemma lex_leb_total cs a b : lex_leb cs a b = true ∨ lex_leb cs b a = true.
Proof.
  induction cs as [|c cs IH]; simpl; [by left|].
  destruct (cell_leb (get a c) (get b c)) eqn:H1,
           (cell_leb (get b c) (get a c)) eqn:H2; auto.
  destruct (cell_leb_total (get a c) (get b c)); congruence.
Qed.

Lemma lex_leb_trans cs a b c :
  lex_leb cs a b = true → lex_leb cs b c = true → lex_leb cs a c = true.
Proof.
  induction cs as [|x cs IH]; simpl; [done|].
  destruct (cell_leb (get a x) (get b x)) eqn:Hab; [|done].
  destruct (cell_leb (get b x) (get c x)) eqn:Hbc; [|by destruct (cell_leb (get b x) (get a x))].
  rewrite (cell_leb_trans _ _ _ Hab Hbc).
  destruct (cell_leb (get b x) (get a x)) eqn:Hba,
           (cell_leb (get c x) (get b x)) eqn:Hcb,
           (cell_leb (get c x) (get a x)) eqn:Hca; try done;
    try (rewrite (cell_leb_trans _ _ _ Hca Hab) in Hcb; done);
    try (rewrite (cell_leb_trans _ _ _ Hbc Hca) in Hba; done).
Qed.

Lemma dedupe_columns sort weekly wk dups :
  dedupe_weekly_keep_latest sort weekly = Ok (wk, dups) → columns wk = columns weekly.
Proof.
  intros Hd. destruct (has_columns weekly ["email"; "week_number"]) eqn:Hc.
  - by destruct (dedupe_Ok _ _ _ _ Hc Hd) as [-> _].
  - rewrite (dedupe_no_key _ _ Hc) in Hd. by injection Hd as <- <-.
Qed.

(** X11.  The first table.  With the two key columns there, the kept rows are
    rows of the table given, unchanged and under their labels, in ascending
    order of timestamp with the nulls last (of label when there is no
    timestamp column); the columns are those of the table given.  Without a
    key column the table is returned as it is, with an empty report.  The
    sorting function of line 83 is any that returns a sorted permutation. *)
Theorem dedupe_kept_rows (sort : sorter) (weekly wk dups : DataFrame) :
  sorts sort →
  dedupe_weekly_keep_latest sort weekly = Ok (wk, dups) →
  columns wk = columns weekly ∧
  rows wk ⊆ rows weekly ∧
  (length (rows wk) ≤ length (rows weekly))%nat ∧
  (has_columns weekly ["email"; "week_number"] = false → wk = weekly ∧ dups = empty_frame) ∧
  (has_columns weekly ["email"; "week_number"] = true →
   rows wk `sublist_of` sorted_rows sort weekly ∧
   (has_column weekly "timestamp" = true →
    StronglySorted (λ a b, by_timestamp a b = true) (rows wk)) ∧
   (has_column weekly "timestamp" = false →
    StronglySorted (λ a b, by_label a b = true) (rows wk))).
Proof.
  intros Hsort Hd. destruct (has_columns weekly ["email"; "week_number"]) eqn:Hc.
  - destruct (dedupe_Ok _ _ _ _ Hc Hd) as [-> _]. cbn [columns rows with_rows].
    pose proof (drop_duplicates_last_sublist submission_key (sorted_rows sort weekly))
      as Hsub.
    split_and!; try done.
    + intros x Hx. rewrite <- (sorted_rows_perm sort weekly Hsort).
      by eapply sublist_subseteq.
    + rewrite <- (Permutation_length (sorted_rows_perm sort weekly Hsort)).
      by apply sublist_length.
    + intros _. split_and!; [done| |].
      * intros Ht. eapply StronglySorted_sublist; [exact Hsub|].
        by apply sorted_rows_sorted_ts.
      * intros Ht. eapply StronglySorted_sublist; [exact Hsub|].
        by apply sorted_rows_sorted_label.
  - rewrite (dedupe_no_key _ _ Hc) in Hd. injection Hd as <- <-.
    split_and!; done.
Qed.

Lemma dedupe_kept_rows_witness :
  dedupe_weekly_keep_latest stable_rows example_weekly = Ok example_deduped ∧
  rows example_deduped.1 ⊆ rows example_weekly ∧
  map fst (rows example_deduped.1) = [2; 4].
Proof.
  split; [vm_compute; reflexivity|].
  split; [|vm_compute; reflexivity].
  apply (dedupe_kept_rows stable_rows example_weekly example_deduped.1 example_deduped.2).
  - exact stable_rows_sorts.
  - vm_compute. reflexivity.
Defined.

Lemma dedupe_report sort weekly wk dups :
  has_columns weekly ["email"; "week_number"] = true →
  dedupe_weekly_keep_latest sort weekly = Ok (wk, dups) →
  let cols := "email" :: "week_number"
                :: (if has_column weekly "timestamp" then ["timestamp"] else []) in
  let shown := project cols
                 (with_rows weekly
                    (filter (λ ir, duplicated submission_key (sorted_rows sort weekly) ir
                                   = true)
                            (sorted_rows sort weekly))) in
  dups = with_rows shown (stable_sort (λ a b, lex_leb cols a.2 b.2) (rows shown)).
Proof.
  intros Hc. unfold dedupe_weekly_keep_latest. rewrite Hc. simpl negb. cbv iota.
  set (wk0 := with_rows weekly (sorted_rows sort weekly)).
  intros Hd.
  assert ((if has_column weekly "timestamp"
           then sort_values sort cell_leb "timestamp" weekly
           else Ok (sort_index sort weekly)) = Ok wk0) as Hs.
  { unfold wk0, sorted_rows, sort_values in *.
    destruct (has_column weekly "timestamp") eqn:Ht; simpl in *; [|done].
    destruct (sortable (column_values weekly "timestamp")); [done|].
    simpl in Hd. discriminate Hd. }
  rewrite Hs in Hd. simpl rbind in Hd.
  assert (∀ c, has_column wk0 c = has_column weekly c) as Hhas by done.
  assert (filter (λ c, has_column wk0 c = true) ["email"; "week_number"; "timestamp"]
          = "email" :: "week_number"
              :: (if has_column weekly "timestamp" then ["timestamp"] else [])) as Hcols.
  { rewrite !has_columns_cons, !andb_true_iff in Hc. destruct Hc as (Hce & Hcw & _).
    rewrite filter_cons_True by done. rewrite filter_cons_True by done.
    rewrite filter_cons. rewrite Hhas.
    destruct (has_column weekly "timestamp"); by rewrite ?decide_True, ?decide_False by done. }
  rewrite Hcols, Hhas in Hd. clear Hcols.
  apply rbind_Ok in Hd as (d & Hby & [= _ <-]).
  unfold sort_values_by in Hby.
  destruct (filter _ _) as [|c0 ?] in Hby; [|discriminate Hby].
  destruct (forallb _ _) in Hby; [|discriminate Hby].
  injection Hby as <-.
  destruct (has_column weekly "timestamp"); reflexivity.
Qed.

(** X12.  The second table.  With the two key columns there, the report has the
    key columns and the timestamp column, if any; its rows are exactly the
    rows whose key is on another row as well, the kept one included, each
    under its label and cut down to those columns, sorted by identity, then
    week, then timestamp; it has no rows exactly when no key is repeated.
    The sorting function of line 83 is any that returns a sorted
    permutation. *)
Theorem dedupe_duplicates_report (sort : sorter) (weekly wk dups : DataFrame) :
  sorts sort →
  has_columns weekly ["email"; "week_number"] = true →
  dedupe_weekly_keep_latest sort weekly = Ok (wk, dups) →
  let cols := "email" :: "week_number"
                :: (if has_column weekly "timestamp" then ["timestamp"] else []) in
  columns dups = cols ∧
  rows dups ≡ₚ rows (project cols (with_rows weekly (repeated_rows weekly))) ∧
  map fst (rows dups) ≡ₚ map fst (repeated_rows weekly) ∧
  StronglySorted (λ a b, lex_leb cols a.2 b.2 = true) (rows dups) ∧
  (rows dups = [] ↔ NoDup (map submission_key (rows weekly))).
Proof.
  intros Hsort Hc Hd cols. pose proof (dedupe_report sort weekly wk dups Hc Hd) as Hr.
  cbv zeta in Hr. fold cols in Hr.
  set (marked := filter (λ ir, duplicated submission_key (sorted_rows sort weekly) ir
                               = true)
                        (sorted_rows sort weekly)) in Hr.
  assert (marked ≡ₚ repeated_rows weekly) as Hm.
  { unfold marked, repeated_rows.
    etrans; [apply filter_Permutation, (sorted_rows_perm sort weekly Hsort)|].
    erewrite list_filter_iff; [done|]. intros ir.
    by rewrite (duplicated_perm _ _ _ ir (sorted_rows_perm sort weekly Hsort)). }
  assert (rows dups ≡ₚ rows (project cols (with_rows weekly (repeated_rows weekly)))) as Hp.
  { rewrite Hr. cbn [rows with_rows project]. rewrite stable_sort_perm.
    change (map ?f ?l) with (f <$> l). by rewrite Hm. }
  split_and!.
  - by rewrite Hr.
  - done.
  - rewrite Hp. cbn [rows with_rows project].
    change (map ?f ?l) with (f <$> l). by rewrite <- list_fmap_compose.
  - rewrite Hr. cbn [rows with_rows].
    apply stable_sort_by_rows; [apply lex_leb_total|apply lex_leb_trans].
  - split.
    + intros Hnil. rewrite Hnil in Hp. apply Permutation_nil in Hp.
      cbn [rows with_rows project] in Hp. apply fmap_nil_inv in Hp.
      apply no_duplicated_NoDup. intros x Hx.
      destruct (duplicated submission_key (rows weekly) x) eqn:Hdup; [|done].
      assert (x ∈ repeated_rows weekly) as Hin by (by apply list_elem_of_filter).
      rewrite Hp in Hin. by apply elem_of_nil in Hin.
    + intros Hnd. apply Permutation_nil. symmetry. rewrite Hp. cbn [rows with_rows project].
      unfold repeated_rows. rewrite filter_none; [done|].
      intros x _. by rewrite duplicated_NoDup.
Qed.

Lemma dedupe_duplicates_report_witness :
  dedupe_weekly_keep_latest stable_rows example_weekly = Ok example_deduped ∧
  map fst (rows example_deduped.2) ≡ₚ map fst (repeated_rows example_weekly) ∧
  map fst (repeated_rows example_weekly) = [0; 1; 2; 3; 4].
Proof.
  split; [vm_compute; reflexivity|].
  split; [|vm_compute; reflexivity].
  apply (dedupe_duplicates_report stable_rows example_weekly
           example_deduped.1 example_deduped.2).
  - exact stable_rows_sorts.
  - reflexivity.
  - vm_compute. reflexivity.
Defined.

(** ** The total weight lost is a number that is not negative *)








(** ** Nobody is both missing and at risk *)

Lemma missing_checkin_Ok intake this_week df :
  missing_checkin intake this_week = Ok df →
  ∀ c, c ∈ column_values df "email" →
    cell_key c ∈ email_set intake ∧ cell_key c ∉ email_set this_week.
Proof.
  unfold missing_checkin. intros (missing & Hs & [= <-])%rbind_Ok c Hc.
  unfold column_values in Hc. cbn [rows] in Hc. rewrite email_column_of_list in Hc.
  unfold sorted in Hs. destruct (sortable _); [|done]. injection Hs as <-.
  rewrite stable_sort_perm in Hc.
  apply list_elem_of_fmap in Hc as (k & -> & Hk).
  apply elem_of_elements, elem_of_difference in Hk as [Hk1 Hk2].
  destruct (email_set_canonical _ _ Hk1) as (c & _ & ->).
  by rewrite cell_key_key_cell.
Qed.

Lemma mask_rows_Ok rs mask kept :
  mask_rows rs mask = Ok kept → kept ⊆ rs.
Proof.
  unfold mask_rows. intros (bs & _ & [= <-])%rbind_Ok ir Hir.
  apply list_elem_of_fmap in Hir as ([jr b] & -> & Hjr).
  apply list_elem_of_filter in Hjr as [_ Hjr].
  apply elem_of_zip_l in Hjr. done.
Qed.

Lemma at_risk_rules_Ok sort this_week at_risk :
  sorts sort →
  at_risk_rules sort this_week = Ok at_risk →
  ∀ ir, ir ∈ rows at_risk → ∃ jr, jr ∈ rows this_week ∧ ir = marked jr.
Proof.
  intros Hsort. unfold at_risk_rules. intros (rule & _ & H)%rbind_Ok.
  apply rbind_Ok in H as (kept & Hkept%mask_rows_Ok & H).
  assert (∀ ir, ir ∈ map (λ ir, (ir.1, <["risk_flag" := true_cell]> ir.2)) kept →
                ∃ jr, jr ∈ rows this_week ∧ ir = marked jr) as Hin.
  { intros ir (jr & -> & Hjr)%list_elem_of_fmap. exists jr. split; [by apply Hkept|done]. }
  destruct (has_column _ "stress_weekly").
  - unfold sort_values in H. destruct (negb _); [done|].
    destruct (sortable _); [|done]. injection H as <-. cbn [rows with_rows].
    intros ir Hir.
    rewrite (proj1 (Hsort by_stress_desc by_stress_desc_total by_stress_desc_trans _))
      in Hir.
    by apply Hin.
  - injection H as <-. exact Hin.
Qed.

(** X14.  When [coaching_action_list] returns, every row of the at-risk table is
    a row of the current week with the risk flag added, and, the merged
    table having the identity column, no identity of the missing table is
    the identity of a row of the at-risk table.  The sorting function is
    any that returns a sorted permutation. *)
Theorem missing_and_at_risk_disjoint (sort : sorter)
    (intake merged missing at_risk : DataFrame) :
  sorts sort →
  coaching_action_list sort intake merged = Ok (missing, at_risk) →
  (∀ ir, ir ∈ rows at_risk →
     ∃ wk jr, current_week merged = Ok (Some wk) ∧ jr ∈ rows merged ∧
              week_is wk (week_of jr) = true ∧ ir = marked jr) ∧
  (has_column merged "email" = true →
   ∀ c ir, c ∈ column_values missing "email" → ir ∈ rows at_risk →
     email_of ir ≠ VNull → cell_key (email_of ir) ≠ cell_key c).
Proof.
  intros Hsort. unfold coaching_action_list. intros (wk & Hwk & H)%rbind_Ok.
  destruct wk as [wk|].
  2: { injection H as <- <-. split; [intros ir Hir|intros _ c ir _ Hir];
       by apply elem_of_nil in Hir. }
  apply rbind_Ok in H as (m & Hm & H). apply rbind_Ok in H as (a & Ha & [= <- <-]).
  pose proof (at_risk_rules_Ok _ _ _ Hsort Ha) as Hrows.
  split.
  - intros ir (jr & Hjr & ->)%Hrows. exists wk, jr.
    unfold this_week_of in Hjr. cbn [rows with_rows] in Hjr.
    apply list_elem_of_filter in Hjr as [Hw Hjr]. done.
  - intros He c ir Hc (jr & Hjr & ->)%Hrows Hnn Heq.
    destruct (missing_checkin_Ok _ _ _ Hm c Hc) as [_ Hout]. apply Hout.
    rewrite <- Heq. apply elem_of_email_set. split; [done|].
    exists jr. split; [done|].
    assert (email_of (marked jr) = email_of jr) as Hsame.
    { unfold email_of, marked. simpl. by rewrite get_insert_ne. }
    rewrite Hsame in *. done.
Qed.

Lemma missing_and_at_risk_disjoint_witness :
  ∃ missing at_risk,
    coaching_action_list stable_rows example_intake example_checkins
    = Ok (missing, at_risk) ∧
    column_values missing "email" = [VStr "b"] ∧
    map email_of (rows at_risk) = [VStr "c"] ∧
    ∀ ir, ir ∈ rows at_risk →
      ∃ wk jr, current_week example_checkins = Ok (Some wk) ∧ jr ∈ rows example_checkins ∧
               week_is wk (week_of jr) = true ∧ ir = marked jr.
Proof.
  destruct (coaching_action_list stable_rows example_intake example_checkins)
    as [[m a]|] eqn:H; [|vm_compute in H; discriminate H].
  exists m, a. split; [done|].
  pose proof (proj1 (missing_and_at_risk_disjoint _ _ _ _ _ stable_rows_sorts H)) as Hrows.
  vm_compute in H. injection H as <- <-.
  split; [reflexivity|]. split; [reflexivity|]. exact Hrows.
Defined.

(** ** The run of the script: lines 60 to 82 of [app.py] *)

Lemma week_not_cast : "week_number" ∉ weekly_numeric.
Proof. apply (bool_decide_unpack _). vm_compute. exact I. Qed.

Section AppFacts.
Variable sort : sorter.
Hypothesis sort_ok : sorts sort.
Variable py_str : cell → string.
Variable to_datetime : cell → option Z.

Local Abbreviation normalize_common := (normalize_common py_str to_datetime).
Local Abbreviation clean_weekly := (clean_weekly py_str to_datetime).
Local Abbreviation prep_data := (prep_data py_str to_datetime).

(** The week numbers of the cleaned weekly table are the week labels of
    the table given, parsed. *)
Lemma clean_weekly_week weekly raw weeks :
  column (normalize_common weekly) "week_number" = Ok raw →
  parse_week_number raw = Ok weeks →
  tracks (λ r r', ∃ w, parse_week_cell (get r "week_number") = Ok w
                       ∧ get r' "week_number" = int_cell w)
         weekly (clean_weekly weekly weeks).
Proof.
  intros Hraw Hweeks.
  destruct (parse_weeks_Ok py_str to_datetime weekly raw weeks Hraw Hweeks) as [Hw Hlen].
  unfold Backend.clean_weekly, Backend.mapped_weekly.
  set (w0 := normalize_common weekly).
  set (w1 := assign w0 "week_number" weeks).
  set (w2 := if has_column w1 "nutrition_adherence_weekly" then _ else w1).
  set (w3 := if has_column w2 "sleep_hours_weekly" then _ else w2).
  set (P := λ r r' : gmap string cell, get r' "week_number" = get r "week_number").
  set (Q := λ r r' : gmap string cell,
         ∃ w, parse_week_cell (get r "week_number") = Ok w
              ∧ get r' "week_number" = int_cell w).
  assert (∀ a b c, P a b → P b c → P a c) as Htrans.
  { unfold P. intros; congruence. }
  assert (tracks P weekly w0) as H0 by apply week_column_normalized.
  assert (tracks Q w0 w1) as H1.
  { unfold column in Hraw. fold w0 in Hraw.
    destruct (has_column w0 "week_number"); [|done]. injection Hraw as <-.
    apply rmapM_Ok_Forall2 in Hweeks.
    apply (Forall2_fmap_l (λ ir : Z * gmap string cell, (ir.1, get ir.2 "week_number")))
      in Hweeks.
    unfold tracks, w1, assign. cbn [rows]. clear -Hweeks. subst Q.
    induction Hweeks as [|ir iv rs vs Hiv _ IH]; simpl; [constructor|].
    constructor; [|done].
    split; [done|]. cbn [snd].
    apply rbind_Ok in Hiv as (w & Hw0 & [= <-]). exists w. split; [done|].
    cbn [snd]. by rewrite get_insert, decide_True. }
  assert (tracks P w1 w2) as H2.
  { apply tracks_if; [done|]. intros r v. unfold P. by rewrite get_insert_ne. }
  assert (tracks P w2 w3) as H3.
  { apply tracks_if; [done|]. intros r v. unfold P. by rewrite get_insert_ne. }
  assert (tracks P w3 (cast_numeric w3 weekly_numeric)) as H4.
  { apply tracks_cast_numeric; [done|done|].
    intros c r Hc. unfold P. rewrite get_insert_ne; [done|].
    intros ->. by apply week_not_cast in Hc. }
  assert (tracks P w1 (cast_numeric w3 weekly_numeric)) as H14
    by eauto using tracks_trans.
  eapply (tracks_compose P Q Q); [|exact H0|].
  { unfold P, Q. intros a b c Hab (w & Hw1 & Hw2). exists w. by rewrite <- Hab. }
  eapply (tracks_compose Q P Q); [|exact H1|exact H14].
  unfold P, Q. intros a b c (w & Hw1 & Hw2) Hbc. exists w. split; [done|]. congruence.
Qed.

Local Abbreviation weekly_pipeline := (weekly_pipeline sort py_str to_datetime).
Local Abbreviation load_tables := (load_tables sort py_str to_datetime).

Lemma weekly_pipeline_Done intake weekly merged clean dups :
  is_empty weekly = false →
  weekly_pipeline intake weekly = Done (merged, clean, dups) →
  validate_weekly (normalize_common weekly) = [] ∧
  ∃ raw weeks wk,
    column (normalize_common weekly) "week_number" = Ok raw ∧
    parse_week_number raw = Ok weeks ∧
    dedupe_weekly_keep_latest sort
      (assign (normalize_common weekly) "week_number" weeks)
    = Ok (wk, dups) ∧
    prep_data intake wk = Ok (merged, clean).
Proof.
  intros Hne. unfold Backend.weekly_pipeline. rewrite Hne.
  generalize (prep_data intake). intros prep.
  generalize (normalize_common weekly). intros n.
  destruct (validate_weekly n); [|done]. intros H. split; [done|].
  destruct (column n "week_number") as [raw|] eqn:H1; [|done]. cbn [rbind] in H.
  destruct (parse_week_number raw) as [weeks|] eqn:H2; [|done]. cbn [rbind] in H.
  destruct (dedupe_weekly_keep_latest sort _) as [[wk d]|] eqn:H3; [|done].
  cbn [rbind fst snd] in H.
  destruct (prep wk) as [[m c]|] eqn:H4; [|done]. cbn [rbind fst snd] in H.
  injection H as <- <- <-. exists raw, weeks, wk. done.
Qed.

(** X15.  The tables of a run.  The cleaned weekly table has at most one row
    per (identity, week number); its identities are texts without
    surrounding whitespace or upper-case letters and its week numbers are
    integers or nulls; and every row label of it is a row label of the
    weekly table that was read.  The sorting function of the
    deduplicator is any that returns a sorted permutation. *)
Theorem pipeline_one_row_per_submission (intake weekly merged clean dups : DataFrame) :
  weekly_pipeline intake weekly = Done (merged, clean, dups) →
  NoDup (map submission_key (rows clean)) ∧
  Forall (λ ir, (is_empty weekly = false → normal_identity (email_of ir))
                ∧ int_or_null (week_of ir) = true) (rows clean) ∧
  map fst (rows clean) ⊆ map fst (rows weekly).
Proof.
  destruct (is_empty weekly) eqn:Hne.
  { unfold Backend.weekly_pipeline. rewrite Hne. intros [= <- <- <-].
    split_and!; [apply NoDup_nil_2|apply Forall_nil_2|].
    intros x Hx. by apply elem_of_nil in Hx. }
  intros (Hval & raw & weeks & wk & Hraw & Hweeks & Hd & Hp)%weekly_pipeline_Done; [|done].
  apply validate_weekly_nil in Hval.
  rewrite !has_columns_cons, !andb_true_iff in Hval. destruct Hval as (Hts & Hem & Hwk & _).
  rewrite has_column_normalize_common in Hem, Hwk, Hts.
  (* the table given to the deduplicator *)
  set (n := normalize_common weekly) in *.
  set (w1 := assign n "week_number" weeks) in *.
  assert (length weeks = length (rows n)) as Hlen.
  { unfold column in Hraw. destruct (has_column n "week_number"); [|done].
    injection Hraw as <-. apply rmapM_Ok_length in Hweeks. by rewrite Hweeks, length_map. }
  assert (Forall2 (λ ir ir', ir'.1 = ir.1 ∧
                     normal_identity (email_of ir') ∧
                     ∃ w, week_of ir' = int_cell w) (rows weekly) (rows w1)) as Hw1.
  { pose proof (normalize_common_email py_str to_datetime weekly Hem) as Hn.
    unfold tracks in Hn. fold n in Hn.
    assert (Forall2 (λ ir ir', ir'.1 = ir.1 ∧ get ir'.2 "email" = get ir.2 "email"
                               ∧ ∃ w, get ir'.2 "week_number" = int_cell w)
              (rows n) (rows w1)) as Ha.
    { unfold column in Hraw. destruct (has_column n "week_number"); [|done].
      injection Hraw as <-. apply rmapM_Ok_Forall2 in Hweeks.
      apply (Forall2_fmap_l (λ ir : Z * gmap string cell, (ir.1, get ir.2 "week_number")))
        in Hweeks.
      unfold w1, assign. cbn [rows]. clear -Hweeks.
      induction Hweeks as [|ir iv rs vs Hiv _ IH]; simpl; [constructor|].
      constructor; [|done]. split; [done|]. cbn [snd].
      apply rbind_Ok in Hiv as (w & _ & [= <-]). cbn [snd].
      split; [by rewrite get_insert_ne|]. exists w. by rewrite get_insert, decide_True. }
    eapply Forall2_trans; [|exact Hn|exact Ha].
    simpl. intros x y z (Hl1 & He) (Hl2 & He2 & Hw2).
    split; [congruence|]. split; [|done].
    unfold email_of. rewrite He2, He. apply normalize_email_normal. }
  assert (has_columns w1 ["email"; "week_number"] = true) as Hkeys.
  { rewrite !has_columns_cons, !andb_true_iff. unfold w1, has_column, assign. cbn [columns].
    rewrite !has_column_add. unfold n. rewrite !columns_normalize_common.
    unfold has_column in Hem, Hwk. rewrite Hem, Hwk. done. }
  destruct (dedupe_Ok _ _ _ _ Hkeys Hd) as [Hwk_eq _].
  assert (rows wk ⊆ rows w1) as Hsub.
  { rewrite Hwk_eq. cbn [rows with_rows]. intros x Hx.
    rewrite <- (sorted_rows_perm sort w1 sort_ok). by eapply drop_duplicates_last_elem. }
  assert (NoDup (map submission_key (rows wk))) as Hnd.
  { rewrite Hwk_eq. apply drop_duplicates_last_NoDup. }
  assert (has_column wk "email" = true ∧ has_column wk "week_number" = true) as [Hem' Hwk'].
  { rewrite Hwk_eq. rewrite !has_columns_cons, !andb_true_iff in Hkeys.
    destruct Hkeys as (? & ? & _). done. }
  assert (∀ ir, ir ∈ rows wk →
            normal_identity (email_of ir) ∧ ∃ w, week_of ir = int_cell w) as Hform.
  { intros ir Hir%Hsub. apply list_elem_of_lookup in Hir as [i Hi].
    destruct (Forall2_lookup_r _ _ _ _ _ Hw1 Hi) as (jr & _ & _ & ? & ?). done. }
  assert (∀ ir, ir ∈ rows wk → ir.1 ∈ map fst (rows weekly)) as Hlab.
  { intros ir Hir%Hsub. apply list_elem_of_lookup in Hir as [i Hi].
    destruct (Forall2_lookup_r _ _ _ _ _ Hw1 Hi) as (jr & Hjr & -> & _).
    apply list_elem_of_fmap. exists jr. split; [done|]. by eapply list_elem_of_lookup_2. }
  (* through [prep_data] *)
  apply (prep_data_Ok py_str to_datetime) in Hp
    as (raw' & weeks' & M0 & Hraw' & Hweeks' & Hclean & _ & _).
  destruct (parse_weeks_Ok py_str to_datetime wk raw' weeks' Hraw' Hweeks') as [_ Hlen'].
  pose proof (clean_weekly_email py_str to_datetime wk weeks' Hlen' Hem') as Te.
  pose proof (clean_weekly_week wk raw' weeks' Hraw' Hweeks') as Tw.
  rewrite Hclean. revert Te Tw. generalize (clean_weekly wk weeks'). intros cw Te Tw.
  assert (Forall2 (λ ir ir', ir'.1 = ir.1 ∧ email_of ir' = email_of ir
                             ∧ week_of ir' = week_of ir) (rows wk) (rows cw)) as Hsame.
  { unfold tracks in Te, Tw.
    apply Forall2_same_length_lookup. split; [by eapply Forall2_length|].
    intros i ir ir' Hi Hi'.
    destruct (Forall2_lookup_lr _ _ _ _ _ _ Te Hi Hi') as [Hl He].
    destruct (Forall2_lookup_lr _ _ _ _ _ _ Tw Hi Hi') as [_ (w & Hw & Hw')].
    destruct (Hform ir (list_elem_of_lookup_2 _ _ _ Hi)) as [Hn (w0 & Hw0)].
    split; [done|]. unfold email_of, week_of in *. split.
    - rewrite He. by apply normalize_email_fixed.
    - rewrite Hw'. rewrite Hw0 in Hw. apply parse_week_cell_int_Ok in Hw.
      by rewrite Hw. }
  assert (map submission_key (rows cw) = map submission_key (rows wk)) as Hk.
  { clear -Hsame. induction Hsame as [|x y l l' (_ & He & Hw) _ IH]; simpl; [done|].
    f_equal; [|done]. unfold submission_key, subset_key. simpl.
    unfold email_of, week_of in *. by rewrite He, Hw. }
  split_and!.
  - by rewrite Hk.
  - apply Forall_forall. intros ir' Hir'. apply list_elem_of_lookup in Hir' as [i Hi'].
    destruct (Forall2_lookup_r _ _ _ _ _ Hsame Hi') as (ir & Hi & _ & He & Hw).
    destruct (Hform ir (list_elem_of_lookup_2 _ _ _ Hi)) as [Hn (w0 & Hw0)].
    rewrite He, Hw, Hw0. split; [done|]. by destruct w0.
  - intros l (ir' & -> & Hir')%list_elem_of_fmap.
    apply list_elem_of_lookup in Hir' as [i Hi'].
    destruct (Forall2_lookup_r _ _ _ _ _ Hsame Hi') as (ir & Hi & -> & _).
    apply Hlab. by eapply list_elem_of_lookup_2.
Qed.
End AppFacts.

(** ** What a run can raise *)

Lemma rmapM_Err {A B} (f : A → result B) (l : list A) e :
  rmapM f l = Err e → ∃ x, x ∈ l ∧ f x = Err e.
Proof.
  induction l as [|x l IH]; simpl; [done|].
  destruct (f x) as [y|e'] eqn:Hx; simpl.
  - destruct (rmapM f l) as [ys|e'']; simpl; [done|]. intros [= ->].
    destruct IH as (x' & Hx' & He); [done|]. exists x'. split; [by right|done].
  - intros [= ->]. exists x. split; [left|done].
Qed.

Lemma to_Int64_Err o e : to_Int64 o = Err e → e = TypeError ∨ e = OverflowError.
Proof.
  destruct o as [[q|n]|]; cbn [to_Int64]; [| |done].
  - destruct (Num.is_integral q); [|intros [= <-]; by left].
    destruct (_ && _); [done|]. intros [= <-]. by left.
  - intros [= <-]. by right.
Qed.

Lemma parse_week_number_Err s e :
  parse_week_number s = Err e → e = TypeError ∨ e = OverflowError.
Proof.
  intros (iv & _ & H)%rmapM_Err.
  destruct (parse_week_cell iv.2) as [w|e'] eqn:Hc; [done|]. simpl in H.
  injection H as <-.
  destruct iv.2 as [|t|z|f|t]; unfold parse_week_cell, parse_week_text in Hc;
    try discriminate Hc; by eapply to_Int64_Err.
Qed.

Lemma cell_sub_Err a b e : cell_sub a b = Err e → e = TypeError.
Proof.
  unfold cell_sub.
  destruct a, b; simpl; try done; try congruence;
    repeat (match goal with |- context [match ?x with _ => _ end] => destruct x end);
    congruence.
Qed.

Lemma add_delta_Err d a b M e : add_delta d a b M = Err e → e = TypeError.
Proof.
  unfold add_delta. destruct (has_columns M [a; b]); [|done].
  destruct (rmapM _ _) as [vs|e'] eqn:H; [done|]. simpl. intros [= <-].
  apply rmapM_Err in H as (ir & _ & H).
  destruct (cell_sub _ _) as [v|e''] eqn:Hs; [done|]. simpl in H. injection H as <-.
  by eapply cell_sub_Err.
Qed.

Lemma add_deltas_Err M e : add_deltas M = Err e → e = TypeError.
Proof.
  unfold add_deltas.
  destruct (add_delta _ _ _ M) as [M1|e1] eqn:H1; simpl;
    [|intros [= <-]; by eapply add_delta_Err].
  destruct (add_delta _ _ _ M1) as [M2|e2] eqn:H2; simpl;
    [|intros [= <-]; by eapply add_delta_Err].
  apply add_delta_Err.
Qed.

Lemma merge_left_Err left right e :
  merge_left left right = Err e →
  has_column left "email" = true → has_column right "email" = true → e = MergeError.
Proof.
  unfold merge_left. intros H Hl Hr. rewrite Hl, Hr in H. simpl in H.
  destruct (bool_decide _); [done|]. congruence.
Qed.

Lemma sort_values_Err sort leb c df e :
  sort_values sort leb c df = Err e → has_column df c = true → e = TypeError.
Proof.
  unfold sort_values. intros H Hc. rewrite Hc in H. simpl in H.
  destruct (sortable _); [done|]. congruence.
Qed.

(** The deduplicator raises nothing but [TypeError]: the columns it reads
    are there whenever it reads them. *)
Lemma dedupe_Err sort weekly e :
  dedupe_weekly_keep_latest sort weekly = Err e → e = TypeError.
Proof.
  unfold dedupe_weekly_keep_latest.
  destruct (has_columns weekly ["email"; "week_number"]) eqn:Hc; [|done].
  simpl negb. cbv iota.
  rewrite !has_columns_cons, !andb_true_iff in Hc. destruct Hc as (Hce & Hcw & _).
  destruct (has_column weekly "timestamp") eqn:Ht.
  - destruct (sort_values sort cell_leb "timestamp" weekly) as [wk|e'] eqn:Hs; simpl.
    2: { intros [= <-]. by eapply sort_values_Err. }
    assert (columns wk = columns weekly) as Hcols.
    { unfold sort_values in Hs. rewrite Ht in Hs. simpl in Hs.
      destruct (sortable _); [|done]. by injection Hs as <-. }
    assert (∀ c, has_column wk c = has_column weekly c) as Hhas.
    { intros c. unfold has_column. by rewrite Hcols. }
    rewrite !filter_cons, filter_nil, !Hhas, Hce, Hcw, Ht.
    rewrite !decide_True by done.
    destruct (sort_values_by _ _) as [d|e'] eqn:Hd; simpl; [done|]. intros [= <-].
    unfold sort_values_by in Hd.
    destruct (filter _ _) as [|c0 ?] eqn:Hf in Hd.
    + destruct (forallb _ _); [done|]. congruence.
    + exfalso. revert Hf. vm_compute. done.
  - simpl.
    assert (∀ c, has_column (sort_index sort weekly) c = has_column weekly c) as Hhas
      by done.
    rewrite !filter_cons, filter_nil, !Hhas, Hce, Hcw, Ht.
    rewrite !decide_True by done. rewrite decide_False by done.
    destruct (sort_values_by _ _) as [d|e'] eqn:Hd; simpl; [done|]. intros [= <-].
    unfold sort_values_by in Hd.
    destruct (filter _ _) as [|c0 ?] eqn:Hf in Hd.
    + destruct (forallb _ _); [done|]. congruence.
    + exfalso. revert Hf. vm_compute. done.
Qed.

Section AppErrors.
Variable sort : sorter.
Variable py_str : cell → string.
Variable to_datetime : cell → option Z.

Local Abbreviation normalize_common := (normalize_common py_str to_datetime).
Local Abbreviation clean_weekly := (clean_weekly py_str to_datetime).
Local Abbreviation clean_intake := (clean_intake py_str to_datetime).
Local Abbreviation prep_data := (prep_data py_str to_datetime).
Local Abbreviation weekly_pipeline := (weekly_pipeline sort py_str to_datetime).
Local Abbreviation load_tables := (load_tables sort py_str to_datetime).

Lemma prep_data_Err intake weekly e :
  prep_data intake weekly = Err e →
  has_column weekly "week_number" = true →
  has_column weekly "email" = true →
  has_column intake "email" = true →
  e = TypeError ∨ e = OverflowError ∨ e = MergeError.
Proof.
  intros H Hw He Hi. rewrite prep_data_unfold in H.
  assert (∀ weeks, has_column (clean_weekly weekly weeks) "email" = true) as Hce.
  { intros weeks. apply bool_decide_eq_true.
    apply (clean_weekly_columns py_str to_datetime weekly weeks Hw).
    by apply bool_decide_eq_true in He. }
  assert (has_column (clean_intake intake) "email" = true) as Hci.
  { apply bool_decide_eq_true.
    apply (clean_intake_columns py_str to_datetime intake).
    by apply bool_decide_eq_true in Hi. }
  revert H Hce Hci.
  generalize (clean_weekly weekly). intros cw.
  generalize (clean_intake intake). intros ci H Hce Hci.
  unfold column in H. rewrite has_column_normalize_common, Hw in H. cbn [rbind] in H.
  destruct (parse_week_number _) as [weeks|e1] eqn:Hp; cbn [rbind] in H.
  2: { injection H as <-. apply parse_week_number_Err in Hp. tauto. }
  destruct (merge_left (cw weeks) ci) as [M|e1] eqn:Hm; cbn [rbind] in H.
  2: { injection H as <-. right. right. by eapply merge_left_Err. }
  destruct (add_deltas M) as [M'|e1] eqn:Hd; cbn [rbind] in H; [done|].
  injection H as <-. left. by eapply add_deltas_Err.
Qed.

(** X16.  A run that passes the two validations raises no [KeyError]: what it
    can raise is a [TypeError] (a week label that is a number but no
    integer that 64 bits hold, a column of mixed kinds to sort, a
    difference of texts), the [OverflowError] of a week label that is an
    infinity, or the [MergeError] of colliding column names.  A run that
    stops lists required columns that are not there. *)
Theorem load_tables_errors (intake weekly : DataFrame) :
  (∀ e, load_tables intake weekly = Raised e →
     e = TypeError ∨ e = OverflowError ∨ e = MergeError) ∧
  (∀ missing, load_tables intake weekly = Stopped missing →
     missing ≠ [] ∧
     ((missing = validate_intake (normalize_common intake)
       ∧ ∀ c, c ∈ missing → has_column intake c = false ∧ c ∈ intake_required_sorted)
      ∨ (missing = validate_weekly (normalize_common weekly)
         ∧ ∀ c, c ∈ missing → has_column weekly c = false ∧ c ∈ weekly_required_sorted))).
Proof.
  unfold Backend.load_tables.
  pose proof (validate_intake_filter (normalize_common intake)) as Hvi.
  pose proof (validate_intake_nil (normalize_common intake)) as Hie.
  pose proof (validate_weekly_filter (normalize_common weekly)) as Hvw.
  pose proof (validate_weekly_nil (normalize_common weekly)) as Hwe.
  destruct (validate_intake (normalize_common intake)) as [|c0 cs] eqn:Hi.
  2: { split; [done|]. intros missing [= <-]. split; [done|]. left. split; [done|].
       intros c Hc. rewrite Hvi in Hc. apply list_elem_of_filter in Hc as [Hc ?].
       by rewrite has_column_normalize_common in Hc. }
  assert (has_column (normalize_common intake) "email" = true) as Hiem.
  { destruct Hie as [Hie _]. specialize (Hie eq_refl).
    rewrite !has_columns_cons, !andb_true_iff in Hie. tauto. }
  unfold Backend.weekly_pipeline.
  destruct (is_empty weekly); [done|].
  destruct (validate_weekly (normalize_common weekly)) as [|c1 cs1] eqn:Hw.
  2: { split; [done|]. intros missing [= <-]. split; [done|]. right. split; [done|].
       intros c Hc. rewrite Hvw in Hc. apply list_elem_of_filter in Hc as [Hc ?].
       by rewrite has_column_normalize_common in Hc. }
  destruct Hwe as [Hwe _]. specialize (Hwe eq_refl).
  rewrite !has_columns_cons, !andb_true_iff in Hwe. destruct Hwe as (Hts & Hem & Hwk & _).
  split; [|by destruct (rbind _ _)].
  intros e.
  pose proof (prep_data_Err (normalize_common intake)) as Hprep.
  revert Hprep. generalize (prep_data (normalize_common intake)). intros prep Hprep.
  revert Hts Hem Hwk. generalize (normalize_common weekly). intros n Hts Hem Hwk.
  unfold column. rewrite Hwk. cbn [rbind].
  destruct (parse_week_number _) as [weeks|e1] eqn:Hp; cbn [rbind].
  2: { intros [= <-]. apply parse_week_number_Err in Hp. tauto. }
  destruct (dedupe_weekly_keep_latest sort _) as [[wk d]|e1] eqn:Hd; cbn [rbind fst snd].
  2: { intros [= <-]. left. by eapply dedupe_Err. }
  destruct (prep wk) as [[m c]|e1] eqn:Hq; cbn [rbind fst snd]; [done|].
  intros [= <-]. apply (Hprep wk e1 Hq); [| |done].
  - apply dedupe_columns in Hd.
    unfold has_column. rewrite Hd. unfold assign. cbn [columns].
    rewrite has_column_add. apply orb_true_iff. by right; apply bool_decide_eq_true.
  - apply dedupe_columns in Hd.
    unfold has_column. rewrite Hd. unfold assign. cbn [columns].
    rewrite has_column_add. apply orb_true_iff. by left.
Qed.
End AppErrors.

(** ** The cleaned weekly table, column by column *)

Section CleanedWeekly.
Variable py_str : cell → string.
Variable to_datetime : cell → option Z.

Local Abbreviation normalize_common := (normalize_common py_str to_datetime).
Local Abbreviation clean_weekly := (clean_weekly py_str to_datetime).
Local Abbreviation mapped_weekly := (mapped_weekly py_str to_datetime).
Local Abbreviation prep_data := (prep_data py_str to_datetime).

(** No column of the numeric list is written by the steps before the casts. *)
Lemma weekly_numeric_plain c :
  c ∈ weekly_numeric →
  c ∉ ["email"; "timestamp"; "week_number"; "adherence_score_weekly";
       "sleep_hours_numeric_weekly"].
Proof.
  revert c. apply Forall_forall.
  repeat constructor; apply (bool_decide_unpack _); vm_compute; exact I.
Qed.

(** The steps before the casts, with the tables between them. *)
Lemma mapped_weekly_steps weekly weeks :
  length weeks = length (rows weekly) →
  ∃ w1 w2,
    (∀ c, has_column w1 c = has_column weekly c || bool_decide (c = "week_number")) ∧
    (∀ P : gmap string cell → gmap string cell → Prop,
       (∀ r, P r r) → (∀ a b c, P a b → P b c → P a c) →
       (∀ r c v, c ∈ ["email"; "timestamp"; "week_number"] → P r (<[c := v]> r)) →
       tracks P weekly w1) ∧
    w2 = (if has_column w1 "nutrition_adherence_weekly"
          then set_column "adherence_score_weekly"
                 (λ r, map_dict ADHERENCE_MAP (get r "nutrition_adherence_weekly")) w1
          else w1) ∧
    mapped_weekly weekly weeks
    = (if has_column w2 "sleep_hours_weekly"
       then set_column "sleep_hours_numeric_weekly"
              (λ r, map_dict SLEEP_BIN_MAP (get r "sleep_hours_weekly")) w2
       else w2).
Proof.
  intros Hlen. unfold Backend.mapped_weekly.
  set (w0 := normalize_common weekly).
  set (w1 := assign w0 "week_number" weeks).
  exists w1. eexists. split_and!; [| |reflexivity|reflexivity].
  - intros c. unfold w1, has_column, assign. cbn [columns]. rewrite has_column_add.
    unfold w0. by rewrite columns_normalize_common.
  - intros P Hr Ht Hs.
    eapply tracks_trans; [exact Ht| |].
    + apply tracks_normalize_common; try done; intros; apply Hs; in_list.
    + apply tracks_assign; [|intros; apply Hs; in_list].
      rewrite Hlen. symmetry. eapply tracks_length.
      apply (tracks_normalize_common py_str to_datetime (λ _ _, True)); done.
Qed.

Lemma columns_grow weekly weeks c :
  has_column weekly "week_number" = true →
  has_column weekly c = true → c ∈ columns (mapped_weekly weekly weeks).
Proof.
  intros Hw Hc.
  pose proof (clean_weekly_columns py_str to_datetime weekly weeks Hw) as (Hsub & _).
  rewrite clean_weekly_eq, columns_cast_numeric in Hsub.
  apply Hsub. by apply bool_decide_eq_true in Hc.
Qed.

(** X10.  When [prep_data] returns, the cleaned weekly table has the rows of
    the weekly table given, label by label, and on every row: the
    identity is the text of the identity given, trimmed and lower-cased;
    the week number is the week label parsed, an integer or a null; a
    column of the numeric list holds what [pd.to_numeric] reads from the
    cell given; the adherence score is the value of the adherence answer
    in the table of the three answers, a null for any other answer, and
    the numeric sleep hours likewise; every other column but the
    timestamp is as it was given. *)
Theorem prep_data_cleaned_weekly (intake weekly merged wk : DataFrame) :
  prep_data intake weekly = Ok (merged, wk) →
  Forall2 (λ ir ir',
      ir'.1 = ir.1 ∧
      email_of ir' = normalize_email py_str (email_of ir) ∧
      normal_identity (email_of ir') ∧
      (∃ w, parse_week_cell (week_of ir) = Ok w ∧ week_of ir' = int_cell w) ∧
      (∀ c, c ∈ weekly_numeric → has_column weekly c = true →
            get ir'.2 c = to_numeric (get ir.2 c)) ∧
      (has_column weekly "nutrition_adherence_weekly" = true →
       get ir'.2 "adherence_score_weekly"
       = map_dict ADHERENCE_MAP (get ir.2 "nutrition_adherence_weekly")) ∧
      (has_column weekly "sleep_hours_weekly" = true →
       get ir'.2 "sleep_hours_numeric_weekly"
       = map_dict SLEEP_BIN_MAP (get ir.2 "sleep_hours_weekly")) ∧
      (∀ c, c ∉ ["email"; "timestamp"; "week_number"; "adherence_score_weekly";
                 "sleep_hours_numeric_weekly"] ++ weekly_numeric →
            get ir'.2 c = get ir.2 c))
    (rows weekly) (rows wk).
Proof.
  intros (raw & weeks & M0 & Hraw & Hweeks & Hwk & HM0 & _)%prep_data_Ok.
  destruct (parse_weeks_Ok py_str to_datetime weekly raw weeks Hraw Hweeks) as [Hw Hlen].
  destruct (merged_has_email py_str to_datetime intake weekly weeks M0 Hw HM0) as [Hem _].
  pose proof (clean_weekly_email py_str to_datetime weekly weeks Hlen Hem) as Te.
  pose proof (clean_weekly_week py_str to_datetime weekly raw weeks Hraw Hweeks) as Tw.
  pose proof (clean_weekly_tracks py_str to_datetime
                (λ r r', ∀ c, c ∉ ["email"; "timestamp"; "week_number";
                                   "adherence_score_weekly";
                                   "sleep_hours_numeric_weekly"] ++ weekly_numeric →
                              get r' c = get r c) weekly weeks Hlen) as Tu.
  assert (tracks (λ r r', ∀ c, c ∈ weekly_numeric → has_column weekly c = true →
                     get r' c = to_numeric (get r c) ∧
                     (has_column weekly "nutrition_adherence_weekly" = true →
                      get r' "adherence_score_weekly"
                      = map_dict ADHERENCE_MAP (get r "nutrition_adherence_weekly")) ∧
                     (has_column weekly "sleep_hours_weekly" = true →
                      get r' "sleep_hours_numeric_weekly"
                      = map_dict SLEEP_BIN_MAP (get r "sleep_hours_weekly")))
            weekly (clean_weekly weekly weeks) ∧
          tracks (λ r r',
                     (has_column weekly "nutrition_adherence_weekly" = true →
                      get r' "adherence_score_weekly"
                      = map_dict ADHERENCE_MAP (get r "nutrition_adherence_weekly")) ∧
                     (has_column weekly "sleep_hours_weekly" = true →
                      get r' "sleep_hours_numeric_weekly"
                      = map_dict SLEEP_BIN_MAP (get r "sleep_hours_weekly")))
            weekly (clean_weekly weekly weeks)) as [Tn Tm].
  { rewrite clean_weekly_eq.
    pose proof (columns_grow weekly weeks) as Hgrow.
    pose proof (cast_numeric_cells (mapped_weekly weekly weeks) weekly_numeric) as Hcast.
    destruct (mapped_weekly_steps weekly weeks Hlen) as (w1 & w2 & Hc1 & T1 & Hw2 & Hmap).
    revert Hgrow Hcast. rewrite Hmap. clear Hmap.
    set (A := "nutrition_adherence_weekly") in *.
    set (S := "adherence_score_weekly") in *.
    set (H := "sleep_hours_weekly") in *.
    set (N := "sleep_hours_numeric_weekly") in *.
    set (w3 := if has_column w2 H then _ else w2). intros Hgrow Hcast.
    (* the rows before the casts *)
    assert (tracks (λ r r',
              (∀ c, c ∈ weekly_numeric → get r' c = get r c) ∧
              (has_column weekly A = true → get r' S = map_dict ADHERENCE_MAP (get r A)) ∧
              (has_column weekly H = true → get r' N = map_dict SLEEP_BIN_MAP (get r H)))
              weekly w3) as T3.
    { assert (tracks (λ r r', (∀ c, c ∈ weekly_numeric → get r' c = get r c)
                              ∧ get r' A = get r A ∧ get r' H = get r H) weekly w1) as Ta.
      { apply T1.
        - done.
        - intros a b c (H1 & H2 & H3) (H4 & H5 & H6).
          split_and!; [|congruence..]. intros x Hx. rewrite H4, H1; done.
        - intros r c v Hc. split_and!.
          + intros x Hx. rewrite get_insert_ne; [done|]. intros ->.
            apply (weekly_numeric_plain _ Hx). rewrite !elem_of_cons, elem_of_nil in Hc. rewrite !elem_of_cons. tauto.
          + rewrite get_insert_ne; [done|]. intros ->. revert Hc.
            apply (bool_decide_unpack _). vm_compute. exact I.
          + rewrite get_insert_ne; [done|]. intros ->. revert Hc.
            apply (bool_decide_unpack _). vm_compute. exact I. }
      assert (tracks (λ r r', (∀ c, c ∈ weekly_numeric → get r' c = get r c)
                              ∧ (has_column weekly A = true →
                                 get r' S = map_dict ADHERENCE_MAP (get r A))
                              ∧ get r' H = get r H) w1 w2) as Tb.
      { rewrite Hw2. rewrite (Hc1 A). rewrite orb_false_r.
        destruct (has_column weekly A).
        - apply tracks_set_column. intros r. split_and!.
          + intros x Hx. rewrite get_insert_ne; [done|]. intros <-.
            revert Hx. apply (bool_decide_unpack _). vm_compute. exact I.
          + intros _. by rewrite get_insert, decide_True.
          + by rewrite get_insert_ne.
        - apply tracks_refl. intros r. split_and!; done. }
      assert (has_column w2 H = has_column weekly H) as Hh.
      { rewrite Hw2. destruct (has_column w1 A).
        - unfold has_column, set_column. cbn [columns]. rewrite has_column_add.
          fold (has_column w1 H). rewrite (Hc1 H). by rewrite !orb_false_r.
        - rewrite (Hc1 H). by rewrite orb_false_r. }
      assert (tracks (λ r r', (∀ c, c ∈ weekly_numeric → get r' c = get r c)
                              ∧ get r' S = get r S
                              ∧ (has_column weekly H = true →
                                 get r' N = map_dict SLEEP_BIN_MAP (get r H))) w2 w3) as Tc.
      { unfold w3. rewrite Hh. destruct (has_column weekly H).
        - apply tracks_set_column. intros r. split_and!.
          + intros x Hx. rewrite get_insert_ne; [done|]. intros <-.
            revert Hx. apply (bool_decide_unpack _). vm_compute. exact I.
          + by rewrite get_insert_ne.
          + intros _. by rewrite get_insert, decide_True.
        - apply tracks_refl. intros r. split_and!; done. }
      eapply tracks_compose; [|exact Ta|].
      2: { eapply tracks_compose; [|exact Tb|exact Tc].
           intros a b c (H1 & H2 & H3) (H4 & H5 & H6).
           instantiate (1 := λ r r',
             (∀ c, c ∈ weekly_numeric → get r' c = get r c) ∧
             (has_column weekly A = true → get r' S = map_dict ADHERENCE_MAP (get r A)) ∧
             (has_column weekly H = true → get r' N = map_dict SLEEP_BIN_MAP (get r H))).
           split_and!.
           - intros x Hx. rewrite H4, H1; done.
           - intros Ha. rewrite H5. by apply H2.
           - intros Hh'. rewrite (H6 Hh'). by rewrite H3. }
      intros a b c (H1 & H2 & H3) (H4 & H5 & H6). split_and!.
      - intros x Hx. rewrite H4, H1; done.
      - intros Ha. rewrite (H5 Ha). by rewrite H2.
      - intros Hh'. rewrite (H6 Hh'). by rewrite H3. }
    (* the casts *)
    assert (Forall2 (λ ir ir', ir'.1 = ir.1 ∧
              ∀ c, get ir'.2 c = if bool_decide (c ∈ weekly_numeric ∧ c ∈ columns w3)
                                 then to_numeric (get ir.2 c) else get ir.2 c)
              (rows w3) (rows (cast_numeric w3 weekly_numeric))) as Hcast' by exact Hcast.
    clear Hcast. unfold tracks in *.
    split.
    - eapply Forall2_trans; [|exact T3|exact Hcast'].
      simpl. intros x y z (Hl & Hn & Ha & Hs) (Hl' & Hc). split; [congruence|].
      intros c Hc0 Hhas. split_and!.
      + rewrite Hc. rewrite bool_decide_eq_true_2 by (split; [done|by apply Hgrow]).
        by rewrite Hn.
      + intros Ha'. rewrite Hc. rewrite bool_decide_eq_false_2; [by apply Ha|].
        intros [Hin _]. revert Hin. apply (bool_decide_unpack _). vm_compute. exact I.
      + intros Hs'. rewrite Hc. rewrite bool_decide_eq_false_2; [by apply Hs|].
        intros [Hin _]. revert Hin. apply (bool_decide_unpack _). vm_compute. exact I.
    - eapply Forall2_trans; [|exact T3|exact Hcast'].
      simpl. intros x y z (Hl & Hn & Ha & Hs) (Hl' & Hc). split; [congruence|].
      split.
      + intros Ha'. rewrite Hc. rewrite bool_decide_eq_false_2; [by apply Ha|].
        intros [Hin _]. revert Hin. apply (bool_decide_unpack _). vm_compute. exact I.
      + intros Hs'. rewrite Hc. rewrite bool_decide_eq_false_2; [by apply Hs|].
        intros [Hin _]. revert Hin. apply (bool_decide_unpack _). vm_compute. exact I. }
  rewrite Hwk. revert Te Tw Tu Tn Tm. generalize (clean_weekly weekly weeks).
  intros cw Te Tw Tu Tn Tm. unfold tracks in *.
  assert (Forall2 (λ ir ir' : Z * gmap string cell,
            ir'.1 = ir.1 ∧
            ∀ c, c ∉ ["email"; "timestamp"; "week_number"; "adherence_score_weekly";
                      "sleep_hours_numeric_weekly"] ++ weekly_numeric →
                 get ir'.2 c = get ir.2 c) (rows weekly) (rows cw)) as Tu'.
  { apply Tu.
    - done.
    - intros a b c Hab Hbc x Hx. rewrite Hbc, Hab; done.
    - intros r c v Hc x Hx. rewrite get_insert_ne; [done|]. by intros ->. }
  clear Tu.
  apply Forall2_same_length_lookup. split; [by eapply Forall2_length|].
  intros i ir ir' Hi Hi'.
  destruct (Forall2_lookup_lr _ _ _ _ _ _ Te Hi Hi') as [Hl He].
  destruct (Forall2_lookup_lr _ _ _ _ _ _ Tw Hi Hi') as [_ Hw'].
  destruct (Forall2_lookup_lr _ _ _ _ _ _ Tu' Hi Hi') as [_ Hu].
  destruct (Forall2_lookup_lr _ _ _ _ _ _ Tn Hi Hi') as [_ Hn].
  destruct (Forall2_lookup_lr _ _ _ _ _ _ Tm Hi Hi') as [_ [Hma Hms]].
  split; [done|]. split; [done|].
  split; [unfold email_of; rewrite He; apply normalize_email_normal|].
  split; [done|]. split; [|done].
  intros c Hc Hhas. by apply Hn.
Qed.
End CleanedWeekly.

Lemma prep_data_cleaned_weekly_witness :
  map (λ ir, (email_of ir, week_of ir, get ir.2 "bodyweight_lbs_weekly"))
      (rows example_prepared.2)
  = [(VStr "a@x.com", VInt 1, VInt 195); (VStr "z@x.com", VNull, VNull)] ∧
  Forall2 (λ ir ir', ir'.1 = ir.1 ∧ normal_identity (email_of ir'))
    (rows example_raw_weekly) (rows example_prepared.2).
Proof.
  split; [vm_compute; reflexivity|].
  eapply Forall2_impl.
  - apply (prep_data_cleaned_weekly example_py_str example_to_datetime
             example_baseline example_raw_weekly example_prepared.1 example_prepared.2).
    exact example_prepared_eq.
  - simpl. intros ir ir' (Hl & _ & Hn & _). done.
Defined.

(** ** The examples of the summary and of a run *)

Lemma cohort_summary_rows_witness :
  ∃ out,
    cohort_weekly_summary example_cohort = Ok out ∧
    map week_of (rows out) = [VInt 1; VInt 2] ∧
    length (rows out) = weeks_tracked example_cohort ∧
    map (λ ir, get ir.2 "n_participants") (rows out) = [VInt 2; VInt 1] ∧
    map (λ ir, get ir.2 "bodyweight_mean") (rows out)
    = [VFloat (Fin (348 # 2)); VFloat (Fin 195)].
Proof.
  destruct (cohort_summary_rows example_cohort) as (out & Hout & _ & _ & _ & _ & _ & Hn & _).
  - reflexivity.
  - reflexivity.
  - reflexivity.
  - intros c Hc. revert c Hc. apply Forall_forall. repeat constructor.
  - exists out. split; [exact Hout|].
    vm_compute in Hout. injection Hout as <-.
    split_and!; [reflexivity|exact Hn|reflexivity|vm_compute; reflexivity].
Defined.

Lemma example_run_eq :
  weekly_pipeline stable_rows example_py_str example_to_datetime
    (normalize_common example_py_str example_to_datetime example_baseline)
    example_submissions
  = Done example_run.
Proof. vm_compute. reflexivity. Qed.

Lemma pipeline_one_row_per_submission_witness :
  map (λ ir, (ir.1, email_of ir, week_of ir)) (rows example_run.1.2)
  = [(2, VStr "b@x.com", VInt 2); (1, VStr "a@x.com", VInt 1)] ∧
  NoDup (map submission_key (rows example_run.1.2)).
Proof.
  split; [vm_compute; reflexivity|].
  apply (pipeline_one_row_per_submission stable_rows stable_rows_sorts
           example_py_str example_to_datetime
           (normalize_common example_py_str example_to_datetime example_baseline)
           example_submissions example_run.1.1 example_run.1.2 example_run.2).
  vm_compute. reflexivity.
Defined.

Lemma load_tables_errors_witness :
  load_tables stable_rows example_py_str example_to_datetime
    example_full_intake example_bad_label
  = Raised TypeError ∧
  load_tables stable_rows example_py_str example_to_datetime
    example_full_intake example_infinite_label
  = Raised OverflowError ∧
  load_tables stable_rows example_py_str example_to_datetime
    example_full_intake example_half_week
  = Stopped ["timestamp"] ∧
  load_tables stable_rows example_py_str example_to_datetime
    example_baseline example_submissions
  = Stopped ["energy_baseline"; "rhr_bpm_baseline"; "sleep_quality_baseline"] ∧
  (TypeError = TypeError ∨ TypeError = OverflowError ∨ TypeError = MergeError) ∧
  ["timestamp"] ≠ [].
Proof.
  assert (load_tables stable_rows example_py_str example_to_datetime example_full_intake
            example_bad_label = Raised TypeError) as H1 by (vm_compute; reflexivity).
  assert (load_tables stable_rows example_py_str example_to_datetime example_full_intake
            example_half_week = Stopped ["timestamp"]) as H2 by (vm_compute; reflexivity).
  split_and!; [exact H1|vm_compute; reflexivity|exact H2|vm_compute; reflexivity| |].
  - exact (proj1 (load_tables_errors stable_rows example_py_str example_to_datetime
                    example_full_intake example_bad_label) _ H1).
  - exact (proj1 (proj2 (load_tables_errors stable_rows example_py_str example_to_datetime
                           example_full_intake example_half_week) _ H2)).
Defined.
